(** * lambda-http-adapter: the ALB event <-> net/http adapter, embedded in Rocq

    The development follows the Go sources:
    - [core/request_adapter.go] (request half): [RequestAccessor],
      [StripBasePath], [EventToRequest], [EventToRequestWithContext];
    - [core/request_adapter.go] (response half): [ProxyResponseWriter],
      [Write], [WriteHeader], [GetProxyResponse], [description];
    - [core/types.go]: [TimeoutResponse], [NewLoggedError];
    - the echo adapter: [ProxyWithContext], [proxyInternal].

    Go strings and byte slices are sequences of 8-bit bytes and are both
    modelled by [string] (a list of [ascii]).  The functions of the Go
    standard library that the adapter calls are modelled in the modules
    [GoStrings], [strconv], [utf8], [base64], [url], [textproto], [sniff]
    and [http] below, after the sources of Go's standard library; functions
    that return [(value, error)] return a pair whose second component is an
    [option error], [None] being Go's [nil].  What the code prints with
    [log] and [fmt] is not modelled. *)

From Stdlib Require Import ZArith NArith Ascii String List Bool Lia.
From Stdlib Require Import DecimalString DecimalPos DecimalZ.
From stdpp Require Import base option list gmap strings.

Open Scope string_scope.
Open Scope list_scope.

(** ** Bytes *)

Definition byte_val (c : ascii) : N := N_of_ascii c.

Definition in_range (lo hi : N) (c : ascii) : bool :=
  ((lo <=? byte_val c) && (byte_val c <=? hi))%N.

Definition is_lower (c : ascii) : bool := in_range 97 122 c.
Definition is_upper (c : ascii) : bool := in_range 65 90 c.
Definition is_digit (c : ascii) : bool := in_range 48 57 c.
Definition is_alnum (c : ascii) : bool := is_lower c || is_upper c || is_digit c.

(** [c] is one of the bytes of [set]. *)
Fixpoint byte_in (c : ascii) (set : string) : bool :=
  match set with
  | EmptyString => false
  | String d set' => Ascii.eqb c d || byte_in c set'
  end.

Definition all_bytes (p : ascii -> bool) (s : string) : bool :=
  forallb p (list_ascii_of_string s).

Definition any_byte (p : ascii -> bool) (s : string) : bool :=
  existsb p (list_ascii_of_string s).

(** The double quote, which a string literal cannot hold. *)
Definition dquote : ascii := ascii_of_nat 34.

(** ** package strings *)

Module GoStrings.

Definition HasPrefix (s prefix : string) : bool := String.prefix prefix s.

Fixpoint drop (n : nat) (s : string) : string :=
  match n, s with
  | O, _ => s
  | S n', String _ s' => drop n' s'
  | S _, EmptyString => EmptyString
  end.

Fixpoint take (n : nat) (s : string) : string :=
  match n, s with
  | S n', String c s' => String c (take n' s')
  | _, _ => EmptyString
  end.

Definition HasSuffix (s suffix : string) : bool :=
  (String.length suffix <=? String.length s)%nat
  && String.eqb (drop (String.length s - String.length suffix) s) suffix.

Fixpoint TrimLeft (s : string) (cutset : string) : string :=
  match s with
  | EmptyString => EmptyString
  | String c s' => if byte_in c cutset then TrimLeft s' cutset else s
  end.

Fixpoint TrimRight (s : string) (cutset : string) : string :=
  match s with
  | EmptyString => EmptyString
  | String c s' =>
      match TrimRight s' cutset with
      | EmptyString => if byte_in c cutset then EmptyString else String c EmptyString
      | t => String c t
      end
  end.

(** [strings.Trim(s, cutset)] for a cutset of ASCII bytes. *)
Definition Trim (s cutset : string) : string := TrimRight (TrimLeft s cutset) cutset.

(** [strings.Replace(s, old, new, 1)]: the first occurrence only; an empty
    [old] matches at the start of the string. *)
Fixpoint Replace1 (s old new : string) : string :=
  if String.prefix old s then new +:+ drop (String.length old) s
  else match s with
       | EmptyString => EmptyString
       | String c s' => String c (Replace1 s' old new)
       end.

Definition upper_byte (c : ascii) : ascii :=
  if is_lower c then ascii_of_N (byte_val c - 32) else c.

Definition lower_byte (c : ascii) : ascii :=
  if is_upper c then ascii_of_N (byte_val c + 32) else c.

Fixpoint map_bytes (f : ascii -> ascii) (s : string) : string :=
  match s with
  | EmptyString => EmptyString
  | String c s' => String (f c) (map_bytes f s')
  end.

(** [strings.ToUpper] and [strings.ToLower] on the ASCII letters.  Go also
    maps the letters of other scripts, whose bytes are left as they are
    here: the two differ only on a method that holds such a letter, which
    [http.NewRequest] is taken to refuse. *)
Definition ToUpper (s : string) : string := map_bytes upper_byte s.
Definition ToLower (s : string) : string := map_bytes lower_byte s.

(** [strings.Cut(s, sep)] for a one-byte separator: the text before the
    first [sep], the text after it, and whether [sep] was found. *)
Fixpoint Cut (s : string) (sep : ascii) : string * string * bool :=
  match s with
  | EmptyString => (EmptyString, EmptyString, false)
  | String c s' =>
      if Ascii.eqb c sep then (EmptyString, s', true)
      else let '(before, after, found) := Cut s' sep in (String c before, after, found)
  end.

(** [strings.LastIndex(s, sep)] for a one-byte separator, [None] for -1. *)
Fixpoint LastIndex (s : string) (sep : ascii) : option nat :=
  match s with
  | EmptyString => None
  | String c s' =>
      match LastIndex s' sep with
      | Some i => Some (S i)
      | None => if Ascii.eqb c sep then Some O else None
      end
  end.

Fixpoint Count (s : string) (sep : ascii) : nat :=
  match s with
  | EmptyString => O
  | String c s' => (if Ascii.eqb c sep then 1 else 0) + Count s' sep
  end.

Definition Contains (s : string) (sep : ascii) : bool := any_byte (Ascii.eqb sep) s.

End GoStrings.

(** ** package strconv *)

Module strconv.

(** [strconv.Itoa]: the decimal form, with a leading minus sign for a
    negative number. *)
Definition Itoa (i : Z) : string := NilZero.string_of_int (Z.to_int i).

(** The reading back of a decimal string, to state what [Itoa] produces. *)
Definition Atoi (s : string) : option Z := Z.of_int <$> NilZero.int_of_string s.

End strconv.

(** ** package unicode/utf8 *)

Module utf8.

Definition RuneSelf : N := 128.
Definition locb : N := 128.
Definition hicb : N := 191.

(** The table [first] together with [acceptRanges]: for a leading byte, the
    length of the sequence and the range its second byte must lie in;
    [None] is the entry [xx] of an illegal leading byte. *)
Definition first (c : ascii) : option (nat * N * N) :=
  let b := byte_val c in
  if ((194 <=? b) && (b <=? 223))%N then Some (2%nat, locb, hicb)
  else if (b =? 224)%N then Some (3%nat, 160%N, hicb)
  else if ((225 <=? b) && (b <=? 236))%N then Some (3%nat, locb, hicb)
  else if (b =? 237)%N then Some (3%nat, locb, 159%N)
  else if ((238 <=? b) && (b <=? 239))%N then Some (3%nat, locb, hicb)
  else if (b =? 240)%N then Some (4%nat, 144%N, hicb)
  else if ((241 <=? b) && (b <=? 243))%N then Some (4%nat, locb, hicb)
  else if (b =? 244)%N then Some (4%nat, locb, 143%N)
  else None.

Fixpoint Valid (p : string) : bool :=
  match p with
  | EmptyString => true
  | String c0 p1 =>
      if (byte_val c0 <? RuneSelf)%N then Valid p1
      else
        match first c0 with
        | None => false
        | Some (size, lo, hi) =>
            match p1 with
            | EmptyString => false
            | String c1 p2 =>
                if negb (in_range lo hi c1) then false
                else if Nat.eqb size 2 then Valid p2
                else
                  match p2 with
                  | EmptyString => false
                  | String c2 p3 =>
                      if negb (in_range locb hicb c2) then false
                      else if Nat.eqb size 3 then Valid p3
                      else
                        match p3 with
                        | EmptyString => false
                        | String c3 p4 =>
                            if negb (in_range locb hicb c3) then false
                            else Valid p4
                        end
                  end
            end
        end
  end.

End utf8.

(** ** package encoding/base64, the encoding [StdEncoding] *)

Module base64.

(** Six bits, the most significant first. *)
Definition sextet : Type := bool * bool * bool * bool * bool * bool.

Definition sextet_val (s : sextet) : nat :=
  let '(b5, b4, b3, b2, b1, b0) := s in
  (Nat.b2n b5 * 32 + Nat.b2n b4 * 16 + Nat.b2n b3 * 8
   + Nat.b2n b2 * 4 + Nat.b2n b1 * 2 + Nat.b2n b0)%nat.

Definition encodeStd : string :=
  "ABCDEFGHIJKLMNOPQRSTUVWXYZabcdefghijklmnopqrstuvwxyz0123456789+/".

Definition StdPadding : ascii := "="%char.

(** [enc.encode[v]] *)
Definition encode (s : sextet) : ascii :=
  match String.get (sextet_val s) encodeStd with
  | Some c => c
  | None => "A"%char
  end.

Definition sextet_of_nat (n : nat) : sextet :=
  (Nat.testbit n 5, Nat.testbit n 4, Nat.testbit n 3,
   Nat.testbit n 2, Nat.testbit n 1, Nat.testbit n 0).

Fixpoint index_of (c : ascii) (s : string) : option nat :=
  match s with
  | EmptyString => None
  | String d s' => if Ascii.eqb c d then Some O else S <$> index_of c s'
  end.

(** [enc.decodeMap[c]], [None] for the entry 0xff of a byte outside the
    alphabet. *)
Definition decodeMap (c : ascii) : option sextet :=
  sextet_of_nat <$> index_of c encodeStd.

(** The three bytes that four sextets hold, and the shorter tails. *)
Definition quantum3 (s0 s1 s2 s3 : sextet) : string :=
  let '(a5, a4, a3, a2, a1, a0) := s0 in
  let '(b5, b4, b3, b2, b1, b0) := s1 in
  let '(c5, c4, c3, c2, c1, c0) := s2 in
  let '(d5, d4, d3, d2, d1, d0) := s3 in
  String (Ascii b4 b5 a0 a1 a2 a3 a4 a5)
    (String (Ascii c2 c3 c4 c5 b0 b1 b2 b3)
       (String (Ascii d0 d1 d2 d3 d4 d5 c0 c1) EmptyString)).

Definition quantum2 (s0 s1 s2 : sextet) : string :=
  let '(a5, a4, a3, a2, a1, a0) := s0 in
  let '(b5, b4, b3, b2, b1, b0) := s1 in
  let '(c5, c4, c3, c2, c1, c0) := s2 in
  String (Ascii b4 b5 a0 a1 a2 a3 a4 a5)
    (String (Ascii c2 c3 c4 c5 b0 b1 b2 b3) EmptyString).

Definition quantum1 (s0 s1 : sextet) : string :=
  let '(a5, a4, a3, a2, a1, a0) := s0 in
  let '(b5, b4, b3, b2, b1, b0) := s1 in
  String (Ascii b4 b5 a0 a1 a2 a3 a4 a5) EmptyString.

(** [EncodeToString]: three bytes give four characters; a tail of one or
    two bytes is padded with [=]. *)
Fixpoint EncodeToString (src : string) : string :=
  match src with
  | EmptyString => EmptyString
  | String (Ascii x0 x1 x2 x3 x4 x5 x6 x7) EmptyString =>
      String (encode (x7, x6, x5, x4, x3, x2))
        (String (encode (x1, x0, false, false, false, false))
           (String StdPadding (String StdPadding EmptyString)))
  | String (Ascii x0 x1 x2 x3 x4 x5 x6 x7)
      (String (Ascii y0 y1 y2 y3 y4 y5 y6 y7) EmptyString) =>
      String (encode (x7, x6, x5, x4, x3, x2))
        (String (encode (x1, x0, y7, y6, y5, y4))
           (String (encode (y3, y2, y1, y0, false, false))
              (String StdPadding EmptyString)))
  | String (Ascii x0 x1 x2 x3 x4 x5 x6 x7)
      (String (Ascii y0 y1 y2 y3 y4 y5 y6 y7)
         (String (Ascii z0 z1 z2 z3 z4 z5 z6 z7) rest)) =>
      String (encode (x7, x6, x5, x4, x3, x2))
        (String (encode (x1, x0, y7, y6, y5, y4))
           (String (encode (y3, y2, y1, y0, z7, z6))
              (String (encode (z5, z4, z3, z2, z1, z0))
                 (EncodeToString rest))))
  end.

Definition is_newline (c : ascii) : bool :=
  Ascii.eqb c "010"%char || Ascii.eqb c "013"%char.

(** The decoder skips carriage returns and line feeds wherever they are. *)
Fixpoint removeNewlines (s : string) : string :=
  match s with
  | EmptyString => EmptyString
  | String c s' =>
      if is_newline c then removeNewlines s' else String c (removeNewlines s')
  end.

(** [decodeQuantum], repeated: groups of four characters of the alphabet;
    the last group may end in one or two [=], after which nothing may
    follow; an unpadded short group is corrupt input.  The encoding is not
    strict: the unused low bits of a padded group are not checked. *)
Fixpoint decodeQuanta (src : string) : option string :=
  match src with
  | EmptyString => Some EmptyString
  | String c0 (String c1 (String c2 (String c3 rest))) =>
      match decodeMap c0, decodeMap c1 with
      | Some s0, Some s1 =>
          match decodeMap c2, decodeMap c3 with
          | Some s2, Some s3 =>
              String.append (quantum3 s0 s1 s2 s3) <$> decodeQuanta rest
          | Some s2, None =>
              if Ascii.eqb c3 StdPadding && String.eqb rest EmptyString
              then Some (quantum2 s0 s1 s2) else None
          | None, _ =>
              if Ascii.eqb c2 StdPadding && Ascii.eqb c3 StdPadding
                 && String.eqb rest EmptyString
              then Some (quantum1 s0 s1) else None
          end
      | _, _ => None
      end
  | _ => None
  end.

(** [DecodeString]: [None] stands for a [CorruptInputError]. *)
Definition DecodeString (s : string) : option string :=
  decodeQuanta (removeNewlines s).

End base64.

(** ** package net/textproto and the type [http.Header] *)

Module textproto.

(** The token bytes of RFC 7230, the bytes a header field name may hold. *)
Definition validHeaderFieldByte (c : ascii) : bool :=
  is_alnum c || byte_in c "!#$%&'*+-.^_`|~".

Fixpoint canonicalize (upper : bool) (a : string) : string :=
  match a with
  | EmptyString => EmptyString
  | String c a' =>
      let c' := if upper then GoStrings.upper_byte c else GoStrings.lower_byte c in
      String c' (canonicalize (Ascii.eqb c' "-"%char) a')
  end.

(** [CanonicalMIMEHeaderKey]: the first letter and every letter after a
    hyphen in upper case, the rest in lower case; a key that holds a byte
    that is not a token byte is returned unchanged. *)
Definition CanonicalMIMEHeaderKey (s : string) : string :=
  if all_bytes validHeaderFieldByte s then canonicalize true s else s.

End textproto.

(** [http.Header] is [map[string][]string]; a nil map reads as the empty one. *)
Abbreviation HeaderMap := (gmap string (list string)).

Module header.

(** [h[key]], the nil slice for an absent key. *)
Definition values (h : HeaderMap) (key : string) : list string := default [] (h !! key).

Definition Add (key value : string) (h : HeaderMap) : HeaderMap :=
  let key := textproto.CanonicalMIMEHeaderKey key in
  <[key := values h key ++ [value]]> h.

Definition Set_ (key value : string) (h : HeaderMap) : HeaderMap :=
  <[textproto.CanonicalMIMEHeaderKey key := [value]]> h.

Definition Del (key : string) (h : HeaderMap) : HeaderMap :=
  delete (textproto.CanonicalMIMEHeaderKey key) h.

Definition Get (h : HeaderMap) (key : string) : string :=
  match values h (textproto.CanonicalMIMEHeaderKey key) with
  | [] => EmptyString
  | v :: _ => v
  end.

End header.

(** ** net/http: content sniffing ([sniff.go]) *)

Module sniff.

Definition sniffLen : nat := 512.

Definition bytes_of (l : list nat) : string :=
  string_of_list_ascii (map ascii_of_nat l).

Definition zeros (n : nat) : string := bytes_of (repeat 0%nat n).
Definition ones (n : nat) : string := bytes_of (repeat 255%nat n).

Definition isWS (b : ascii) : bool :=
  byte_in b (bytes_of [9; 10; 12; 13; 32])%nat.

Definition isTT (b : ascii) : bool := byte_in b " >".

Inductive sniffSig : Type :=
| htmlSig (h : string)
| maskedSig (mask pat : string) (skipWS : bool) (ct : string)
| exactSig (sig ct : string)
| mp4Sig
| textSig.

(** [db &= 0xDF] where the pattern byte is an upper-case letter. *)
Definition and_byte (a m : ascii) : ascii := ascii_of_N (N.land (byte_val a) (byte_val m)).

Fixpoint html_bytes (h data : string) : bool :=
  match h, data with
  | EmptyString, String t _ => isTT t
  | String b h', String db data' =>
      let db := if is_upper b then and_byte db (ascii_of_nat 223) else db in
      Ascii.eqb b db && html_bytes h' data'
  | _, EmptyString => false
  end.

Fixpoint masked_bytes (mask pat data : string) : bool :=
  match pat, mask, data with
  | EmptyString, _, _ => true
  | String pb pat', String mb mask', String db data' =>
      Ascii.eqb (and_byte db mb) pb && masked_bytes mask' pat' data'
  | _, _, _ => false
  end.

Definition be32 (data : string) : nat :=
  match list_ascii_of_string (GoStrings.take 4 data) with
  | [a; b; c; d] =>
      N.to_nat (((byte_val a * 256 + byte_val b) * 256 + byte_val c) * 256 + byte_val d)
  | _ => 0%nat
  end.

(** The loop of [mp4Sig.match] over the brands of the box, [n] of them left
    to look at, the next one at offset [st]. *)
Fixpoint mp4_brands (n st : nat) (data : string) : bool :=
  match n with
  | O => false
  | S n' =>
      if Nat.eqb st 12 then mp4_brands n' (st + 4) data
      else String.eqb (GoStrings.take 3 (GoStrings.drop st data)) "mp4"
           || mp4_brands n' (st + 4) data
  end.

Definition mp4_match (data : string) : bool :=
  if (String.length data <? 12)%nat then false
  else
    let boxSize := be32 data in
    if (String.length data <? boxSize)%nat || negb (Nat.eqb (boxSize mod 4) 0) then false
    else if negb (String.eqb (GoStrings.take 4 (GoStrings.drop 4 data)) "ftyp") then false
    else mp4_brands ((boxSize - 8) / 4) 8 data.

Definition binary_byte (b : ascii) : bool :=
  (byte_val b <=? 8)%N || (byte_val b =? 11)%N
  || in_range 14 26 b || in_range 28 31 b.

(** [sig.match(data, firstNonWS)]; [ws] is [data[firstNonWS:]]. *)
Definition match_sig (sig : sniffSig) (data ws : string) : string :=
  match sig with
  | htmlSig h => if html_bytes h ws then "text/html; charset=utf-8" else ""
  | maskedSig mask pat skipWS ct =>
      let data := if skipWS then ws else data in
      if negb (Nat.eqb (String.length pat) (String.length mask)) then ""
      else if masked_bytes mask pat data then ct else ""
  | exactSig sig ct => if String.prefix sig data then ct else ""
  | mp4Sig => if mp4_match data then "video/mp4" else ""
  | textSig => if any_byte binary_byte ws then "" else "text/plain; charset=utf-8"
  end.

Definition htmlTags : list string :=
  ["<!DOCTYPE HTML"; "<HTML"; "<HEAD"; "<SCRIPT"; "<IFRAME"; "<H1"; "<DIV";
   "<FONT"; "<TABLE"; "<A"; "<STYLE"; "<TITLE"; "<B"; "<BODY"; "<BR"; "<P";
   "<!--"].

Definition riff (tag : string) : string := "RIFF" +:+ zeros 4 +:+ tag.
Definition riffMask (n : nat) : string := ones 4 +:+ zeros 4 +:+ ones n.

(** The signatures that follow the HTML ones in [sniffSignatures]. *)
Definition otherSignatures : list sniffSig :=
  [ maskedSig (ones 5) "<?xml" true "text/xml; charset=utf-8";
    exactSig "%PDF-" "application/pdf";
    exactSig "%!PS-Adobe-" "application/postscript";
    maskedSig (ones 2 +:+ zeros 2) (bytes_of [254; 255; 0; 0])%nat false
      "text/plain; charset=utf-16be";
    maskedSig (ones 2 +:+ zeros 2) (bytes_of [255; 254; 0; 0])%nat false
      "text/plain; charset=utf-16le";
    maskedSig (ones 3 +:+ zeros 1) (bytes_of [239; 187; 191; 0])%nat false
      "text/plain; charset=utf-8";
    exactSig (bytes_of [0; 0; 1; 0])%nat "image/x-icon";
    exactSig (bytes_of [0; 0; 2; 0])%nat "image/x-icon";
    exactSig "BM" "image/bmp";
    exactSig "GIF87a" "image/gif";
    exactSig "GIF89a" "image/gif";
    maskedSig (riffMask 6) (riff "WEBPVP") false "image/webp";
    exactSig (bytes_of [137; 80; 78; 71; 13; 10; 26; 10])%nat "image/png";
    exactSig (bytes_of [255; 216; 255])%nat "image/jpeg";
    maskedSig (ones 4) ".snd" false "audio/basic";
    maskedSig (riffMask 4) ("FORM" +:+ zeros 4 +:+ "AIFF") false "audio/aiff";
    maskedSig (ones 3) "ID3" false "audio/mpeg";
    maskedSig (ones 5) ("OggS" +:+ zeros 1) false "application/ogg";
    maskedSig (ones 8) ("MThd" +:+ bytes_of [0; 0; 0; 6])%nat false "audio/midi";
    maskedSig (riffMask 4) (riff "AVI ") false "video/avi";
    maskedSig (riffMask 4) (riff "WAVE") false "audio/wave";
    mp4Sig;
    exactSig (bytes_of [26; 69; 223; 163])%nat "video/webm";
    maskedSig (zeros 34 +:+ ones 2) (zeros 34 +:+ "LP") false
      "application/vnd.ms-fontobject";
    exactSig (bytes_of [0; 1; 0; 0])%nat "font/ttf";
    exactSig "OTTO" "font/otf";
    exactSig "ttcf" "font/collection";
    exactSig "wOFF" "font/woff";
    exactSig "wOF2" "font/woff2";
    exactSig (bytes_of [31; 139; 8])%nat "application/x-gzip";
    exactSig ("PK" +:+ bytes_of [3; 4])%nat "application/zip";
    exactSig ("Rar!" +:+ bytes_of [26; 7; 0])%nat "application/x-rar-compressed";
    exactSig ("Rar!" +:+ bytes_of [26; 7; 1; 0])%nat "application/x-rar-compressed";
    exactSig (bytes_of [0; 97; 115; 109])%nat "application/wasm";
    textSig ].

Definition sniffSignatures : list sniffSig := map htmlSig htmlTags ++ otherSignatures.

Fixpoint first_match (sigs : list sniffSig) (data ws : string) : string :=
  match sigs with
  | [] => "application/octet-stream"
  | sig :: sigs' =>
      let ct := match_sig sig data ws in
      if String.eqb ct "" then first_match sigs' data ws else ct
  end.

(** The bytes that the HTML signatures match: after leading white space, one
    of [htmlTags] in either case, followed by a space or by [>]. *)
Definition isHTML (data : string) : bool :=
  let data := GoStrings.take sniffLen data in
  existsb (fun h => html_bytes h (GoStrings.TrimLeft data (bytes_of [9; 10; 12; 13; 32])%nat))
          htmlTags.

(** [http.DetectContentType]: at most the first 512 bytes are looked at. *)
Definition DetectContentType (data : string) : string :=
  let data := GoStrings.take sniffLen data in
  first_match sniffSignatures data (GoStrings.TrimLeft data (bytes_of [9; 10; 12; 13; 32])%nat).

End sniff.

(** ** package net/url *)

Module url.

Inductive encoding : Type :=
| encodePath | encodePathSegment | encodeHost | encodeZone
| encodeUserPassword | encodeQueryComponent | encodeFragment.

Definition is_host_mode (mode : encoding) : bool :=
  match mode with encodeHost | encodeZone => true | _ => false end.

Definition is_query_mode (mode : encoding) : bool :=
  match mode with encodeQueryComponent => true | _ => false end.

Definition shouldEscape (c : ascii) (mode : encoding) : bool :=
  if is_alnum c then false
  else if is_host_mode mode && byte_in c (String dquote "!$&'()*+,;=:[]<>") then false
  else if byte_in c "-_.~" then false
  else if byte_in c "$&+,/:;=?@"
          && match mode with
             | encodePath | encodePathSegment | encodeUserPassword
             | encodeQueryComponent | encodeFragment => true
             | _ => false
             end
  then match mode with
       | encodePath => Ascii.eqb c "?"
       | encodePathSegment => byte_in c "/;,?"
       | encodeUserPassword => byte_in c "@/?:"
       | encodeQueryComponent => true
       | _ => false
       end
  else if match mode with encodeFragment => byte_in c "!()*" | _ => false end then false
  else true.

Definition upperhex : string := "0123456789ABCDEF".

Definition hexdigit (n : N) : ascii :=
  match String.get (N.to_nat n) upperhex with
  | Some c => c
  | None => "0"%char
  end.

(** [escape(s, encodeQueryComponent)]: a space becomes [+], every other
    byte that must be escaped becomes [%XX] in upper-case hexadecimal. *)
Fixpoint escape (s : string) (mode : encoding) : string :=
  match s with
  | EmptyString => EmptyString
  | String c s' =>
      if Ascii.eqb c " " && is_query_mode mode then String "+" (escape s' mode)
      else if shouldEscape c mode
      then String "%" (String (hexdigit (byte_val c / 16))
                         (String (hexdigit (byte_val c mod 16)) (escape s' mode)))
      else String c (escape s' mode)
  end.

Definition QueryEscape (s : string) : string := escape s encodeQueryComponent.

Definition ishex (c : ascii) : bool :=
  is_digit c || in_range 97 102 c || in_range 65 70 c.

Definition unhex (c : ascii) : N :=
  if is_digit c then byte_val c - 48
  else if in_range 97 102 c then byte_val c - 97 + 10
  else if in_range 65 70 c then byte_val c - 65 + 10
  else 0.

(** [unescape(s, mode)]: [None] stands for an [EscapeError] or an
    [InvalidHostError]. *)
Fixpoint unescape (s : string) (mode : encoding) : option string :=
  match s with
  | EmptyString => Some EmptyString
  | String c s' =>
      if Ascii.eqb c "%" then
        match s' with
        | String h1 (String h2 s'') =>
            let v := ascii_of_N (unhex h1 * 16 + unhex h2) in
            let is25 := Ascii.eqb h1 "2" && Ascii.eqb h2 "5" in
            if negb (ishex h1 && ishex h2) then None
            else if match mode with encodeHost => true | _ => false end
                    && (unhex h1 <? 8)%N && negb is25 then None
            else if match mode with encodeZone => true | _ => false end
                    && negb is25 && negb (Ascii.eqb v " ") && shouldEscape v encodeHost
            then None
            else String v <$> unescape s'' mode
        | _ => None
        end
      else if Ascii.eqb c "+" then
        String (if is_query_mode mode then " "%char else "+"%char) <$> unescape s' mode
      else if is_host_mode mode && (byte_val c <? 128)%N && shouldEscape c encodeHost
      then None
      else String c <$> unescape s' mode
  end.

(** [*Userinfo]: [None] is the nil pointer; the password may be unset. *)
Record URL : Type := mkURL {
  Scheme : string;
  Opaque : string;
  User : option (string * option string);
  Host : string;
  Path : string;
  ForceQuery : bool;
  RawQuery : string;
  Fragment : string
}.

Inductive schemeScan : Type :=
| NoScheme
| MissingScheme
| FoundScheme (scheme rest : string).

Definition scanCons (c : ascii) (r : schemeScan) : schemeScan :=
  match r with
  | FoundScheme scheme rest => FoundScheme (String c scheme) rest
  | other => other
  end.

Fixpoint scanScheme (atStart : bool) (s : string) : schemeScan :=
  match s with
  | EmptyString => NoScheme
  | String c s' =>
      if is_lower c || is_upper c then scanCons c (scanScheme false s')
      else if is_digit c || byte_in c "+-." then
        if atStart then NoScheme else scanCons c (scanScheme false s')
      else if Ascii.eqb c ":" then
        if atStart then MissingScheme else FoundScheme EmptyString s'
      else NoScheme
  end.

(** [getScheme]: [None] is the error "missing protocol scheme". *)
Definition getScheme (rawURL : string) : option (string * string) :=
  match scanScheme true rawURL with
  | NoScheme => Some (EmptyString, rawURL)
  | MissingScheme => None
  | FoundScheme scheme rest => Some (scheme, rest)
  end.

Definition stringContainsCTLByte (s : string) : bool :=
  any_byte (fun b => (byte_val b <? 32)%N || (byte_val b =? 127)%N) s.

Definition validOptionalPort (port : string) : bool :=
  match port with
  | EmptyString => true
  | String c digits => Ascii.eqb c ":" && all_bytes is_digit digits
  end.

Definition validUserinfo (s : string) : bool :=
  all_bytes (fun r => is_alnum r || byte_in r "-._:~!$&'()*+,;=%@") s.

Definition parseHost (host : string) : option string :=
  if String.prefix "[" host then
    match GoStrings.LastIndex host "]" with
    | None => None
    | Some i =>
        if negb (validOptionalPort (GoStrings.drop (S i) host)) then None
        else
          match String.index 0 "%25" (GoStrings.take i host) with
          | Some zone =>
              host1 ← unescape (GoStrings.take zone host) encodeHost;
              host2 ← unescape (GoStrings.take (i - zone) (GoStrings.drop zone host)) encodeZone;
              host3 ← unescape (GoStrings.drop i host) encodeHost;
              Some (host1 +:+ host2 +:+ host3)
          | None => unescape host encodeHost
          end
    end
  else
    match GoStrings.LastIndex host ":" with
    | Some i =>
        if negb (validOptionalPort (GoStrings.drop i host)) then None
        else unescape host encodeHost
    | None => unescape host encodeHost
    end.

Definition parseAuthority (authority : string)
  : option (option (string * option string) * string) :=
  match GoStrings.LastIndex authority "@" with
  | None => host ← parseHost authority; Some (None, host)
  | Some i =>
      host ← parseHost (GoStrings.drop (S i) authority);
      let userinfo := GoStrings.take i authority in
      if negb (validUserinfo userinfo) then None
      else if negb (GoStrings.Contains userinfo ":") then
        username ← unescape userinfo encodeUserPassword;
        Some (Some (username, None), host)
      else
        let '(username, password, _) := GoStrings.Cut userinfo ":" in
        username ← unescape username encodeUserPassword;
        password ← unescape password encodeUserPassword;
        Some (Some (username, Some password), host)
  end.

(** The query is split off before the path is looked at: a single trailing
    [?] only forces an empty query, otherwise the text after the first [?]
    is the raw query. *)
Definition splitQuery (rest : string) : string * string * bool :=
  if GoStrings.HasSuffix rest "?" && Nat.eqb (GoStrings.Count rest "?") 1
  then (GoStrings.take (String.length rest - 1) rest, EmptyString, true)
  else let '(before, after, _) := GoStrings.Cut rest "?" in (before, after, false).

(** [parse(rawURL, false)]; [None] stands for the error. *)
Definition parse (rawURL : string) : option URL :=
  if stringContainsCTLByte rawURL then None
  else if String.eqb rawURL "*"
  then Some (mkURL EmptyString EmptyString None EmptyString "*" false EmptyString EmptyString)
  else
    '(scheme, rest) ← getScheme rawURL;
    let scheme := GoStrings.ToLower scheme in
    let '(rest, rawQuery, forceQuery) := splitQuery rest in
    let hasScheme := negb (String.eqb scheme EmptyString) in
    if negb (String.prefix "/" rest) && hasScheme
    then Some (mkURL scheme rest None EmptyString EmptyString forceQuery rawQuery EmptyString)
    else if negb (String.prefix "/" rest)
            && GoStrings.Contains (fst (fst (GoStrings.Cut rest "/"))) ":"
    then None
    else
      '(user, host, rest) ←
        (if (hasScheme || negb (String.prefix "///" rest)) && String.prefix "//" rest
         then
           let '(authority, after, found) := GoStrings.Cut (GoStrings.drop 2 rest) "/" in
           '(user, host) ← parseAuthority authority;
           Some (user, host, if found then String "/" after else EmptyString)
         else Some (None, EmptyString, rest));
      path ← unescape rest encodePath;
      Some (mkURL scheme EmptyString user host path forceQuery rawQuery EmptyString).

Definition setFragment (u : URL) (f : string) : option URL :=
  frag ← unescape f encodeFragment;
  Some (mkURL (Scheme u) (Opaque u) (User u) (Host u) (Path u)
              (ForceQuery u) (RawQuery u) frag).

(** [url.Parse]: the fragment is cut off first. *)
Definition Parse (rawURL : string) : option URL :=
  let '(u, frag, _) := GoStrings.Cut rawURL "#" in
  url ← parse u;
  if String.eqb frag EmptyString then Some url else setFragment url frag.

End url.

(** ** Errors, contexts and the event records *)

(** The error values the adapter meets.  [Errorf format e] is
    [fmt.Errorf(format, e)] with one [%v] verb. *)
Inductive error : Type :=
| CorruptInputError
| InvalidMethodError (method : string)
| URLParseError (rawURL : string)
| errorString (s : string)
| Errorf (format : string) (arg : error).

(** A Go map that the code ranges over: its entries in the order in which
    this run of [range] visits them.  Go fixes no order, so a statement for
    every list of entries holds for every order; the keys of a map are
    pairwise different ([gomap_ok]). *)
Abbreviation gomap V := (list (string * V)).

Definition gomap_ok {V : Type} (m : gomap V) : Prop := NoDup (map fst m).

Module lambdacontext.

Record LambdaContext : Type := {
  AwsRequestID : string;
  InvokedFunctionArn : string
}.

End lambdacontext.

Module events.

(** [ALBTargetGroupRequestContext], reduced to the target group ARN of its
    [ELB] field. *)
Record ALBTargetGroupRequestContext : Type := {
  TargetGroupArn : string
}.

Record ALBTargetGroupRequest : Type := {
  HTTPMethod : string;
  Path : string;
  QueryStringParameters : gomap string;
  MultiValueQueryStringParameters : gomap (list string);
  Headers : gomap string;
  MultiValueHeaders : gomap (list string);
  RequestContext : ALBTargetGroupRequestContext;
  IsBase64Encoded : bool;
  Body : string
}.

Record ALBTargetGroupResponse : Type := mkResponse {
  StatusCode : Z;
  StatusDescription : string;
  RespHeaders : gmap string string;
  RespMultiValueHeaders : HeaderMap;
  RespBody : string;
  RespIsBase64Encoded : bool
}.

(** The zero value [events.ALBTargetGroupResponse{}]. *)
Definition emptyResponse : ALBTargetGroupResponse :=
  mkResponse 0 EmptyString ∅ ∅ EmptyString false.

End events.

(** [requestContext], the value stored under the unexported key [ctxKey{}]. *)
Record requestContext : Type := {
  lambdaContext : option lambdacontext.LambdaContext;
  albContext : events.ALBTargetGroupRequestContext
}.

(** A [context.Context], as far as the adapter reads and writes it: the value
    under the key of package [lambdacontext] and the value under [ctxKey{}]. *)
Record Context : Type := mkContext {
  lambdaValue : option lambdacontext.LambdaContext;
  ctxKeyValue : option requestContext
}.

Definition Background : Context := mkContext None None.

(** ** package net/http: requests *)

Module http.

Definition StatusOK : Z := 200.
Definition StatusGatewayTimeout : Z := 504.

Record Request : Type := mkRequest {
  Method : string;
  URL : url.URL;
  ReqHeader : HeaderMap;
  ReqBody : string;
  ReqHost : string;
  ctx : Context
}.

Definition validMethod (method : string) : bool :=
  negb (String.eqb method EmptyString) && all_bytes textproto.validHeaderFieldByte method.

Definition hasPort (s : string) : bool :=
  match GoStrings.LastIndex s ":", GoStrings.LastIndex s "]" with
  | Some i, Some j => (j <? i)%nat
  | Some _, None => true
  | None, _ => false
  end.

Definition removeEmptyPort (host : string) : string :=
  if hasPort host && GoStrings.HasSuffix host ":"
  then GoStrings.take (String.length host - 1) host
  else host.

(** [http.NewRequest(method, url, bytes.NewReader(body))]: the method must
    be a token and the URL must parse; the new request has an empty header
    map and the background context. *)
Definition NewRequest (method rawURL : string) (body : string)
  : option Request * option error :=
  let method := if String.eqb method EmptyString then "GET" else method in
  if negb (validMethod method) then (None, Some (InvalidMethodError method))
  else
    match url.Parse rawURL with
    | None => (None, Some (URLParseError rawURL))
    | Some u =>
        let host := removeEmptyPort (url.Host u) in
        let u := url.mkURL (url.Scheme u) (url.Opaque u) (url.User u) host
                   (url.Path u) (url.ForceQuery u) (url.RawQuery u) (url.Fragment u) in
        (Some (mkRequest method u ∅ body host Background), None)
    end.

Definition WithContext (r : Request) (c : Context) : Request :=
  mkRequest (Method r) (URL r) (ReqHeader r) (ReqBody r) (ReqHost r) c.

Definition WithHeader (r : Request) (h : HeaderMap) : Request :=
  mkRequest (Method r) (URL r) h (ReqBody r) (ReqHost r) (ctx r).

End http.

(** ** core/request_adapter.go: from the event to the request *)

Import events.

Definition CustomHostVariable : string := "GO_API_HOST".

Definition DefaultServerAddress : string := "https://aws-serverless-go-api.com".

(** The process environment, read by [os.LookupEnv]. *)
Abbreviation Environ := (gmap string string).

Definition LookupEnv (env : Environ) (name : string) : option string := env !! name.

Record RequestAccessor : Type := mkAccessor {
  stripBasePath : string
}.

(** [StripBasePath] stores the normalised prefix in the accessor and returns
    it; the result is the returned string and the accessor after the call. *)
Definition StripBasePath (basePath : string) (r : RequestAccessor)
  : string * RequestAccessor :=
  if String.eqb (GoStrings.Trim basePath " ") EmptyString
  then (EmptyString, mkAccessor EmptyString)
  else
    let newBasePath := basePath in
    let newBasePath :=
      if negb (GoStrings.HasPrefix newBasePath "/") then "/" +:+ newBasePath
      else newBasePath in
    let newBasePath :=
      if GoStrings.HasSuffix newBasePath "/"
      then GoStrings.take (String.length newBasePath - 1) newBasePath
      else newBasePath in
    (newBasePath, mkAccessor newBasePath).

(** Lines 80-87: the body, decoded when the record says it is base64. *)
Definition decodeBody (req : ALBTargetGroupRequest) : option string :=
  if IsBase64Encoded req then base64.DecodeString (Body req) else Some (Body req).

(** Lines 89-100: the path without the configured prefix, with a leading
    slash. *)
Definition strippedPath (r : RequestAccessor) (req : ALBTargetGroupRequest) : string :=
  let path := Path req in
  let path :=
    if negb (String.eqb (stripBasePath r) EmptyString)
       && (1 <? String.length (stripBasePath r))%nat
    then
      if GoStrings.HasPrefix path (stripBasePath r)
      then GoStrings.Replace1 path (stripBasePath r) EmptyString
      else path
    else path in
  if negb (GoStrings.HasPrefix path "/") then "/" +:+ path else path.

(** Lines 101-105. *)
Definition serverAddress (env : Environ) : string :=
  match LookupEnv env CustomHostVariable with
  | Some customAddress => customAddress
  | None => DefaultServerAddress
  end.

(** One turn of the inner loops at lines 112-116 and 128-132. *)
Definition addPair (queryString q v : string) : string :=
  (if negb (String.eqb queryString EmptyString) then queryString +:+ "&" else queryString)
  +:+ url.QueryEscape q +:+ "=" +:+ url.QueryEscape v.

(** Lines 109-120. *)
Definition multiValueQuery (m : gomap (list string)) : string :=
  fold_left (fun queryString '(q, l) =>
               fold_left (fun queryString v => addPair queryString q v) l queryString)
            m EmptyString.

(** Lines 126-134. *)
Definition singleValueQuery (m : gomap string) : string :=
  fold_left (fun queryString '(q, v) => addPair queryString q v) m EmptyString.

(** Lines 108-137: what is appended to the address and the path. *)
Definition queryPart (req : ALBTargetGroupRequest) : string :=
  if (0 <? length (MultiValueQueryStringParameters req))%nat
  then "?" +:+ multiValueQuery (MultiValueQueryStringParameters req)
  else if (0 <? length (QueryStringParameters req))%nat
  then "?" +:+ singleValueQuery (QueryStringParameters req)
  else EmptyString.

(** The value of [path] at line 139, the URL handed to [http.NewRequest]. *)
Definition requestURL (r : RequestAccessor) (env : Environ) (req : ALBTargetGroupRequest)
  : string :=
  serverAddress env +:+ strippedPath r req +:+ queryPart req.

(** Lines 151-154. *)
Definition addHeaders (headers : gomap string) (h : HeaderMap) : HeaderMap :=
  fold_left (fun h '(name, value) => header.Add name value h) headers h.

(** [EventToRequest].  The two calls that print the construction error are
    left out: nothing reads what they print. *)
Definition EventToRequest (r : RequestAccessor) (env : Environ) (req : ALBTargetGroupRequest)
  : option http.Request * option error :=
  match decodeBody req with
  | None => (None, Some CorruptInputError)
  | Some decodedBody =>
      match http.NewRequest (GoStrings.ToUpper (HTTPMethod req))
                            (requestURL r env req) decodedBody with
      | (Some httpRequest, None) =>
          (Some (http.WithHeader httpRequest
                   (addHeaders (Headers req) (http.ReqHeader httpRequest))), None)
      | (_, err) => (None, err)
      end
  end.

Definition addToContext (c : Context) (req : http.Request) (albRequest : ALBTargetGroupRequest)
  : http.Request :=
  let lc := lambdaValue c in
  let rc := {| lambdaContext := lc; albContext := RequestContext albRequest |} in
  http.WithContext req (mkContext (lambdaValue c) (Some rc)).

(** [EventToRequestWithContext]; the error is also printed with [log.Println]. *)
Definition EventToRequestWithContext (r : RequestAccessor) (env : Environ) (c : Context)
  (req : ALBTargetGroupRequest) : option http.Request * option error :=
  match EventToRequest r env req with
  | (Some httpRequest, None) => (Some (addToContext c httpRequest req), None)
  | (_, err) => (None, err)
  end.

Definition GetALBContextFromContext (c : Context)
  : ALBTargetGroupRequestContext * bool :=
  match ctxKeyValue c with
  | Some v => (albContext v, true)
  | None => ({| TargetGroupArn := EmptyString |}, false)
  end.

Definition GetRuntimeContextFromContext (c : Context)
  : option lambdacontext.LambdaContext * bool :=
  match ctxKeyValue c with
  | Some v => (lambdaContext v, true)
  | None => (None, false)
  end.

(** ** core/request_adapter.go: the response writer *)

(** The methods of the writer read and change the writer they are called on:
    they are computations in a state monad over the writer. *)
Definition State (S A : Type) : Type := S -> A * S.

#[global] Instance state_ret {S : Type} : MRet (State S) := fun A a s => (a, s).

#[global] Instance state_bind {S : Type} : MBind (State S) :=
  fun A B f m s => let '(a, s') := m s in f a s'.

Definition gets {S A : Type} (f : S -> A) : State S A := fun s => (f s, s).

Definition modify {S : Type} (f : S -> S) : State S unit := fun s => (tt, f s).

Definition exec {S A : Type} (m : State S A) (s : S) : S := snd (m s).

Definition eval {S A : Type} (m : State S A) (s : S) : A := fst (m s).

Definition defaultStatusCode : Z := -1.

Definition contentTypeHeaderKey : string := "Content-Type".

Record ProxyResponseWriter : Type := mkWriter {
  headers : HeaderMap;
  body : string;
  status : Z
}.

Definition NewProxyResponseWriter : ProxyResponseWriter :=
  mkWriter ∅ EmptyString defaultStatusCode.

Definition setStatus (st : Z) : State ProxyResponseWriter unit :=
  modify (fun r => mkWriter (headers r) (body r) st).

(** A change of the live map that [Header()] returns. *)
Definition updateHeader (f : HeaderMap -> HeaderMap) : State ProxyResponseWriter unit :=
  modify (fun r => mkWriter (f (headers r)) (body r) (status r)).

(** [(&r.body).Write(body)]: [bytes.Buffer.Write] appends and returns the
    number of bytes and a nil error. *)
Definition bufferWrite (p : string) : State ProxyResponseWriter (Z * option error) :=
  _ ← modify (fun r => mkWriter (headers r) (body r +:+ p) (status r));
  mret (Z.of_nat (String.length p), None).

Definition Header : State ProxyResponseWriter HeaderMap := gets headers.

Definition Write (p : string) : State ProxyResponseWriter (Z * option error) :=
  st ← gets status;
  _ ← (if (st =? -1)%Z then setStatus http.StatusOK else mret tt);
  h ← Header;
  _ ← (if String.eqb (header.Get h contentTypeHeaderKey) EmptyString
       then updateHeader (header.Add contentTypeHeaderKey (sniff.DetectContentType p))
       else mret tt);
  bufferWrite p.

Definition WriteHeader (st : Z) : State ProxyResponseWriter unit := setStatus st.

Definition description (statusCode : Z) : string := strconv.Itoa statusCode.

Definition GetProxyResponse : State ProxyResponseWriter (ALBTargetGroupResponse * option error) :=
  st ← gets status;
  if (st =? defaultStatusCode)%Z
  then mret (emptyResponse, Some (errorString "Status code not set on response"))
  else
    bb ← gets body;
    h ← gets headers;
    let '(output, isBase64) :=
      if utf8.Valid bb then (bb, false) else (base64.EncodeToString bb, true) in
    mret ({| StatusCode := st;
             StatusDescription := description st;
             RespHeaders := ∅;
             RespMultiValueHeaders := h;
             RespBody := output;
             RespIsBase64Encoded := isBase64 |}, None).

(** ** core/types.go *)

Definition TimeoutResponse : ALBTargetGroupResponse :=
  {| StatusCode := http.StatusGatewayTimeout;
     StatusDescription := strconv.Itoa http.StatusGatewayTimeout;
     RespHeaders := ∅;
     RespMultiValueHeaders := ∅;
     RespBody := EmptyString;
     RespIsBase64Encoded := false |}.

(** [NewLoggedError] builds the error with [fmt.Errorf]; the line it prints
    is not part of the value it returns and is left out. *)
Definition NewLoggedError (format : string) (a : error) : error := Errorf format a.

(** ** The echo adapter ([ProxyWithContext] and [proxyInternal]) *)

(** [ServeHTTP(w, req)] of the framework: any function that is handed the
    request pointer (nil is [None]) and acts on the writer. *)
Definition Handler : Type := option http.Request -> State ProxyResponseWriter unit.

Record EchoLambda : Type := mkEchoLambda {
  accessor : RequestAccessor;
  Echo : Handler
}.

Definition proxyInternal (e : EchoLambda) (req : option http.Request) (err : option error)
  : ALBTargetGroupResponse * option error :=
  match err with
  | Some err =>
      (TimeoutResponse,
       Some (NewLoggedError "Could not convert proxy event to request: %v" err))
  | None =>
      let respWriter := NewProxyResponseWriter in
      let respWriter := exec (Echo e req) respWriter in
      match eval GetProxyResponse respWriter with
      | (_, Some err) =>
          (TimeoutResponse,
           Some (NewLoggedError "Error while generating proxy response: %v" err))
      | (proxyResponse, None) => (proxyResponse, None)
      end
  end.

Definition ProxyWithContext (e : EchoLambda) (env : Environ) (c : Context)
  (req : ALBTargetGroupRequest) : ALBTargetGroupResponse * option error :=
  let '(echoRequest, err) := EventToRequestWithContext (accessor e) env c req in
  proxyInternal e echoRequest err.

(** ** Handlers, as the statements below speak of them *)

(** The calls that a handler can make on the response writer: the three
    methods of [http.ResponseWriter], and the changes of the live header map
    that [Header()] hands out. *)
Inductive call : Type :=
| CallWrite (p : string)
| CallWriteHeader (st : Z)
| CallHeaderAdd (key value : string)
| CallHeaderSet (key value : string)
| CallHeaderDel (key : string).

Definition doCall (c : call) : State ProxyResponseWriter unit :=
  match c with
  | CallWrite p => _ ← Write p; mret tt
  | CallWriteHeader st => WriteHeader st
  | CallHeaderAdd key value => updateHeader (header.Add key value)
  | CallHeaderSet key value => updateHeader (header.Set_ key value)
  | CallHeaderDel key => updateHeader (header.Del key)
  end.

Fixpoint doCalls (cs : list call) : State ProxyResponseWriter unit :=
  match cs with
  | [] => mret tt
  | c :: cs' => _ ← doCall c; doCalls cs'
  end.

Definition isWrite (c : call) : bool :=
  match c with CallWrite _ => true | _ => false end.

Definition isWriteHeader (c : call) : bool :=
  match c with CallWriteHeader _ => true | _ => false end.

(** The trivial echo handler: it copies every entry of the request's header
    map into the writer's header map and writes the request's body. *)
Definition echoHandler : Handler :=
  fun req =>
    match req with
    | None => mret tt
    | Some r =>
        _ ← updateHeader (fun h => map_fold (fun key vs h => <[key := vs]> h) h (http.ReqHeader r));
        _ ← Write (http.ReqBody r);
        mret tt
    end.

(** The event translated, served by the echo handler on a fresh writer, and
    the writer turned into the outbound record. *)
Definition roundTrip (r : RequestAccessor) (env : Environ) (req : ALBTargetGroupRequest)
  : ALBTargetGroupResponse * option error :=
  match EventToRequest r env req with
  | (Some httpRequest, None) =>
      eval GetProxyResponse (exec (echoHandler (Some httpRequest)) NewProxyResponseWriter)
  | (_, err) => (emptyResponse, err)
  end.

(** A handler that returns without touching the writer. *)
Definition silentHandler : Handler := fun _ => mret tt.

(** ** Sample events *)

Definition sampleEvent (method path body : string) (isBase64 : bool)
  (headers : gomap string) (multi : gomap (list string)) (single : gomap string)
  : ALBTargetGroupRequest :=
  {| HTTPMethod := method;
     Path := path;
     QueryStringParameters := single;
     MultiValueQueryStringParameters := multi;
     Headers := headers;
     MultiValueHeaders := [];
     RequestContext := {| TargetGroupArn := "arn:aws:elasticloadbalancing:tg" |};
     IsBase64Encoded := isBase64;
     Body := body |}.

(** A record whose body claims to be base64 and is not. *)
Definition corruptBodyEvent : ALBTargetGroupRequest :=
  sampleEvent "POST" "/upload" "%%%" true [] [] [].

Definition plainEvent : ALBTargetGroupRequest :=
  sampleEvent "get" "/api/users" "hi" false [("Content-Type", "text/plain")] [] [].

(** ** The claims in the words of the specification *)

(** The method and the URL of the record are such that [http.NewRequest]
    builds a request from them. *)
Definition constructible (r : RequestAccessor) (env : Environ) (req : ALBTargetGroupRequest)
  : bool :=
  let method := GoStrings.ToUpper (HTTPMethod req) in
  http.validMethod (if String.eqb method EmptyString then "GET" else method)
  && bool_decide (is_Some (url.Parse (requestURL r env req))).

(** The values that the entries of a single-valued map give to the canonical
    header name [name], in the order of the entries. *)
Definition valuesFor (name : string) (headers : gomap string) : list string :=
  map snd (filter (fun e => textproto.CanonicalMIMEHeaderKey (fst e) = name) headers).

(** "The last value wins, exactly one value survives per name": every name
    that an entry of the record gives rise to holds one value in the request,
    the value of the last such entry. *)
Definition lastValueWins (headers : gomap string) (h : HeaderMap) : Prop :=
  forall name value,
    (name, value) ∈ headers ->
    exists survivor,
      h !! textproto.CanonicalMIMEHeaderKey name = Some [survivor]
      /\ last (valuesFor (textproto.CanonicalMIMEHeaderKey name) headers) = Some survivor.

Definition caseVariantHeaders : ALBTargetGroupRequest :=
  sampleEvent "GET" "/" "" false [("x-trace", "1"); ("X-Trace", "2")] [] [].

(** The key and value pairs of a multi-value map, in the order of the loops. *)
Definition multiPairs (m : gomap (list string)) : list (string * string) :=
  flat_map (fun '(q, l) => map (pair q) l) m.

(** "Each key and value percent-encoded, key and value joined with [=],
    pairs joined with [&]". *)
Definition encodePair (kv : string * string) : string :=
  url.QueryEscape (fst kv) +:+ "=" +:+ url.QueryEscape (snd kv).

Definition joinPairs (pairs : list (string * string)) : string :=
  String.concat "&" (map encodePair pairs).

(** The bytes of an escaped query: the unreserved ones, [+] for a space, [%]
    and, between the pairs, [&] and [=]. *)
Definition queryByte (c : ascii) : bool := is_alnum c || byte_in c "-_.~+%&=".

(** The text holds neither the [?] that starts a query nor the [#] that
    starts a fragment. *)
Definition noQueryOrFragment (s : string) : bool :=
  negb (GoStrings.Contains s "?") && negb (GoStrings.Contains s "#").

(** The query of the request URL comes from the maps of the record as the
    specification says: from the multi-value map when it is not empty, else
    from the single-value map, and there is no query when both are empty. *)
Definition queryFromMaps (req : ALBTargetGroupRequest) (u : url.URL) : Prop :=
  (MultiValueQueryStringParameters req <> [] ->
   url.RawQuery u = joinPairs (multiPairs (MultiValueQueryStringParameters req)))
  /\ (MultiValueQueryStringParameters req = [] -> QueryStringParameters req <> [] ->
      url.RawQuery u = joinPairs (QueryStringParameters req))
  /\ (MultiValueQueryStringParameters req = [] -> QueryStringParameters req = [] ->
      url.RawQuery u = EmptyString /\ url.ForceQuery u = false).

Definition queryInPathEvent : ALBTargetGroupRequest :=
  sampleEvent "GET" "/search?debug=1" "" false [] [] [].

Definition precedenceEvent : ALBTargetGroupRequest :=
  sampleEvent "GET" "/search" "" false [] [("a", ["1"; "2"])] [("a", "x")].

(** The host of [DefaultServerAddress]. *)
Definition defaultHost : string := "aws-serverless-go-api.com".

Definition usersEvent : ALBTargetGroupRequest :=
  sampleEvent "GET" "/api/users" "" false [] [("page", ["2"])] [].

(** The bytes that an outbound record carries: its body, decoded when its
    flag says that it is base64. *)
Definition responsePayload (out : ALBTargetGroupResponse) : option string :=
  if RespIsBase64Encoded out then base64.DecodeString (RespBody out) else Some (RespBody out).

(** The single-valued headers of a record, read as a multi-valued map. *)
Definition singleValued (m : gomap string) : HeaderMap :=
  list_to_map (map (fun '(name, value) => (name, [value])) m).

(** "Round-trips headers and body unchanged": the outbound record has the
    headers and the body of the inbound one. *)
Definition roundTripUnchanged (req : ALBTargetGroupRequest) (out : ALBTargetGroupResponse)
  : Prop :=
  RespMultiValueHeaders out = singleValued (Headers req) /\ RespBody out = Body req.

Definition tracedEvent : ALBTargetGroupRequest :=
  sampleEvent "GET" "/" "hi" false [("x-request-id", "42")] [] [].

Definition encodedEvent : ALBTargetGroupRequest :=
  sampleEvent "POST" "/" "aGVsbG8=" true [("Content-Type", "text/plain")] [] [].

(** ** Further notions, for the properties beyond the claims *)

(** The bytes that the calls of a handler write, in the order of the calls. *)
Fixpoint writtenBytes (cs : list call) : string :=
  match cs with
  | [] => EmptyString
  | CallWrite p :: cs' => p +:+ writtenBytes cs'
  | _ :: cs' => writtenBytes cs'
  end.

(** The call is a method of [http.ResponseWriter] other than [Header()]. *)
Definition isWriteOrWriteHeader (c : call) : bool := isWrite c || isWriteHeader c.

(** Every byte is below [utf8.RuneSelf]. *)
Definition asciiOnly (s : string) : bool :=
  all_bytes (fun c => (byte_val c <? utf8.RuneSelf)%N) s.

(** A byte that a path can hold as it is: no control byte, and none of the
    bytes that start an escape, a query or a fragment. *)
Definition safePathByte (c : ascii) : bool :=
  negb ((byte_val c <? 32)%N || (byte_val c =? 127)%N) && negb (byte_in c "%?#").

(** An ASCII byte that a method may not hold. *)
Definition badMethodByte (c : ascii) : bool :=
  (byte_val c <? utf8.RuneSelf)%N && negb (textproto.validHeaderFieldByte c).


(** A byte of an escaped key or value: an unreserved byte, [+] or [%]. *)
Definition escapedByte (c : ascii) : bool := is_alnum c || byte_in c "-_.~+%".

(** ** package net/url: reading a query back *)

Module urlquery.

(** [url.QueryUnescape] *)
Definition QueryUnescape (s : string) : option string :=
  url.unescape s url.encodeQueryComponent.

(** The pieces of [s] between the separators: what the repeated
    [strings.Cut(query, "&")] of [parseQuery] walks through (an empty last
    piece, which the loop never sees, is skipped there like every empty
    piece). *)
Fixpoint splitOn (sep : ascii) (s : string) : list string :=
  match s with
  | EmptyString => [EmptyString]
  | String c s' =>
      if Ascii.eqb c sep then EmptyString :: splitOn sep s'
      else match splitOn sep s' with
           | piece :: pieces => String c piece :: pieces
           | [] => [String c EmptyString]
           end
  end.

(** One turn of the loop of [parseQuery] on a piece that is not empty and
    holds no semicolon: [None] when the key or the value does not unescape. *)
Definition parsePair (piece : string) : option (string * string) :=
  let '(key, value, _) := GoStrings.Cut piece "=" in
  key ← QueryUnescape key;
  value ← QueryUnescape value;
  Some (key, value).

(** The pairs that [parseQuery] adds, in their order, and whether it met an
    error (a semicolon, or a piece that does not unescape); it goes on after
    an error. *)
Fixpoint parsePieces (pieces : list string) : list (string * string) * bool :=
  match pieces with
  | [] => ([], false)
  | piece :: pieces' =>
      let '(pairs, failed) := parsePieces pieces' in
      if GoStrings.Contains piece ";" then (pairs, true)
      else if String.eqb piece EmptyString then (pairs, failed)
      else match parsePair piece with
           | Some kv => (kv :: pairs, failed)
           | None => (pairs, true)
           end
  end.

(** [m[key] = append(m[key], value)] *)
Definition addValue (m : HeaderMap) (kv : string * string) : HeaderMap :=
  <[fst kv := default [] (m !! fst kv) ++ [snd kv]]> m.

(** [url.ParseQuery]: the values by key, and whether there was an error. *)
Definition ParseQuery (query : string) : HeaderMap * bool :=
  let '(pairs, failed) := parsePieces (splitOn "&" query) in
  (fold_left addValue pairs ∅, failed).

End urlquery.

(** ** The echo adapter: construction *)

(** [New(e)]: the accessor of a new adapter has no base path to strip. *)
Definition New (e : Handler) : EchoLambda := mkEchoLambda (mkAccessor EmptyString) e.

(** A handler given by the calls it makes on the writer for a request. *)
Definition handlerOf (calls : option http.Request -> list call) : Handler :=
  fun req => doCalls (calls req).

(** * Properties *)

Lemma string_ind3 (P : string -> Prop) :
  P EmptyString ->
  (forall a, P (String a EmptyString)) ->
  (forall a b, P (String a (String b EmptyString))) ->
  (forall a b c rest, P rest -> P (String a (String b (String c rest)))) ->
  forall s, P s.
Proof.
  intros H0 H1 H2 H3.
  fix IH 1. intros [|a [|b [|c rest]]].
  - exact H0.
  - apply H1.
  - apply H2.
  - apply H3. apply IH.
Qed.

Module base64_facts.
Import base64.

Lemma decodeMap_encode s : decodeMap (encode s) = Some s.
Proof.
  destruct s as [[[[[b5 b4] b3] b2] b1] b0].
  destruct b5, b4, b3, b2, b1, b0; reflexivity.
Qed.

Lemma encode_not_padding s : Ascii.eqb (encode s) StdPadding = false.
Proof.
  destruct s as [[[[[b5 b4] b3] b2] b1] b0].
  destruct b5, b4, b3, b2, b1, b0; reflexivity.
Qed.

Lemma encode_not_newline s : is_newline (encode s) = false.
Proof.
  destruct s as [[[[[b5 b4] b3] b2] b1] b0].
  destruct b5, b4, b3, b2, b1, b0; reflexivity.
Qed.

Lemma decodeMap_padding : decodeMap StdPadding = None.
Proof. reflexivity. Qed.

Lemma removeNewlines_encoded src : removeNewlines (EncodeToString src) = EncodeToString src.
Proof.
  induction src as [| [] | [] [] | [] [] [] rest IH] using string_ind3;
    cbn [EncodeToString removeNewlines]; rewrite ?encode_not_newline; cbn;
    rewrite ?IH; reflexivity.
Qed.

Lemma decodeQuanta_encoded src : decodeQuanta (EncodeToString src) = Some src.
Proof.
  induction src as [| [] | [] [] | [] [] [] rest IH] using string_ind3;
    cbn [EncodeToString decodeQuanta].
  - reflexivity.
  - rewrite !decodeMap_encode, decodeMap_padding. reflexivity.
  - rewrite !decodeMap_encode, decodeMap_padding. reflexivity.
  - rewrite !decodeMap_encode, IH. reflexivity.
Qed.

Lemma DecodeString_EncodeToString src : DecodeString (EncodeToString src) = Some src.
Proof. unfold DecodeString. rewrite removeNewlines_encoded. apply decodeQuanta_encoded. Qed.

End base64_facts.

Lemma Itoa_Atoi z : strconv.Atoi (strconv.Itoa z) = Some z.
Proof.
  unfold strconv.Atoi, strconv.Itoa.
  rewrite NilZero.isi.
  - simpl. f_equal. apply DecimalZ.of_to.
  - destruct z; simpl; try discriminate;
      intros H; injection H; apply DecimalPos.Unsigned.to_uint_nonnil.
  - destruct z; simpl; try discriminate;
      intros H; injection H; apply DecimalPos.Unsigned.to_uint_nonnil.
Qed.

(** ** The response writer *)

Ltac unfold_state :=
  unfold eval, exec, mbind, mret, state_bind, state_ret, gets, modify in *.

Lemma exec_bind {S A B} (m : State S A) (f : A -> State S B) s :
  exec (m ≫= f) s = exec (f (eval m s)) (exec m s).
Proof. unfold_state. destruct (m s); reflexivity. Qed.

Lemma eval_bind {S A B} (m : State S A) (f : A -> State S B) s :
  eval (m ≫= f) s = eval (f (eval m s)) (exec m s).
Proof. unfold_state. destruct (m s); reflexivity. Qed.

Lemma GetProxyResponse_exec w : exec GetProxyResponse w = w.
Proof.
  unfold GetProxyResponse. unfold_state. simpl.
  destruct (status w =? defaultStatusCode)%Z; [reflexivity|].
  destruct (utf8.Valid (body w)); reflexivity.
Qed.

Lemma GetProxyResponse_unset w :
  status w = defaultStatusCode ->
  eval GetProxyResponse w = (emptyResponse, Some (errorString "Status code not set on response")).
Proof.
  intros H. unfold GetProxyResponse. unfold_state. simpl. rewrite H. reflexivity.
Qed.

Lemma GetProxyResponse_set w :
  status w <> defaultStatusCode ->
  eval GetProxyResponse w =
    ({| StatusCode := status w;
        StatusDescription := description (status w);
        RespHeaders := ∅;
        RespMultiValueHeaders := headers w;
        RespBody := if utf8.Valid (body w) then body w else base64.EncodeToString (body w);
        RespIsBase64Encoded := negb (utf8.Valid (body w)) |}, None).
Proof.
  intros H. unfold GetProxyResponse. unfold_state. simpl.
  destruct (Z.eqb_spec (status w) defaultStatusCode) as [E|_]; [contradiction|].
  destruct (utf8.Valid (body w)); reflexivity.
Qed.

Lemma Write_status p w :
  status (exec (Write p) w) = if (status w =? -1)%Z then http.StatusOK else status w.
Proof.
  unfold Write, setStatus, Header, updateHeader, bufferWrite. unfold_state. simpl.
  destruct (status w =? -1)%Z; simpl;
    destruct (String.eqb _ _); reflexivity.
Qed.

Lemma Write_body p w : body (exec (Write p) w) = body w +:+ p.
Proof.
  unfold Write, setStatus, Header, updateHeader, bufferWrite. unfold_state. simpl.
  destruct (status w =? -1)%Z; simpl;
    destruct (String.eqb _ _); reflexivity.
Qed.

Lemma Write_headers p w :
  headers (exec (Write p) w) =
    if String.eqb (header.Get (headers w) contentTypeHeaderKey) EmptyString
    then header.Add contentTypeHeaderKey (sniff.DetectContentType p) (headers w)
    else headers w.
Proof.
  unfold Write, setStatus, Header, updateHeader, bufferWrite. unfold_state. simpl.
  destruct (status w =? -1)%Z; simpl;
    destruct (String.eqb _ _); reflexivity.
Qed.

Lemma Write_result p w : eval (Write p) w = (Z.of_nat (String.length p), None).
Proof.
  unfold Write, setStatus, Header, updateHeader, bufferWrite. unfold_state. simpl.
  destruct (status w =? -1)%Z; simpl;
    destruct (String.eqb _ _); reflexivity.
Qed.

Lemma doCall_status c w :
  status (exec (doCall c) w) =
    match c with
    | CallWrite _ => if (status w =? -1)%Z then http.StatusOK else status w
    | CallWriteHeader st => st
    | _ => status w
    end.
Proof.
  destruct c; simpl; try reflexivity.
  rewrite exec_bind. apply Write_status.
Qed.

Lemma doCalls_cons c cs w : exec (doCalls (c :: cs)) w = exec (doCalls cs) (exec (doCall c) w).
Proof. simpl. rewrite exec_bind. reflexivity. Qed.

Lemma doCalls_untouched cs : forall w,
  existsb isWrite cs = false -> existsb isWriteHeader cs = false ->
  status (exec (doCalls cs) w) = status w.
Proof.
  induction cs as [|c cs IH]; intros w Hw Hh; [reflexivity|].
  rewrite doCalls_cons. simpl in Hw, Hh.
  apply orb_false_elim in Hw as [Hc Hw]. apply orb_false_elim in Hh as [Hc' Hh].
  rewrite IH by assumption. rewrite doCall_status.
  destruct c; simpl in *; congruence.
Qed.

Lemma doCalls_written cs : forall w,
  existsb isWriteHeader cs = false ->
  status w = http.StatusOK \/ (status w = defaultStatusCode /\ existsb isWrite cs = true) ->
  status (exec (doCalls cs) w) = http.StatusOK.
Proof.
  induction cs as [|c cs IH]; intros w Hh Hst.
  - destruct Hst as [H|[_ H]]; [exact H | discriminate].
  - rewrite doCalls_cons. simpl in Hh. apply orb_false_elim in Hh as [Hc Hh].
    apply IH; [assumption|]. rewrite doCall_status.
    destruct c; simpl in *; try discriminate.
    + left. destruct Hst as [H|[H _]]; rewrite H; reflexivity.
    + destruct Hst as [H|[H1 H2]]; [left|right]; auto.
    + destruct Hst as [H|[H1 H2]]; [left|right]; auto.
    + destruct Hst as [H|[H1 H2]]; [left|right]; auto.
Qed.

(** C2.  On a freshly constructed writer [GetProxyResponse] returns the empty
    record and an error, and so it does after any calls that are neither
    [Write] nor [WriteHeader]; after calls among which there is a [Write]
    and no [WriteHeader] it returns a record with status 200 and no error. *)
Theorem status_sentinel_law :
  eval GetProxyResponse NewProxyResponseWriter
    = (emptyResponse, Some (errorString "Status code not set on response"))
  /\ (forall cs,
        existsb isWrite cs = false -> existsb isWriteHeader cs = false ->
        eval GetProxyResponse (exec (doCalls cs) NewProxyResponseWriter)
          = (emptyResponse, Some (errorString "Status code not set on response")))
  /\ (forall cs,
        existsb isWrite cs = true -> existsb isWriteHeader cs = false ->
        exists resp,
          eval GetProxyResponse (exec (doCalls cs) NewProxyResponseWriter) = (resp, None)
          /\ StatusCode resp = 200%Z).
Proof.
  split; [reflexivity|]. split.
  - intros cs Hw Hh. apply GetProxyResponse_unset.
    rewrite doCalls_untouched by assumption. reflexivity.
  - intros cs Hw Hh.
    assert (Hst : status (exec (doCalls cs) NewProxyResponseWriter) = http.StatusOK).
    { apply doCalls_written; [assumption|]. right. split; [reflexivity|assumption]. }
    eexists. split.
    + apply GetProxyResponse_set. rewrite Hst. discriminate.
    + simpl. exact Hst.
Qed.

(** The theorem at a handler that only sets a header, and at one that writes
    [ok]. *)
Lemma status_sentinel_law_witness :
  eval GetProxyResponse
    (exec (doCalls [CallHeaderSet "X-Trace" "1"]) NewProxyResponseWriter)
  = (emptyResponse, Some (errorString "Status code not set on response"))
  /\ exists resp,
       eval GetProxyResponse
         (exec (doCalls [CallHeaderSet "X-Trace" "1"; CallWrite "ok"]) NewProxyResponseWriter)
       = (resp, None)
       /\ StatusCode resp = 200%Z.
Proof.
  destruct status_sentinel_law as (_ & Hunset & Hset).
  split.
  - apply Hunset; reflexivity.
  - apply Hset; reflexivity.
Defined.

(** ** The library models on sample inputs *)

Example base64_decode_hello : base64.DecodeString "aGVsbG8=" = Some "hello".
Proof. reflexivity. Qed.

Example base64_encode_hello : base64.EncodeToString "hello" = "aGVsbG8=".
Proof. reflexivity. Qed.

Example utf8_valid_ascii : utf8.Valid "ok" = true.
Proof. reflexivity. Qed.

Example utf8_invalid_ff : utf8.Valid (String (ascii_of_nat 255) "a") = false.
Proof. reflexivity. Qed.

Example itoa_504 : strconv.Itoa 504 = "504" /\ strconv.Itoa (-1) = "-1".
Proof. split; reflexivity. Qed.

Example sniff_html : sniff.DetectContentType "<html><body>hi</body></html>" = "text/html; charset=utf-8".
Proof. reflexivity. Qed.

Example sniff_text : sniff.DetectContentType "ok" = "text/plain; charset=utf-8".
Proof. reflexivity. Qed.

Example sniff_binary : sniff.DetectContentType (sniff.bytes_of [255; 1]%nat) = "application/octet-stream".
Proof. reflexivity. Qed.

Example canonical_key :
  textproto.CanonicalMIMEHeaderKey "content-type" = "Content-Type"
  /\ textproto.CanonicalMIMEHeaderKey "x-FOO bar" = "x-FOO bar".
Proof. split; reflexivity. Qed.

Example parse_default :
  url.Parse "https://aws-serverless-go-api.com/users?a=1&a=2"
  = Some (url.mkURL "https" "" None "aws-serverless-go-api.com" "/users" false "a=1&a=2" "").
Proof. reflexivity. Qed.

Example parse_userinfo :
  url.Parse "http://bob:pw@[::1]:8080/a%20b?#top"
  = Some (url.mkURL "http" "" (Some ("bob", Some "pw")) "[::1]:8080" "/a b" true "" "top").
Proof. reflexivity. Qed.

Example parse_bad_escape : url.Parse "http://h/a%zz" = None.
Proof. reflexivity. Qed.

Example query_escape : url.QueryEscape "a b&c=d/~" = "a+b%26c%3Dd%2F~".
Proof. reflexivity. Qed.

(** C5.  For a writer whose status is not the sentinel, [GetProxyResponse]
    returns a record with that status, whose description is the decimal
    string of the status code (it reads back as the code), and whose body is
    the buffer as it is with the flag false when the buffer is valid UTF-8,
    and the standard base64 encoding of the buffer (it decodes to the
    buffer) with the flag true when it is not. *)
Theorem GetProxyResponse_body_and_description (w : ProxyResponseWriter) :
  status w <> defaultStatusCode ->
  exists resp,
    eval GetProxyResponse w = (resp, None)
    /\ StatusCode resp = status w
    /\ StatusDescription resp = strconv.Itoa (StatusCode resp)
    /\ strconv.Atoi (StatusDescription resp) = Some (StatusCode resp)
    /\ (utf8.Valid (body w) = true ->
        RespBody resp = body w /\ RespIsBase64Encoded resp = false)
    /\ (utf8.Valid (body w) = false ->
        RespBody resp = base64.EncodeToString (body w)
        /\ base64.DecodeString (RespBody resp) = Some (body w)
        /\ RespIsBase64Encoded resp = true).
Proof.
  intros Hset. eexists. split; [apply GetProxyResponse_set; exact Hset|].
  cbn [StatusCode StatusDescription RespBody RespIsBase64Encoded].
  split; [reflexivity|]. split; [reflexivity|].
  split; [apply Itoa_Atoi|].
  split; intros Hv; rewrite Hv.
  - split; reflexivity.
  - split; [reflexivity|]. split; [apply base64_facts.DecodeString_EncodeToString|reflexivity].
Qed.

(** The theorem at a writer with status 404 and a body that is not UTF-8. *)
Lemma GetProxyResponse_body_and_description_witness :
  exists resp,
    eval GetProxyResponse (mkWriter ∅ (String (ascii_of_nat 255) "a") 404) = (resp, None)
    /\ StatusDescription resp = "404" /\ RespBody resp = "/2E=" /\ RespIsBase64Encoded resp = true.
Proof.
  destruct (GetProxyResponse_body_and_description
              (mkWriter ∅ (String (ascii_of_nat 255) "a") 404))
    as (resp & Hr & Hc & Hd & _ & _ & Hb).
  - simpl. discriminate.
  - exists resp. split; [exact Hr|].
    destruct (Hb eq_refl) as (Hb1 & _ & Hb2).
    rewrite Hd, Hc, Hb1, Hb2. repeat split; reflexivity.
Defined.

(** C10.  [GetProxyResponse] leaves the writer as it was: the headers, the
    buffer and the status after the call are those before it, and two calls
    in succession return the same record and error. *)
Theorem GetProxyResponse_does_not_mutate (w : ProxyResponseWriter) :
  exec GetProxyResponse w = w
  /\ headers (exec GetProxyResponse w) = headers w
  /\ body (exec GetProxyResponse w) = body w
  /\ status (exec GetProxyResponse w) = status w
  /\ (first ← GetProxyResponse; second ← GetProxyResponse; mret (first, second)) w
     = ((eval GetProxyResponse w, eval GetProxyResponse w), w).
Proof.
  pose proof (GetProxyResponse_exec w) as He.
  rewrite He. repeat split.
  unfold exec, eval in *. unfold mbind, mret, state_bind, state_ret.
  destruct (GetProxyResponse w) as [r1 w1] eqn:E1. simpl in He. subst w1.
  rewrite E1. reflexivity.
Qed.

(** ** Content-Type on [Write], and the dispatch entry point *)

Lemma canonical_contentType :
  textproto.CanonicalMIMEHeaderKey contentTypeHeaderKey = contentTypeHeaderKey.
Proof. reflexivity. Qed.

Lemma Get_contentType (h : HeaderMap) :
  header.Get h contentTypeHeaderKey =
    match h !! contentTypeHeaderKey with
    | Some (v :: _) => v
    | _ => EmptyString
    end.
Proof.
  unfold header.Get, header.values. rewrite canonical_contentType.
  destruct (h !! contentTypeHeaderKey) as [[|v vs]|]; reflexivity.
Qed.

Lemma Add_contentType (h : HeaderMap) (v : string) :
  header.Add contentTypeHeaderKey v h !! contentTypeHeaderKey
  = Some (default [] (h !! contentTypeHeaderKey) ++ [v]).
Proof.
  unfold header.Add, header.values. rewrite canonical_contentType.
  apply lookup_insert_eq.
Qed.

Lemma first_match_html tags others data ws :
  existsb (fun h => sniff.html_bytes h ws) tags = true ->
  sniff.first_match (map sniff.htmlSig tags ++ others) data ws = "text/html; charset=utf-8".
Proof.
  induction tags as [|h tags IH]; intros H; [discriminate|].
  simpl in H. cbn [map app sniff.first_match sniff.match_sig].
  destruct (sniff.html_bytes h ws); [reflexivity|].
  simpl in H. cbn. apply IH, H.
Qed.

Lemma DetectContentType_html p :
  sniff.isHTML p = true -> sniff.DetectContentType p = "text/html; charset=utf-8".
Proof. intros H. apply first_match_html, H. Qed.

Lemma Write_keeps_first p w v vs :
  headers w !! contentTypeHeaderKey = Some (v :: vs) ->
  exists vs', headers (exec (Write p) w) !! contentTypeHeaderKey = Some (v :: vs').
Proof.
  intros H. rewrite Write_headers, Get_contentType, H.
  destruct (String.eqb v EmptyString).
  - rewrite Add_contentType, H. simpl. eauto.
  - eauto.
Qed.

Lemma doCalls_writes_first ps : forall w v vs,
  headers w !! contentTypeHeaderKey = Some (v :: vs) ->
  exists vs',
    headers (exec (doCalls (map CallWrite ps)) w) !! contentTypeHeaderKey = Some (v :: vs').
Proof.
  induction ps as [|p ps IH]; intros w v vs H; [simpl; eauto|].
  cbn [map]. rewrite doCalls_cons.
  destruct (Write_keeps_first p w v vs H) as [vs1 H1].
  apply (IH _ v vs1). simpl. rewrite exec_bind. exact H1.
Qed.

(** C9.  A [Write] on a writer without a Content-Type header sets the header
    to the type sniffed from the written bytes, which begins with
    [text/html] for bytes that the HTML signatures match; on a writer with a
    Content-Type header, neither one [Write] nor a series of them changes
    the first value of the header. *)
Theorem Write_content_type :
  (forall w p,
     headers w !! contentTypeHeaderKey = None ->
     headers (exec (Write p) w) !! contentTypeHeaderKey = Some [sniff.DetectContentType p]
     /\ header.Get (headers (exec (Write p) w)) contentTypeHeaderKey = sniff.DetectContentType p)
  /\ (forall p,
        sniff.isHTML p = true ->
        String.prefix "text/html" (sniff.DetectContentType p) = true)
  /\ (forall w p v vs,
        headers w !! contentTypeHeaderKey = Some (v :: vs) ->
        header.Get (headers (exec (Write p) w)) contentTypeHeaderKey = v)
  /\ (forall w ps v vs,
        headers w !! contentTypeHeaderKey = Some (v :: vs) ->
        header.Get (headers (exec (doCalls (map CallWrite ps)) w)) contentTypeHeaderKey = v).
Proof.
  split; [|split; [|split]].
  - intros w p H.
    assert (E : headers (exec (Write p) w) !! contentTypeHeaderKey
                = Some [sniff.DetectContentType p]).
    { rewrite Write_headers, Get_contentType, H. simpl.
      rewrite Add_contentType, H. reflexivity. }
    split; [exact E|]. rewrite Get_contentType, E. reflexivity.
  - intros p H. rewrite (DetectContentType_html p H). reflexivity.
  - intros w p v vs H. destruct (Write_keeps_first p w v vs H) as [vs' E].
    rewrite Get_contentType, E. reflexivity.
  - intros w ps v vs H. destruct (doCalls_writes_first ps w v vs H) as [vs' E].
    rewrite Get_contentType, E. reflexivity.
Qed.

(** The theorem at an HTML body on a fresh writer and on a writer whose
    Content-Type is [application/json]. *)
Lemma Write_content_type_witness :
  header.Get (headers (exec (Write "<html><body>hi</body></html>") NewProxyResponseWriter))
    contentTypeHeaderKey = "text/html; charset=utf-8"
  /\ String.prefix "text/html" (sniff.DetectContentType "<html><body>hi</body></html>") = true
  /\ header.Get (headers (exec (Write "<html>")
                            (mkWriter {[ contentTypeHeaderKey := ["application/json"] ]} "" 200)))
       contentTypeHeaderKey = "application/json"
  /\ header.Get (headers (exec (doCalls (map CallWrite ["<html>"; "<p>"]))
                            (mkWriter {[ contentTypeHeaderKey := ["application/json"] ]} "" 200)))
       contentTypeHeaderKey = "application/json".
Proof.
  destruct Write_content_type as (H1 & H2 & H3 & H4).
  split; [|split; [|split]].
  - destruct (H1 NewProxyResponseWriter "<html><body>hi</body></html>") as [_ E].
    + reflexivity.
    + rewrite E. reflexivity.
  - apply H2. reflexivity.
  - apply (H3 _ _ _ []). reflexivity.
  - apply (H4 _ _ _ []). reflexivity.
Defined.

(** C4.  For every handler, environment, context and record: when the
    translation of the event fails, and when it succeeds but
    [GetProxyResponse] fails on the writer the handler leaves,
    [ProxyWithContext] returns [TimeoutResponse], whose status code is 504
    and which is not the empty record, together with an error. *)
Theorem ProxyWithContext_fail_safe (e : EchoLambda) (env : Environ) (c : Context)
  (req : ALBTargetGroupRequest) :
  (forall err,
     snd (EventToRequest (accessor e) env req) = Some err ->
     ProxyWithContext e env c req
     = (TimeoutResponse,
        Some (NewLoggedError "Could not convert proxy event to request: %v" err)))
  /\ (forall httpRequest resp err,
        EventToRequest (accessor e) env req = (Some httpRequest, None) ->
        eval GetProxyResponse
          (exec (Echo e (Some (addToContext c httpRequest req))) NewProxyResponseWriter)
        = (resp, Some err) ->
        ProxyWithContext e env c req
        = (TimeoutResponse,
           Some (NewLoggedError "Error while generating proxy response: %v" err)))
  /\ StatusCode TimeoutResponse = 504%Z
  /\ StatusDescription TimeoutResponse = "504"
  /\ TimeoutResponse <> emptyResponse.
Proof.
  split; [|split; [|split; [|split]]]; try reflexivity.
  - intros err H. unfold ProxyWithContext, EventToRequestWithContext.
    destruct (EventToRequest (accessor e) env req) as [[rq|] [err'|]];
      simpl in H; try discriminate; injection H as ->; reflexivity.
  - intros rq resp err H1 H2. unfold ProxyWithContext, EventToRequestWithContext.
    rewrite H1. unfold proxyInternal. rewrite H2. reflexivity.
  - discriminate.
Qed.

(** The theorem at a record with a corrupt base64 body, and at a handler
    that never touches the writer. *)
Lemma ProxyWithContext_fail_safe_witness :
  ProxyWithContext (mkEchoLambda (mkAccessor "") echoHandler) ∅ Background corruptBodyEvent
  = (TimeoutResponse,
     Some (NewLoggedError "Could not convert proxy event to request: %v" CorruptInputError))
  /\ ProxyWithContext (mkEchoLambda (mkAccessor "") silentHandler) ∅ Background plainEvent
     = (TimeoutResponse,
        Some (NewLoggedError "Error while generating proxy response: %v"
                (errorString "Status code not set on response"))).
Proof.
  split.
  - apply (proj1 (ProxyWithContext_fail_safe
                    (mkEchoLambda (mkAccessor "") echoHandler) ∅ Background corruptBodyEvent)).
    reflexivity.
  - pose (rq := fst (EventToRequest (mkAccessor "") ∅ plainEvent)).
    destruct rq as [httpRequest|] eqn:E; [|vm_compute in E; discriminate].
    apply (proj1 (proj2 (ProxyWithContext_fail_safe
                    (mkEchoLambda (mkAccessor "") silentHandler) ∅ Background plainEvent))
             httpRequest emptyResponse).
    + subst rq. vm_compute in E. injection E as <-. vm_compute. reflexivity.
    + reflexivity.
Defined.

(** ** From the event to the request *)

Lemma NewRequest_spec method rawURL body :
  http.NewRequest method rawURL body =
    let method' := if String.eqb method EmptyString then "GET" else method in
    if http.validMethod method' then
      match url.Parse rawURL with
      | Some u =>
          let host := http.removeEmptyPort (url.Host u) in
          (Some (http.mkRequest method'
                   (url.mkURL (url.Scheme u) (url.Opaque u) (url.User u) host
                      (url.Path u) (url.ForceQuery u) (url.RawQuery u) (url.Fragment u))
                   ∅ body host Background), None)
      | None => (None, Some (URLParseError rawURL))
      end
    else (None, Some (InvalidMethodError method')).
Proof.
  unfold http.NewRequest. cbv zeta.
  destruct (http.validMethod _); reflexivity.
Qed.

(** What [EventToRequest] returns once the body is decoded. *)
Lemma EventToRequest_decoded r env req decodedBody :
  decodeBody req = Some decodedBody ->
  (constructible r env req = true ->
   exists httpRequest,
     EventToRequest r env req = (Some httpRequest, None)
     /\ http.ReqBody httpRequest = decodedBody
     /\ http.ReqHeader httpRequest = addHeaders (Headers req) ∅
     /\ exists u, url.Parse (requestURL r env req) = Some u
         /\ url.Scheme (http.URL httpRequest) = url.Scheme u
         /\ url.Path (http.URL httpRequest) = url.Path u
         /\ url.RawQuery (http.URL httpRequest) = url.RawQuery u
         /\ url.ForceQuery (http.URL httpRequest) = url.ForceQuery u
         /\ url.Fragment (http.URL httpRequest) = url.Fragment u
         /\ url.Host (http.URL httpRequest) = http.removeEmptyPort (url.Host u))
  /\ (constructible r env req = false ->
      exists err, EventToRequest r env req = (None, Some err) /\ err <> CorruptInputError).
Proof.
  intros Hd. unfold EventToRequest, constructible. rewrite Hd, NewRequest_spec. cbv zeta.
  destruct (http.validMethod _); cbn [andb].
  - destruct (url.Parse (requestURL r env req)) as [u|] eqn:Hu.
    + split; [intros _|intros H; rewrite bool_decide_eq_false in H; destruct H; eauto].
      eexists. split; [reflexivity|]. cbn. repeat split. exists u. repeat split.
    + split; [intros H; rewrite bool_decide_eq_true in H; destruct H; discriminate|].
      intros _. eexists. split; [reflexivity|discriminate].
  - split; [discriminate|]. intros _. eexists. split; [reflexivity|discriminate].
Qed.

Lemma EventToRequest_inv r env req httpRequest :
  EventToRequest r env req = (Some httpRequest, None) ->
  constructible r env req = true
  /\ decodeBody req = Some (http.ReqBody httpRequest).
Proof.
  intros H. destruct (decodeBody req) as [b|] eqn:Hd.
  - destruct (EventToRequest_decoded r env req b Hd) as [Hok Hbad].
    destruct (constructible r env req).
    + split; [reflexivity|]. destruct (Hok eq_refl) as (rq & E & Hb & _).
      rewrite E in H. injection H as <-. rewrite Hb. reflexivity.
    + destruct (Hbad eq_refl) as (err & E & _). rewrite E in H. discriminate.
  - unfold EventToRequest in H. rewrite Hd in H. discriminate.
Qed.

(** C7.  For a record with the base64 flag: if the body does not decode,
    [EventToRequest] returns no request and the decoding error; if it
    decodes, every request that [EventToRequest] returns has the decoded
    bytes as its body, and it returns one whenever [http.NewRequest] accepts
    the method and the URL.  Without the flag the same holds with the body
    of the record as it is. *)
Theorem EventToRequest_body (r : RequestAccessor) (env : Environ)
  (req : ALBTargetGroupRequest) :
  (IsBase64Encoded req = true ->
   base64.DecodeString (Body req) = None ->
   EventToRequest r env req = (None, Some CorruptInputError))
  /\ (IsBase64Encoded req = true ->
      forall decoded,
        base64.DecodeString (Body req) = Some decoded ->
        (forall httpRequest,
           fst (EventToRequest r env req) = Some httpRequest ->
           http.ReqBody httpRequest = decoded)
        /\ (constructible r env req = true ->
            exists httpRequest,
              EventToRequest r env req = (Some httpRequest, None)
              /\ http.ReqBody httpRequest = decoded))
  /\ (IsBase64Encoded req = false ->
      (forall httpRequest,
         fst (EventToRequest r env req) = Some httpRequest ->
         http.ReqBody httpRequest = Body req)
      /\ (constructible r env req = true ->
          exists httpRequest,
            EventToRequest r env req = (Some httpRequest, None)
            /\ http.ReqBody httpRequest = Body req)).
Proof.
  assert (Hgen : forall decoded, decodeBody req = Some decoded ->
            (forall httpRequest,
               fst (EventToRequest r env req) = Some httpRequest ->
               http.ReqBody httpRequest = decoded)
            /\ (constructible r env req = true ->
                exists httpRequest,
                  EventToRequest r env req = (Some httpRequest, None)
                  /\ http.ReqBody httpRequest = decoded)).
  { intros decoded Hd. destruct (EventToRequest_decoded r env req decoded Hd) as [Hok Hbad].
    split.
    - intros rq Hrq. destruct (constructible r env req).
      + destruct (Hok eq_refl) as (rq' & E & Hb & _). rewrite E in Hrq.
        injection Hrq as <-. exact Hb.
      + destruct (Hbad eq_refl) as (err & E & _). rewrite E in Hrq. discriminate.
    - intros Hc. destruct (Hok Hc) as (rq & E & Hb & _). eauto. }
  split; [|split].
  - intros Hf Hd. unfold EventToRequest, decodeBody. rewrite Hf, Hd. reflexivity.
  - intros Hf decoded Hd. apply Hgen. unfold decodeBody. rewrite Hf. exact Hd.
  - intros Hf. apply Hgen. unfold decodeBody. rewrite Hf. reflexivity.
Qed.

(** The theorem at a corrupt body, at the base64 of [hello], and at a plain
    body. *)
Lemma EventToRequest_body_witness :
  EventToRequest (mkAccessor "") ∅ corruptBodyEvent = (None, Some CorruptInputError)
  /\ (exists httpRequest,
        EventToRequest (mkAccessor "") ∅ (sampleEvent "post" "/upload" "aGVsbG8=" true [] [] [])
        = (Some httpRequest, None)
        /\ http.ReqBody httpRequest = "hello")
  /\ (exists httpRequest,
        EventToRequest (mkAccessor "") ∅ plainEvent = (Some httpRequest, None)
        /\ http.ReqBody httpRequest = "hi").
Proof.
  split; [|split].
  - apply (proj1 (EventToRequest_body (mkAccessor "") ∅ corruptBodyEvent)); reflexivity.
  - apply (proj2 (proj1 (proj2 (EventToRequest_body (mkAccessor "") ∅
                     (sampleEvent "post" "/upload" "aGVsbG8=" true [] [] [])))
                   eq_refl "hello" eq_refl)).
    vm_compute. reflexivity.
  - apply (proj2 (proj2 (proj2 (EventToRequest_body (mkAccessor "") ∅ plainEvent)) eq_refl)).
    vm_compute. reflexivity.
Defined.

Lemma values_Add key value (h : HeaderMap) name :
  header.values (header.Add key value h) name =
    if decide (textproto.CanonicalMIMEHeaderKey key = name)
    then header.values h name ++ [value]
    else header.values h name.
Proof.
  unfold header.Add, header.values.
  rewrite lookup_insert. destruct (decide _) as [->|]; reflexivity.
Qed.

Lemma values_addHeaders entries : forall (h : HeaderMap) name,
  header.values (addHeaders entries h) name = header.values h name ++ valuesFor name entries.
Proof.
  unfold valuesFor.
  induction entries as [|[key value] entries IH]; intros h name.
  - simpl. rewrite app_nil_r. reflexivity.
  - cbn [addHeaders fold_left]. fold (addHeaders entries (header.Add key value h)).
    rewrite IH, values_Add, filter_cons. cbn [fst].
    destruct (decide _); [|reflexivity].
    rewrite <- app_assoc. reflexivity.
Qed.

Lemma lookup_addHeaders_empty entries name :
  addHeaders entries ∅ !! name =
    match valuesFor name entries with
    | [] => None
    | vs => Some vs
    end.
Proof.
  revert name.
  assert (Hgen : forall (h : HeaderMap) name,
            (forall n, h !! n <> Some []) ->
            addHeaders entries h !! name =
              match header.values h name ++ valuesFor name entries with
              | [] => h !! name
              | vs => Some vs
              end).
  { induction entries as [|[key value] entries IH]; intros h name Hh.
    - cbn. unfold valuesFor. cbn. rewrite app_nil_r. unfold header.values.
      destruct (h !! name) as [[|v vs]|] eqn:E; reflexivity.
    - cbn [addHeaders fold_left]. fold (addHeaders entries (header.Add key value h)).
      rewrite IH.
      + rewrite values_Add. unfold valuesFor. rewrite filter_cons. cbn [fst].
        destruct (decide _) as [E|E].
        * rewrite <- app_assoc. cbn.
          destruct (header.values h name ++ value :: _) eqn:E2; [|reflexivity].
          destruct (header.values h name); discriminate.
        * destruct (header.values h name ++ _) eqn:E2; [|reflexivity].
          unfold header.Add. rewrite lookup_insert_ne by exact E. reflexivity.
      + intros n. unfold header.Add. rewrite lookup_insert.
        destruct (decide _); [|apply Hh].
        intros H. injection H as H. destruct (header.values h _); discriminate. }
  intros name. rewrite Hgen.
  - unfold header.values. rewrite lookup_empty. cbn.
    destruct (valuesFor name entries); reflexivity.
  - intros n. rewrite lookup_empty. discriminate.
Qed.

Lemma valuesFor_elem name value (entries : gomap string) :
  (name, value) ∈ entries ->
  value ∈ valuesFor (textproto.CanonicalMIMEHeaderKey name) entries.
Proof.
  intros H. unfold valuesFor. apply (list_elem_of_fmap_2 snd _ (name, value)).
  apply list_elem_of_filter. split; [reflexivity|exact H].
Qed.

(** The header map of the request is the empty map of [http.NewRequest] to
    which the loop at lines 151-154 has added the entries of the record. *)
Lemma ReqHeader_values r env req httpRequest :
  EventToRequest r env req = (Some httpRequest, None) ->
  http.ReqHeader httpRequest = addHeaders (Headers req) ∅
  /\ forall name,
       header.values (http.ReqHeader httpRequest) name = valuesFor name (Headers req).
Proof.
  intros H. destruct (EventToRequest_inv r env req httpRequest H) as [Hc Hd].
  destruct (EventToRequest_decoded r env req _ Hd) as [Hok _].
  destruct (Hok Hc) as (rq & E & _ & Hh & _). rewrite E in H. injection H as <-.
  split; [exact Hh|]. intros name. rewrite Hh, values_addHeaders. reflexivity.
Qed.

(** C8 (as amended).  [EventToRequest] adds every entry of the record's
    header map to the header map of the request with [Header.Add]: under the
    canonical form of a name the request holds the values of all the entries
    with that canonical name, in the order of the loop, so every value of
    the record is found in the request and none replaces another. *)
Theorem EventToRequest_headers (r : RequestAccessor) (env : Environ)
  (req : ALBTargetGroupRequest) (httpRequest : http.Request) :
  EventToRequest r env req = (Some httpRequest, None) ->
  (forall name,
     header.values (http.ReqHeader httpRequest) name = valuesFor name (Headers req))
  /\ (forall name value,
        (name, value) ∈ Headers req ->
        value ∈ header.values (http.ReqHeader httpRequest)
                  (textproto.CanonicalMIMEHeaderKey name))
  /\ (forall name vs,
        http.ReqHeader httpRequest !! name = Some vs <->
        vs <> [] /\ vs = valuesFor name (Headers req)).
Proof.
  intros H. destruct (ReqHeader_values r env req httpRequest H) as [Hh Hv].
  split; [exact Hv|]. split.
  - intros name value Hin. rewrite Hv. apply valuesFor_elem, Hin.
  - intros name vs. rewrite Hh, lookup_addHeaders_empty.
    destruct (valuesFor name (Headers req)) as [|v vs'].
    + split; [discriminate|]. intros [H1 H2]. contradiction.
    + split; [intros H'; injection H' as <-; split; [discriminate|reflexivity]|].
      intros [_ ->]. reflexivity.
Qed.

(** The theorem at a record whose two header names differ in case only. *)
Lemma EventToRequest_headers_witness :
  exists httpRequest,
    EventToRequest (mkAccessor "") ∅ caseVariantHeaders = (Some httpRequest, None)
    /\ header.values (http.ReqHeader httpRequest) "X-Trace" = ["1"; "2"].
Proof.
  destruct (EventToRequest (mkAccessor "") ∅ caseVariantHeaders) as [[rq|] [err|]] eqn:E;
    try (vm_compute in E; discriminate).
  exists rq. split; [reflexivity|].
  rewrite (proj1 (EventToRequest_headers (mkAccessor "") ∅ caseVariantHeaders rq E) "X-Trace").
  reflexivity.
Defined.

(** C8 as stated fails: the names [x-trace] and [X-Trace] are two keys of the
    record's map and one header name; the request holds both values under
    [X-Trace], not the last one alone. *)
Lemma last_value_does_not_win :
  exists httpRequest,
    EventToRequest (mkAccessor "") ∅ caseVariantHeaders = (Some httpRequest, None)
    /\ gomap_ok (Headers caseVariantHeaders)
    /\ ~ lastValueWins (Headers caseVariantHeaders) (http.ReqHeader httpRequest).
Proof.
  destruct (EventToRequest (mkAccessor "") ∅ caseVariantHeaders) as [[rq|] [err|]] eqn:E;
    try (vm_compute in E; discriminate).
  exists rq. split; [reflexivity|]. split.
  - unfold gomap_ok. apply (bool_decide_unpack _). vm_compute. exact I.
  - intros Hclaim. destruct (Hclaim "x-trace" "1") as (survivor & Hs & _).
    + cbn. left.
    + vm_compute in E. injection E as <-. vm_compute in Hs. discriminate.
Qed.

(** ** Strings *)

Lemma append_cons x (a b : string) : String x a +:+ b = String x (a +:+ b).
Proof. reflexivity. Qed.

Lemma append_nil (b : string) : EmptyString +:+ b = b.
Proof. reflexivity. Qed.

Lemma append_assoc (a b c : string) : (a +:+ b) +:+ c = a +:+ (b +:+ c).
Proof.
  induction a as [|x a IH]; [reflexivity|]. rewrite !append_cons, IH. reflexivity.
Qed.

Lemma append_empty_r (a : string) : a +:+ EmptyString = a.
Proof.
  induction a as [|x a IH]; [reflexivity|]. rewrite append_cons, IH. reflexivity.
Qed.

Lemma length_append (a b : string) :
  String.length (a +:+ b) = (String.length a + String.length b)%nat.
Proof.
  induction a as [|x a IH]; [reflexivity|].
  rewrite append_cons. cbn [String.length]. rewrite IH. reflexivity.
Qed.

Lemma Contains_cons c s sep :
  GoStrings.Contains (String c s) sep = Ascii.eqb sep c || GoStrings.Contains s sep.
Proof. reflexivity. Qed.

Lemma Contains_app a b sep :
  GoStrings.Contains (a +:+ b) sep = GoStrings.Contains a sep || GoStrings.Contains b sep.
Proof.
  induction a as [|x a IH]; [reflexivity|].
  rewrite append_cons, !Contains_cons, IH, orb_assoc. reflexivity.
Qed.

Lemma Contains_drop n : forall s sep,
  GoStrings.Contains s sep = false -> GoStrings.Contains (GoStrings.drop n s) sep = false.
Proof.
  induction n as [|n IH]; intros [|c s] sep H; cbn [GoStrings.drop]; try exact H.
  rewrite Contains_cons in H. apply orb_false_elim in H as [_ H]. apply IH, H.
Qed.

Lemma Cut_clean s sep :
  GoStrings.Contains s sep = false -> GoStrings.Cut s sep = (s, EmptyString, false).
Proof.
  induction s as [|c s IH]; intros H; [reflexivity|].
  rewrite Contains_cons in H. apply orb_false_elim in H as [Hc H].
  cbn [GoStrings.Cut]. rewrite Ascii.eqb_sym, Hc, (IH H). reflexivity.
Qed.

Lemma Cut_app pre s sep :
  GoStrings.Contains pre sep = false ->
  GoStrings.Cut (pre +:+ s) sep =
    let '(before, after, found) := GoStrings.Cut s sep in (pre +:+ before, after, found).
Proof.
  induction pre as [|c pre IH]; intros H.
  - rewrite append_nil. destruct (GoStrings.Cut s sep) as [[? ?] ?]. reflexivity.
  - rewrite Contains_cons in H. apply orb_false_elim in H as [Hc H].
    rewrite append_cons. cbn [GoStrings.Cut]. rewrite Ascii.eqb_sym, Hc, (IH H).
    destruct (GoStrings.Cut s sep) as [[? ?] ?]. reflexivity.
Qed.

Lemma Count_app a b sep :
  GoStrings.Count (a +:+ b) sep = (GoStrings.Count a sep + GoStrings.Count b sep)%nat.
Proof.
  induction a as [|x a IH]; [reflexivity|].
  rewrite append_cons. cbn [GoStrings.Count]. rewrite IH. lia.
Qed.

Lemma Count_clean s sep : GoStrings.Contains s sep = false -> GoStrings.Count s sep = 0%nat.
Proof.
  induction s as [|c s IH]; intros H; [reflexivity|].
  rewrite Contains_cons in H. apply orb_false_elim in H as [Hc H].
  cbn [GoStrings.Count]. rewrite Ascii.eqb_sym, Hc, (IH H). reflexivity.
Qed.

Lemma drop_app_length a b : GoStrings.drop (String.length a) (a +:+ b) = b.
Proof. induction a as [|x a IH]; [destruct b; reflexivity|exact IH]. Qed.

Lemma take_app_length a b n :
  GoStrings.take (String.length a + n) (a +:+ b) = a +:+ GoStrings.take n b.
Proof.
  induction a as [|x a IH]; [reflexivity|].
  rewrite append_cons. cbn [String.length Nat.add GoStrings.take]. rewrite IH. reflexivity.
Qed.

Lemma drop_app_ge a b n :
  GoStrings.drop (String.length a + n) (a +:+ b) = GoStrings.drop n b.
Proof.
  induction a as [|x a IH]; [reflexivity|]. rewrite append_cons. exact IH.
Qed.

Lemma HasSuffix_app a b c :
  b <> EmptyString ->
  GoStrings.HasSuffix (a +:+ b) (String c EmptyString) = GoStrings.HasSuffix b (String c EmptyString).
Proof.
  intros Hb. unfold GoStrings.HasSuffix. rewrite length_append.
  destruct b as [|y b]; [contradiction|]. cbn [String.length].
  replace (String.length a + S (String.length b) - 1)%nat
    with (String.length a + String.length b)%nat by lia.
  replace (S (String.length b) - 1)%nat with (String.length b) by lia.
  rewrite drop_app_ge.
  replace (1 <=? String.length a + S (String.length b))%nat with true
    by (symmetry; apply Nat.leb_le; lia).
  replace (1 <=? S (String.length b))%nat with true by (symmetry; apply Nat.leb_le; lia).
  reflexivity.
Qed.

Lemma HasSuffix_clean s c :
  GoStrings.Contains s c = false -> GoStrings.HasSuffix s (String c EmptyString) = false.
Proof.
  induction s as [|x s IH]; intros H; [reflexivity|].
  rewrite Contains_cons in H. apply orb_false_elim in H as [Hc H].
  destruct s as [|y s].
  - unfold GoStrings.HasSuffix. cbn. rewrite Ascii.eqb_sym, Hc. reflexivity.
  - change (String x (String y s)) with (String x EmptyString +:+ String y s).
    rewrite HasSuffix_app by discriminate. apply IH, H.
Qed.

(** ** The query of a URL *)

Lemma splitQuery_clean s :
  GoStrings.Contains s "?" = false -> url.splitQuery s = (s, EmptyString, false).
Proof.
  intros H. unfold url.splitQuery. rewrite (HasSuffix_clean s "?" H). cbn [andb].
  rewrite (Cut_clean s "?" H). reflexivity.
Qed.

Lemma splitQuery_app pre s :
  GoStrings.Contains pre "?" = false ->
  url.splitQuery (pre +:+ s) =
    let '(rest, rawQuery, forceQuery) := url.splitQuery s in (pre +:+ rest, rawQuery, forceQuery).
Proof.
  intros H. destruct s as [|y s].
  - rewrite append_empty_r, (splitQuery_clean pre H).
    change (url.splitQuery EmptyString) with (EmptyString, EmptyString, false).
    cbv beta iota. rewrite append_empty_r. reflexivity.
  - unfold url.splitQuery. rewrite HasSuffix_app by discriminate.
    rewrite Count_app, (Count_clean pre "?" H). cbn [Nat.add].
    destruct (GoStrings.HasSuffix (String y s) "?" && _).
    + rewrite length_append. cbn [String.length].
      replace (String.length pre + S (String.length s) - 1)%nat
        with (String.length pre + String.length s)%nat by lia.
      replace (S (String.length s) - 1)%nat with (String.length s) by lia.
      rewrite take_app_length. reflexivity.
    + rewrite (Cut_app pre _ "?" H).
      destruct (GoStrings.Cut (String y s) "?") as [[? ?] ?]. reflexivity.
Qed.

Lemma splitQuery_query e :
  GoStrings.Contains e "?" = false ->
  url.splitQuery ("?" +:+ e) = (EmptyString, e, String.eqb e EmptyString).
Proof.
  intros H. destruct e as [|y e]; [reflexivity|].
  unfold url.splitQuery.
  change ("?" +:+ String y e) with (String "?" EmptyString +:+ String y e).
  rewrite HasSuffix_app by discriminate. rewrite (HasSuffix_clean _ "?" H). reflexivity.
Qed.

(** ** The query string that the loops build *)

Lemma addPair_nonempty queryString q v : addPair queryString q v <> EmptyString.
Proof.
  unfold addPair. intros H. apply (f_equal (fun s => GoStrings.Contains s "=")) in H.
  rewrite !Contains_app in H. cbn in H. rewrite !orb_true_r in H. discriminate.
Qed.

Lemma addPair_encodePair queryString kv :
  addPair queryString (fst kv) (snd kv) =
    (if String.eqb queryString EmptyString then EmptyString else queryString +:+ "&")
    +:+ encodePair kv.
Proof.
  unfold addPair, encodePair. destruct (String.eqb_spec queryString EmptyString) as [->|];
    reflexivity.
Qed.

Lemma fold_addPair pairs : forall queryString,
  fold_left (fun queryString '(q, v) => addPair queryString q v) pairs queryString =
    match pairs with
    | [] => queryString
    | _ => (if String.eqb queryString EmptyString then EmptyString else queryString +:+ "&")
           +:+ joinPairs pairs
    end.
Proof.
  induction pairs as [|[q v] pairs IH]; intros queryString; [reflexivity|].
  cbn [fold_left]. rewrite IH. unfold joinPairs. cbn [map String.concat].
  destruct pairs as [|kv' pairs]; [apply (addPair_encodePair _ (q, v))|].
  destruct (String.eqb_spec (addPair queryString q v) EmptyString) as [E|_];
    [destruct (addPair_nonempty _ _ _ E)|].
  rewrite (addPair_encodePair _ (q, v)), !append_assoc. reflexivity.
Qed.

Lemma singleValueQuery_join m : singleValueQuery m = joinPairs m.
Proof. unfold singleValueQuery. rewrite fold_addPair. destruct m; reflexivity. Qed.

Lemma fold_values q l : forall queryString,
  fold_left (fun queryString v => addPair queryString q v) l queryString =
    fold_left (fun queryString '(q, v) => addPair queryString q v) (map (pair q) l) queryString.
Proof. induction l as [|v l IH]; intros queryString; [reflexivity|]. cbn. apply IH. Qed.

Lemma multiValueQuery_fold m : forall queryString,
  fold_left (fun queryString '(q, l) =>
               fold_left (fun queryString v => addPair queryString q v) l queryString)
            m queryString =
    fold_left (fun queryString '(q, v) => addPair queryString q v) (multiPairs m) queryString.
Proof.
  induction m as [|[q l] m IH]; intros queryString; [reflexivity|].
  cbn [fold_left multiPairs flat_map]. rewrite fold_left_app, IH, fold_values. reflexivity.
Qed.

Lemma multiValueQuery_join m : multiValueQuery m = joinPairs (multiPairs m).
Proof.
  unfold multiValueQuery. rewrite multiValueQuery_fold, fold_addPair.
  destruct (multiPairs m); reflexivity.
Qed.

(** What [EventToRequest] appends to the address and the path, for every
    record. *)
Lemma queryPart_join req :
  queryPart req =
    match MultiValueQueryStringParameters req, QueryStringParameters req with
    | _ :: _, _ => "?" +:+ joinPairs (multiPairs (MultiValueQueryStringParameters req))
    | [], _ :: _ => "?" +:+ joinPairs (QueryStringParameters req)
    | [], [] => EmptyString
    end.
Proof.
  unfold queryPart. rewrite multiValueQuery_join, singleValueQuery_join.
  destruct (MultiValueQueryStringParameters req); [|reflexivity].
  destruct (QueryStringParameters req); reflexivity.
Qed.

(** ** Escaped text holds no [?] and no [#] *)

Lemma all_bytes_cons p c s : all_bytes p (String c s) = p c && all_bytes p s.
Proof. reflexivity. Qed.

Lemma all_bytes_app p a b : all_bytes p (a +:+ b) = all_bytes p a && all_bytes p b.
Proof.
  induction a as [|x a IH]; [reflexivity|].
  rewrite append_cons, !all_bytes_cons, IH, andb_assoc. reflexivity.
Qed.

Lemma all_bytes_Contains p s sep :
  all_bytes p s = true -> p sep = false -> GoStrings.Contains s sep = false.
Proof.
  intros Hs Hp. induction s as [|c s IH]; [reflexivity|].
  rewrite all_bytes_cons in Hs. apply andb_prop in Hs as [Hc Hs].
  rewrite Contains_cons, (IH Hs), orb_false_r.
  destruct (Ascii.eqb_spec sep c) as [->|]; [congruence|reflexivity].
Qed.

Lemma hexdigit_queryByte n : queryByte (url.hexdigit n) = true.
Proof.
  unfold url.hexdigit. generalize (N.to_nat n) as k. intros k.
  do 16 (destruct k as [|k]; [reflexivity|]). reflexivity.
Qed.

Lemma unescaped_queryByte c :
  url.shouldEscape c url.encodeQueryComponent = false -> queryByte c = true.
Proof.
  unfold url.shouldEscape, queryByte. destruct (is_alnum c); [reflexivity|].
  cbn [url.is_host_mode andb orb].
  destruct (byte_in c "-_.~") eqn:E.
  - intros _. cbn in E |- *.
    repeat (apply orb_prop in E as [E|E]; [rewrite E, ?orb_true_r; reflexivity|]).
    discriminate.
  - destruct (byte_in c "$&+,/:;=?@"); discriminate.
Qed.

Lemma QueryEscape_bytes s : all_bytes queryByte (url.QueryEscape s) = true.
Proof.
  unfold url.QueryEscape. induction s as [|c s IH]; [reflexivity|].
  cbn [url.escape url.is_query_mode]. rewrite andb_true_r.
  destruct (Ascii.eqb c " "); [rewrite all_bytes_cons, IH; reflexivity|].
  destruct (url.shouldEscape c url.encodeQueryComponent) eqn:E.
  - rewrite !all_bytes_cons, !hexdigit_queryByte, IH. reflexivity.
  - rewrite all_bytes_cons, (unescaped_queryByte c E), IH. reflexivity.
Qed.

Lemma concat_cons2 sep x y l :
  String.concat sep (x :: y :: l) = x +:+ sep +:+ String.concat sep (y :: l).
Proof. reflexivity. Qed.

Lemma joinPairs_bytes pairs : all_bytes queryByte (joinPairs pairs) = true.
Proof.
  assert (Hp : forall kv, all_bytes queryByte (encodePair kv) = true).
  { intros kv. unfold encodePair. rewrite !all_bytes_app, !QueryEscape_bytes. reflexivity. }
  unfold joinPairs. induction pairs as [|kv pairs IH]; [reflexivity|].
  destruct pairs as [|kv' pairs]; [apply Hp|].
  change (map encodePair (kv :: kv' :: pairs))
    with (encodePair kv :: encodePair kv' :: map encodePair pairs).
  rewrite concat_cons2, !all_bytes_app, Hp. apply IH.
Qed.

Lemma joinPairs_clean pairs :
  GoStrings.Contains (joinPairs pairs) "?" = false
  /\ GoStrings.Contains (joinPairs pairs) "#" = false.
Proof.
  split; apply (all_bytes_Contains queryByte); auto using joinPairs_bytes.
Qed.

(** ** The scheme and the query in [url.Parse] *)

Lemma scheme_byte_not_slash c :
  is_lower c || is_upper c || is_digit c || byte_in c "+-.:" = true ->
  Ascii.eqb "/" c = false.
Proof.
  intros H. destruct (Ascii.eqb_spec "/"%char c) as [<-|]; [discriminate|reflexivity].
Qed.

Lemma scanScheme_rest sp q : forall atStart scheme rest,
  GoStrings.Contains sp "/" = true ->
  url.scanScheme atStart (sp +:+ q) = url.FoundScheme scheme rest ->
  exists sp',
    rest = sp' +:+ q
    /\ forall sep, GoStrings.Contains sp sep = false -> GoStrings.Contains sp' sep = false.
Proof.
  induction sp as [|c sp IH]; intros atStart scheme rest Hs H; [discriminate|].
  rewrite append_cons in H. cbn [url.scanScheme] in H.
  rewrite Contains_cons in Hs.
  assert (Hstep : forall scheme rest,
            Ascii.eqb "/" c = false ->
            url.scanCons c (url.scanScheme false (sp +:+ q)) = url.FoundScheme scheme rest ->
            exists sp',
              rest = sp' +:+ q
              /\ forall sep, GoStrings.Contains (String c sp) sep = false ->
                             GoStrings.Contains sp' sep = false).
  { intros scheme' rest' Hc H'. rewrite Hc in Hs. cbn [orb] in Hs.
    destruct (url.scanScheme false (sp +:+ q)) as [| |s0 r0] eqn:E; try discriminate.
    cbn in H'. injection H' as _ <-.
    destruct (IH false s0 r0 Hs E) as (sp' & -> & Hclean).
    exists sp'. split; [reflexivity|]. intros sep Hsep.
    rewrite Contains_cons in Hsep. apply orb_false_elim in Hsep as [_ Hsep]. auto. }
  destruct (is_lower c || is_upper c) eqn:E1.
  { apply (Hstep scheme rest); [|exact H]. apply scheme_byte_not_slash. rewrite E1. reflexivity. }
  destruct (is_digit c || byte_in c "+-.") eqn:E2.
  { destruct atStart; [discriminate|]. apply (Hstep scheme rest); [|exact H].
    apply scheme_byte_not_slash. apply orb_prop in E2 as [E2|E2].
    - rewrite E2, !orb_true_r. reflexivity.
    - cbn in E2 |- *. rewrite !orb_false_r in E2. rewrite <- !orb_assoc.
      repeat (apply orb_prop in E2 as [E2|E2]; [rewrite E2, ?orb_true_r; reflexivity|]).
      rewrite E2, ?orb_true_r. reflexivity. }
  destruct (Ascii.eqb c ":") eqn:E3; [|discriminate].
  destruct atStart; [discriminate|]. injection H as _ <-.
  exists sp. split; [reflexivity|]. intros sep Hsep.
  rewrite Contains_cons in Hsep. apply orb_false_elim in Hsep as [_ Hsep]. exact Hsep.
Qed.

Lemma getScheme_rest sp q scheme rest :
  GoStrings.Contains sp "/" = true ->
  url.getScheme (sp +:+ q) = Some (scheme, rest) ->
  exists sp',
    rest = sp' +:+ q
    /\ forall sep, GoStrings.Contains sp sep = false -> GoStrings.Contains sp' sep = false.
Proof.
  intros Hs H. unfold url.getScheme in H.
  destruct (url.scanScheme true (sp +:+ q)) as [| |s0 r0] eqn:E; try discriminate.
  - injection H as _ <-. exists sp. auto.
  - injection H as _ <-. apply (scanScheme_rest sp q true s0 r0 Hs E).
Qed.

(** Whatever the rest of the URL is, the query of a parsed URL is the one
    that [splitQuery] cut off. *)
Lemma parse_query rawURL u :
  url.parse rawURL = Some u ->
  String.eqb rawURL "*" = false ->
  exists scheme rest,
    url.getScheme rawURL = Some (scheme, rest)
    /\ url.RawQuery u = snd (fst (url.splitQuery rest))
    /\ url.ForceQuery u = snd (url.splitQuery rest).
Proof.
  intros H Hstar. unfold url.parse in H. rewrite Hstar in H.
  destruct (url.stringContainsCTLByte rawURL); [discriminate|].
  destruct (url.getScheme rawURL) as [[scheme rest]|]; [|discriminate].
  exists scheme, rest. split; [reflexivity|]. cbn in H.
  destruct (url.splitQuery rest) as [[rest' rawQuery] forceQuery]. cbn [fst snd].
  repeat (case_match; simplify_option_eq; try done).
Qed.

Lemma Parse_no_fragment rawURL :
  GoStrings.Contains rawURL "#" = false -> url.Parse rawURL = url.parse rawURL.
Proof.
  intros H. unfold url.Parse. rewrite (Cut_clean rawURL "#" H).
  destruct (url.parse rawURL); reflexivity.
Qed.

(** The query of the URL [sp ++ q], where [sp] holds a slash and neither [?]
    nor [#], and [q] is empty or [?] followed by escaped pairs. *)
Lemma Parse_query_of sp pairs (pending : bool) u :
  GoStrings.Contains sp "/" = true ->
  noQueryOrFragment sp = true ->
  url.Parse (sp +:+ (if pending then "?" +:+ joinPairs pairs else EmptyString)) = Some u ->
  url.RawQuery u = (if pending then joinPairs pairs else EmptyString)
  /\ url.ForceQuery u = pending && String.eqb (joinPairs pairs) EmptyString.
Proof.
  intros Hslash Hclean H.
  apply andb_prop in Hclean as [Hq Hf].
  apply negb_true_iff in Hq, Hf.
  destruct (joinPairs_clean pairs) as [Hjq Hjf].
  set (q := if pending then "?" +:+ joinPairs pairs else EmptyString) in *.
  assert (Hqf : GoStrings.Contains q "#" = false).
  { subst q. destruct pending; [|reflexivity]. rewrite Contains_app, Hjf. reflexivity. }
  rewrite Parse_no_fragment in H by (rewrite Contains_app, Hf, Hqf; reflexivity).
  destruct (parse_query _ _ H) as (scheme & rest & Hs & -> & ->).
  { destruct (String.eqb_spec (sp +:+ q) "*") as [E|]; [|reflexivity].
    apply (f_equal (fun s => GoStrings.Contains s "/")) in E.
    rewrite Contains_app, Hslash in E. discriminate. }
  destruct (getScheme_rest sp q scheme rest Hslash Hs) as (sp' & -> & Hsp').
  rewrite (splitQuery_app sp' q (Hsp' "?"%char Hq)).
  subst q. destruct pending.
  - rewrite (splitQuery_query _ Hjq). split; reflexivity.
  - split; reflexivity.
Qed.

(** ** The path *)

Lemma Replace1_prefix s old new :
  String.prefix old s = true ->
  GoStrings.Replace1 s old new = new +:+ GoStrings.drop (String.length old) s.
Proof. intros H. destruct s; cbn [GoStrings.Replace1]; rewrite H; reflexivity. Qed.

Lemma prefix_slash_inv s : String.prefix "/" s = true -> exists s', s = String "/" s'.
Proof.
  destruct s as [|c s]; [discriminate|]. intros H.
  unfold String.prefix in H. destruct (ascii_dec "/" c) as [<-|]; [eauto|discriminate H].
Qed.

(** The path after lines 89-100, for every accessor and record: the path of
    the record, without the configured prefix if it starts with it, behind a
    slash if it does not start with one. *)
Lemma strippedPath_spec r req :
  exists tail,
    (tail = Path req
     \/ (GoStrings.HasPrefix (Path req) (stripBasePath r) = true
         /\ tail = GoStrings.drop (String.length (stripBasePath r)) (Path req)))
    /\ strippedPath r req = (if GoStrings.HasPrefix tail "/" then tail else "/" +:+ tail).
Proof.
  unfold strippedPath.
  destruct (negb (String.eqb (stripBasePath r) EmptyString)
            && (1 <? String.length (stripBasePath r))%nat).
  - destruct (GoStrings.HasPrefix (Path req) (stripBasePath r)) eqn:E.
    + rewrite (Replace1_prefix _ _ _ E), append_nil.
      eexists. split; [right; split; reflexivity|].
      destruct (GoStrings.HasPrefix _ "/"); reflexivity.
    + exists (Path req). split; [left; reflexivity|].
      destruct (GoStrings.HasPrefix _ "/"); reflexivity.
  - exists (Path req). split; [left; reflexivity|].
    destruct (GoStrings.HasPrefix _ "/"); reflexivity.
Qed.

Lemma strippedPath_slash r req : exists p, strippedPath r req = String "/" p.
Proof.
  destruct (strippedPath_spec r req) as (tail & _ & ->).
  destruct (GoStrings.HasPrefix tail "/") eqn:E.
  - apply prefix_slash_inv, E.
  - exists tail. reflexivity.
Qed.

Lemma strippedPath_clean r req sep :
  Ascii.eqb sep "/" = false ->
  GoStrings.Contains (Path req) sep = false ->
  GoStrings.Contains (strippedPath r req) sep = false.
Proof.
  intros Hsep H. destruct (strippedPath_spec r req) as (tail & Ht & ->).
  assert (Hc : GoStrings.Contains tail sep = false).
  { destruct Ht as [->|[_ ->]]; [exact H|]. apply Contains_drop, H. }
  destruct (GoStrings.HasPrefix tail "/"); [exact Hc|].
  rewrite Contains_app, Hc, orb_false_r. cbn. rewrite Hsep. reflexivity.
Qed.

Lemma strippedPath_unset req :
  strippedPath (mkAccessor EmptyString) req
  = if GoStrings.HasPrefix (Path req) "/" then Path req else "/" +:+ Path req.
Proof.
  unfold strippedPath. cbn [stripBasePath String.eqb negb andb].
  destruct (GoStrings.HasPrefix (Path req) "/"); reflexivity.
Qed.

(** The URL handed to [http.NewRequest], for every accessor, environment and
    record. *)
Lemma requestURL_spec r env req :
  requestURL r env req =
    (serverAddress env +:+ strippedPath r req)
    +:+ (if bool_decide (MultiValueQueryStringParameters req <> [])
         then "?" +:+ joinPairs (multiPairs (MultiValueQueryStringParameters req))
         else if bool_decide (QueryStringParameters req <> [])
         then "?" +:+ joinPairs (QueryStringParameters req)
         else EmptyString).
Proof.
  unfold requestURL. rewrite append_assoc, queryPart_join.
  destruct (MultiValueQueryStringParameters req); [|reflexivity].
  destruct (QueryStringParameters req); reflexivity.
Qed.

(** C3 (as amended).  For a record whose path holds neither [?] nor [#] (and a
    server address that holds neither), the query of the request URL is
    built from the multi-value map alone when that map is not empty (each
    key and value escaped, joined with [=], the pairs joined with [&]), from
    the single-value map when only that one is not empty, and the URL has no
    query when both are empty. *)
Theorem query_precedence (r : RequestAccessor) (env : Environ) (req : ALBTargetGroupRequest)
  (httpRequest : http.Request) :
  noQueryOrFragment (serverAddress env) = true ->
  noQueryOrFragment (Path req) = true ->
  EventToRequest r env req = (Some httpRequest, None) ->
  queryFromMaps req (http.URL httpRequest)
  /\ (MultiValueQueryStringParameters req <> [] \/ QueryStringParameters req <> [] ->
      requestURL r env req
      = serverAddress env +:+ strippedPath r req +:+ "?" +:+ url.RawQuery (http.URL httpRequest)).
Proof.
  intros Hs Hp H.
  destruct (EventToRequest_inv r env req httpRequest H) as [Hc Hd].
  destruct (EventToRequest_decoded r env req _ Hd) as [Hok _].
  destruct (Hok Hc) as (rq & E & _ & _ & u & Hu & _ & _ & Hq & Hf & _).
  rewrite E in H. injection H as <-. unfold queryFromMaps. rewrite Hq, Hf. clear Hok E Hq Hf.
  assert (Hsp : GoStrings.Contains (serverAddress env +:+ strippedPath r req) "/" = true).
  { destruct (strippedPath_slash r req) as [p ->].
    rewrite Contains_app. cbn. rewrite orb_true_r. reflexivity. }
  assert (Hclean : noQueryOrFragment (serverAddress env +:+ strippedPath r req) = true).
  { unfold noQueryOrFragment in *. apply andb_prop in Hs as [Hs1 Hs2].
    apply andb_prop in Hp as [Hp1 Hp2]. apply negb_true_iff in Hs1, Hs2, Hp1, Hp2.
    rewrite !Contains_app, Hs1, Hs2, !strippedPath_clean by (assumption || reflexivity).
    reflexivity. }
  pose proof (requestURL_spec r env req) as Hurl. rewrite Hurl in Hu.
  destruct (MultiValueQueryStringParameters req) as [|m ms] eqn:Em.
  - destruct (QueryStringParameters req) as [|s ss] eqn:Es.
    + destruct (Parse_query_of _ [] false u Hsp Hclean Hu) as [-> ->].
      split; [|intros [?|?]; contradiction].
      split; [contradiction|]. split; [contradiction|]. split; reflexivity.
    + destruct (Parse_query_of _ (s :: ss) true u Hsp Hclean Hu) as [-> _].
      split.
      * split; [contradiction|]. split; [reflexivity|]. intros _ ?. discriminate.
      * intros _. rewrite Hurl, append_assoc. reflexivity.
  - destruct (Parse_query_of _ (multiPairs (m :: ms)) true u Hsp Hclean Hu) as [-> _].
    split.
    + split; [reflexivity|]. split; discriminate.
    + intros _. rewrite Hurl, append_assoc. reflexivity.
Qed.

(** The theorem at the record with multi-value [a = 1, 2] and single-value
    [a = x]. *)
Lemma query_precedence_witness :
  exists httpRequest,
    EventToRequest (mkAccessor "") ∅ precedenceEvent = (Some httpRequest, None)
    /\ url.RawQuery (http.URL httpRequest) = "a=1&a=2".
Proof.
  destruct (EventToRequest (mkAccessor "") ∅ precedenceEvent) as [[rq|] [err|]] eqn:E;
    try (vm_compute in E; discriminate).
  exists rq. split; [reflexivity|].
  assert (Hs : noQueryOrFragment (serverAddress ∅) = true) by (vm_compute; reflexivity).
  assert (Hp : noQueryOrFragment (Path precedenceEvent) = true) by (vm_compute; reflexivity).
  destruct (query_precedence (mkAccessor "") ∅ precedenceEvent rq Hs Hp E) as [(Hm & _) _].
  rewrite Hm by discriminate. reflexivity.
Defined.

(** C3 as stated fails: for the path [/search?debug=1] and two empty maps
    the request URL has the query [debug=1]. *)
Lemma query_in_path_survives :
  exists httpRequest,
    EventToRequest (mkAccessor "") ∅ queryInPathEvent = (Some httpRequest, None)
    /\ url.RawQuery (http.URL httpRequest) = "debug=1"
    /\ ~ queryFromMaps queryInPathEvent (http.URL httpRequest).
Proof.
  destruct (EventToRequest (mkAccessor "") ∅ queryInPathEvent) as [[rq|] [err|]] eqn:E;
    try (vm_compute in E; discriminate).
  exists rq. split; [reflexivity|].
  vm_compute in E. injection E as <-. split; [reflexivity|].
  intros (_ & _ & Hnone). destruct (Hnone eq_refl eq_refl) as [Hq _]. discriminate.
Qed.

(** ** URLs at the default server address *)

Lemma parse_default_address tail :
  url.parse (DefaultServerAddress +:+ String "/" tail) =
    if url.stringContainsCTLByte (DefaultServerAddress +:+ String "/" tail) then None
    else
      let '(rest, rawQuery, forceQuery) := url.splitQuery tail in
      path ← url.unescape rest url.encodePath;
      Some (url.mkURL "https" EmptyString None defaultHost (String "/" path)
              forceQuery rawQuery EmptyString).
Proof.
  unfold url.parse.
  destruct (url.stringContainsCTLByte _); [reflexivity|].
  change (String.eqb (DefaultServerAddress +:+ String "/" tail) "*") with false.
  cbv iota.
  change (url.getScheme (DefaultServerAddress +:+ String "/" tail))
    with (Some ("https", "//aws-serverless-go-api.com/" +:+ tail)).
  cbn [mbind option_bind]. change (GoStrings.ToLower "https") with "https".
  rewrite (splitQuery_app "//aws-serverless-go-api.com/" tail eq_refl).
  destruct (url.splitQuery tail) as [[rest rawQuery] forceQuery].
  change (String.prefix "/" ("//aws-serverless-go-api.com/" +:+ rest)) with true.
  change (String.prefix "//" ("//aws-serverless-go-api.com/" +:+ rest)) with true.
  change (negb (String.eqb "https" EmptyString)) with true.
  cbn [negb andb orb].
  change (GoStrings.Cut (GoStrings.drop 2 ("//aws-serverless-go-api.com/" +:+ rest)) "/")
    with (defaultHost, rest, true).
  cbv beta iota zeta.
  change (url.parseAuthority defaultHost) with (Some (@None (string * option string), defaultHost)).
  cbn [mbind option_bind].
  change (url.unescape (String "/" rest) url.encodePath)
    with (String "/" <$> url.unescape rest url.encodePath).
  destruct (url.unescape rest url.encodePath); reflexivity.
Qed.

Lemma HasPrefix_slash p : GoStrings.HasPrefix (String "/" p) "/" = true.
Proof.
  unfold GoStrings.HasPrefix, String.prefix.
  destruct (ascii_dec "/" "/"); [destruct p; reflexivity|congruence].
Qed.

Lemma queryPart_form req :
  queryPart req = EmptyString
  \/ exists pairs, queryPart req = "?" +:+ joinPairs pairs.
Proof.
  rewrite queryPart_join. destruct (MultiValueQueryStringParameters req); [|eauto].
  destruct (QueryStringParameters req); eauto.
Qed.




(** ** The round trip through the echo handler *)

Lemma copy_headers (m : HeaderMap) :
  map_fold (fun key vs (h : HeaderMap) => <[key := vs]> h) ∅ m = m.
Proof.
  apply (map_fold_weak_ind (fun (r : HeaderMap) (m : HeaderMap) => r = m)).
  - reflexivity.
  - intros key vs m' r _ ->. reflexivity.
Qed.

Lemma echoHandler_fresh httpRequest :
  exec (echoHandler (Some httpRequest)) NewProxyResponseWriter =
    {| headers :=
         if String.eqb (header.Get (http.ReqHeader httpRequest) contentTypeHeaderKey) EmptyString
         then header.Add contentTypeHeaderKey
                (sniff.DetectContentType (http.ReqBody httpRequest))
                (http.ReqHeader httpRequest)
         else http.ReqHeader httpRequest;
       body := http.ReqBody httpRequest;
       status := http.StatusOK |}.
Proof.
  unfold echoHandler. rewrite !exec_bind.
  set (w := exec (updateHeader _) NewProxyResponseWriter).
  assert (Hw : w = mkWriter (http.ReqHeader httpRequest) EmptyString defaultStatusCode).
  { subst w. unfold updateHeader, exec, modify. cbn. rewrite copy_headers. reflexivity. }
  rewrite Hw. clear w Hw.
  set (w := mkWriter _ _ _).
  pose proof (Write_headers (http.ReqBody httpRequest) w) as Hh.
  pose proof (Write_body (http.ReqBody httpRequest) w) as Hb.
  pose proof (Write_status (http.ReqBody httpRequest) w) as Hs.
  destruct (exec (Write (http.ReqBody httpRequest)) w) as [h b s] eqn:E.
  cbn in Hh, Hb, Hs. subst h b s. reflexivity.
Qed.

(** C1 (as amended).  When [EventToRequest] builds a request from the record,
    the echo handler on a fresh writer followed by [GetProxyResponse] gives
    an outbound record with status 200 in which: every header value of the
    inbound record is found under the canonical form of its name; the
    headers other than Content-Type are exactly those values; Content-Type
    has in addition the sniffed type when the record gave none (or an empty
    first value); and the body, decoded as the outbound flag says, is the
    inbound body decoded as the inbound flag says.  A plain inbound body that
    is valid UTF-8 comes back as it is, with the flag false. *)
Theorem round_trip (r : RequestAccessor) (env : Environ) (req : ALBTargetGroupRequest)
  (httpRequest : http.Request) :
  EventToRequest r env req = (Some httpRequest, None) ->
  exists out,
    roundTrip r env req = (out, None)
    /\ StatusCode out = 200%Z
    /\ (forall name value,
          (name, value) ∈ Headers req ->
          value ∈ header.values (RespMultiValueHeaders out)
                    (textproto.CanonicalMIMEHeaderKey name))
    /\ (forall name,
          name <> contentTypeHeaderKey ->
          header.values (RespMultiValueHeaders out) name = valuesFor name (Headers req))
    /\ header.values (RespMultiValueHeaders out) contentTypeHeaderKey
       = match valuesFor contentTypeHeaderKey (Headers req) with
         | EmptyString :: _ | [] =>
             valuesFor contentTypeHeaderKey (Headers req)
             ++ [sniff.DetectContentType (http.ReqBody httpRequest)]
         | vs => vs
         end
    /\ decodeBody req = Some (http.ReqBody httpRequest)
    /\ responsePayload out = decodeBody req
    /\ (IsBase64Encoded req = false -> utf8.Valid (Body req) = true ->
        RespBody out = Body req /\ RespIsBase64Encoded out = false).
Proof.
  intros H. unfold roundTrip. rewrite H.
  destruct (EventToRequest_inv r env req httpRequest H) as [_ Hd].
  destruct (ReqHeader_values r env req httpRequest H) as (_ & Hv).
  rewrite echoHandler_fresh.
  eexists. split; [apply GetProxyResponse_set; discriminate|].
  cbn [StatusCode RespMultiValueHeaders RespBody RespIsBase64Encoded headers body status].
  unfold header.Get. rewrite canonical_contentType, Hv.
  split; [reflexivity|].
  assert (Hnames : forall name,
            header.values
              (if String.eqb match valuesFor contentTypeHeaderKey (Headers req) with
                             | [] => EmptyString
                             | v :: _ => v
                             end EmptyString
               then header.Add contentTypeHeaderKey
                      (sniff.DetectContentType (http.ReqBody httpRequest))
                      (http.ReqHeader httpRequest)
               else http.ReqHeader httpRequest) name
            = if decide (contentTypeHeaderKey = name)
              then match valuesFor contentTypeHeaderKey (Headers req) with
                   | EmptyString :: _ | [] =>
                       valuesFor contentTypeHeaderKey (Headers req)
                       ++ [sniff.DetectContentType (http.ReqBody httpRequest)]
                   | vs => vs
                   end
              else valuesFor name (Headers req)).
  { intros name. destruct (valuesFor contentTypeHeaderKey (Headers req)) as [|v vs] eqn:Ev.
    - cbn [String.eqb]. rewrite values_Add, canonical_contentType, Hv.
      destruct (decide _) as [<-|]; [rewrite Ev|]; reflexivity.
    - destruct v as [|c v].
      + cbn [String.eqb]. rewrite values_Add, canonical_contentType, Hv.
        destruct (decide _) as [<-|]; [rewrite Ev|]; reflexivity.
      + cbn [String.eqb]. rewrite Hv. destruct (decide _) as [<-|]; [rewrite Ev|]; reflexivity. }
  split; [|split; [|split; [|split; [|split]]]].
  - intros name value Hnv. rewrite Hnames. destruct (decide _) as [E|_].
    + pose proof (valuesFor_elem name value (Headers req) Hnv) as Hel.
      rewrite <- E in Hel.
      destruct (valuesFor contentTypeHeaderKey (Headers req)) as [|[|c v] vs];
        try exact Hel; apply elem_of_app; left; exact Hel.
    + apply valuesFor_elem, Hnv.
  - intros name Hne. rewrite Hnames. destruct (decide _); [congruence|reflexivity].
  - rewrite Hnames. destruct (decide _); [reflexivity|congruence].
  - exact Hd.
  - rewrite Hd. unfold responsePayload.
    cbn [RespIsBase64Encoded RespBody].
    destruct (utf8.Valid (http.ReqBody httpRequest)); cbn [negb];
      [reflexivity|apply base64_facts.DecodeString_EncodeToString].
  - intros Hf Hvalid. unfold decodeBody in Hd. rewrite Hf in Hd. injection Hd as <-.
    rewrite Hvalid. split; reflexivity.
Qed.

(** The theorem at a record with a base64 body and a Content-Type header. *)
Lemma round_trip_witness :
  exists out,
    roundTrip (mkAccessor "") ∅ encodedEvent = (out, None)
    /\ responsePayload out = Some "hello"
    /\ RespBody out = "hello"
    /\ header.values (RespMultiValueHeaders out) contentTypeHeaderKey = ["text/plain"].
Proof.
  destruct (EventToRequest (mkAccessor "") ∅ encodedEvent) as [[rq|] [err|]] eqn:E;
    try (vm_compute in E; discriminate).
  destruct (round_trip (mkAccessor "") ∅ encodedEvent rq E)
    as (out & Hout & _ & _ & _ & Hct & _ & Hp & _).
  exists out. split; [exact Hout|]. split; [rewrite Hp; reflexivity|].
  split; [|rewrite Hct; vm_compute; reflexivity].
  vm_compute in Hout. injection Hout as <-. reflexivity.
Defined.

(** C1 as stated fails: the header [x-request-id] of the inbound record comes
    back as [X-Request-Id], next to a Content-Type that the inbound record
    does not have. *)
Lemma round_trip_changes_headers :
  exists out,
    roundTrip (mkAccessor "") ∅ tracedEvent = (out, None)
    /\ gomap_ok (Headers tracedEvent)
    /\ RespMultiValueHeaders out !! "x-request-id" = None
    /\ RespMultiValueHeaders out !! "X-Request-Id" = Some ["42"]
    /\ RespMultiValueHeaders out !! "Content-Type" = Some ["text/plain; charset=utf-8"]
    /\ ~ roundTripUnchanged tracedEvent out.
Proof.
  eexists. split; [vm_compute; reflexivity|].
  split; [apply (bool_decide_unpack _); vm_compute; exact I|].
  split; [reflexivity|]. split; [reflexivity|]. split; [reflexivity|].
  intros [Hh _]. apply (f_equal (fun h : HeaderMap => h !! "x-request-id")) in Hh.
  vm_compute in Hh. discriminate.
Qed.

(** ** More on the response writer *)

Lemma doCalls_app cs cs' w :
  exec (doCalls (cs ++ cs')) w = exec (doCalls cs') (exec (doCalls cs) w).
Proof.
  revert w. induction cs as [|c cs IH]; intros w; [reflexivity|].
  change ((c :: cs) ++ cs') with (c :: (cs ++ cs')). rewrite !doCalls_cons. apply IH.
Qed.

Lemma doCalls_status_kept cs : forall w,
  existsb isWriteHeader cs = false ->
  status w <> defaultStatusCode ->
  status (exec (doCalls cs) w) = status w.
Proof.
  induction cs as [|c cs IH]; intros w Hh Hs; [reflexivity|].
  rewrite doCalls_cons. simpl in Hh. apply orb_false_elim in Hh as [Hc Hh].
  assert (E : status (exec (doCall c) w) = status w).
  { rewrite doCall_status. destruct c; try reflexivity; [|discriminate].
    destruct (Z.eqb_spec (status w) (-1)); [contradiction|reflexivity]. }
  rewrite IH; [exact E|exact Hh|rewrite E; exact Hs].
Qed.

(** X1.  Whatever was called before, after a [WriteHeader] with a status
    other than -1 that no other [WriteHeader] follows, the writer has that
    status: later writes and header changes keep it, and [GetProxyResponse]
    returns it with its decimal description. *)
Theorem last_WriteHeader_wins (cs cs' : list call) (st : Z) (w : ProxyResponseWriter) :
  existsb isWriteHeader cs' = false ->
  st <> defaultStatusCode ->
  status (exec (doCalls (cs ++ CallWriteHeader st :: cs')) w) = st
  /\ exists resp,
       eval GetProxyResponse (exec (doCalls (cs ++ CallWriteHeader st :: cs')) w) = (resp, None)
       /\ StatusCode resp = st /\ StatusDescription resp = strconv.Itoa st.
Proof.
  intros Hh Hst.
  assert (E : status (exec (doCalls (cs ++ CallWriteHeader st :: cs')) w) = st).
  { rewrite doCalls_app, doCalls_cons, doCalls_status_kept; [reflexivity|exact Hh|exact Hst]. }
  split; [exact E|]. eexists. split.
  - apply GetProxyResponse_set. rewrite E. exact Hst.
  - cbn. rewrite E. split; reflexivity.
Qed.

(** The theorem [last_WriteHeader_wins] at a sample input. *)
Lemma last_WriteHeader_wins_witness :
  exists resp,
    eval GetProxyResponse
      (exec (doCalls ([CallWrite "a"; CallWriteHeader 500]
                        ++ CallWriteHeader 404 :: [CallWrite "not found"]))
            NewProxyResponseWriter) = (resp, None)
    /\ StatusCode resp = 404%Z /\ StatusDescription resp = "404".
Proof.
  destruct (last_WriteHeader_wins [CallWrite "a"; CallWriteHeader 500]
              [CallWrite "not found"] 404 NewProxyResponseWriter)
    as (_ & resp & H1 & H2 & H3).
  - reflexivity.
  - discriminate.
  - exists resp. split; [exact H1|]. split; [exact H2|]. rewrite H3. reflexivity.
Defined.

(** X2.  [WriteHeader(-1)] unsets the status, whatever it was: if no [Write]
    follows, [GetProxyResponse] fails as on a fresh writer, and if a [Write]
    follows (and no [WriteHeader]) the status is 200. *)
Theorem WriteHeader_sentinel (cs cs' : list call) (w : ProxyResponseWriter) :
  existsb isWriteHeader cs' = false ->
  status (exec (doCalls (cs ++ CallWriteHeader defaultStatusCode :: cs')) w)
  = (if existsb isWrite cs' then http.StatusOK else defaultStatusCode)
  /\ (existsb isWrite cs' = false ->
      eval GetProxyResponse (exec (doCalls (cs ++ CallWriteHeader defaultStatusCode :: cs')) w)
      = (emptyResponse, Some (errorString "Status code not set on response"))).
Proof.
  intros Hh.
  assert (E : status (exec (doCalls (cs ++ CallWriteHeader defaultStatusCode :: cs')) w)
              = if existsb isWrite cs' then http.StatusOK else defaultStatusCode).
  { rewrite doCalls_app, doCalls_cons.
    set (w1 := exec (doCall (CallWriteHeader defaultStatusCode)) (exec (doCalls cs) w)).
    assert (H1 : status w1 = defaultStatusCode) by reflexivity.
    destruct (existsb isWrite cs') eqn:Hw.
    - apply doCalls_written; [exact Hh|]. right. split; assumption.
    - rewrite doCalls_untouched by assumption. exact H1. }
  split; [exact E|]. intros Hw. apply GetProxyResponse_unset. rewrite E, Hw. reflexivity.
Qed.

(** The theorem [WriteHeader_sentinel] at a sample input. *)
Lemma WriteHeader_sentinel_witness :
  status (exec (doCalls ([CallWriteHeader 404] ++ CallWriteHeader defaultStatusCode
                           :: [CallWrite "x"])) NewProxyResponseWriter) = 200%Z
  /\ eval GetProxyResponse
       (exec (doCalls ([CallWriteHeader 404] ++ CallWriteHeader defaultStatusCode :: []))
             NewProxyResponseWriter)
     = (emptyResponse, Some (errorString "Status code not set on response")).
Proof.
  split.
  - apply (proj1 (WriteHeader_sentinel [CallWriteHeader 404] [CallWrite "x"]
                    NewProxyResponseWriter eq_refl)).
  - apply (proj2 (WriteHeader_sentinel [CallWriteHeader 404] [] NewProxyResponseWriter eq_refl)).
    reflexivity.
Defined.

Lemma doCall_body c w :
  body (exec (doCall c) w) = body w +:+ writtenBytes [c].
Proof.
  destruct c; cbn [writtenBytes]; rewrite ?append_empty_r; try reflexivity.
  simpl. rewrite exec_bind. apply Write_body.
Qed.

(** X3.  The buffer after any calls is the buffer before them followed by
    the written chunks in the order of the writes; [WriteHeader] and header
    changes leave it alone, and [Write] returns the length of its chunk and
    a nil error. *)
Theorem body_accumulates (cs : list call) (w : ProxyResponseWriter) :
  body (exec (doCalls cs) w) = body w +:+ writtenBytes cs
  /\ forall p w', eval (Write p) w' = (Z.of_nat (String.length p), None).
Proof.
  split; [|intros p w'; apply Write_result].
  revert w. induction cs as [|c cs IH]; intros w.
  - cbn. rewrite append_empty_r. reflexivity.
  - rewrite doCalls_cons, IH, doCall_body, append_assoc.
    destruct c; cbn [writtenBytes]; rewrite ?append_empty_r, ?append_nil; reflexivity.
Qed.

(** ** The headers under [Write] *)

Lemma exec_ret {S A} (a : A) (s : S) : exec (mret a : State S A) s = s.
Proof. reflexivity. Qed.

Lemma doCall_Write p w : exec (doCall (CallWrite p)) w = exec (Write p) w.
Proof. simpl. rewrite exec_bind. reflexivity. Qed.

Lemma Add_other key value (h : HeaderMap) name :
  textproto.CanonicalMIMEHeaderKey key <> name ->
  header.Add key value h !! name = h !! name.
Proof. intros H. unfold header.Add. apply lookup_insert_ne, H. Qed.

Lemma doCall_other_headers c w name :
  isWriteOrWriteHeader c = true ->
  name <> contentTypeHeaderKey ->
  headers (exec (doCall c) w) !! name = headers w !! name.
Proof.
  intros Hc Hn. destruct c; try discriminate; [|reflexivity].
  rewrite doCall_Write, Write_headers.
  destruct (String.eqb _ _); [|reflexivity].
  apply Add_other. rewrite canonical_contentType. congruence.
Qed.

(** X4.  [Write] and [WriteHeader] never touch a header other than
    Content-Type: after any series of them every other header name is
    bound as before. *)
Theorem Write_keeps_other_headers (cs : list call) (w : ProxyResponseWriter) (name : string) :
  forallb isWriteOrWriteHeader cs = true ->
  name <> contentTypeHeaderKey ->
  headers (exec (doCalls cs) w) !! name = headers w !! name.
Proof.
  revert w. induction cs as [|c cs IH]; intros w Hcs Hn; [reflexivity|].
  simpl in Hcs. apply andb_prop in Hcs as [Hc Hcs].
  rewrite doCalls_cons, IH, doCall_other_headers by assumption. reflexivity.
Qed.

(** The theorem [Write_keeps_other_headers] at a sample input. *)
Lemma Write_keeps_other_headers_witness :
  headers (exec (doCalls [CallWrite "<p>"; CallWriteHeader 201; CallWrite "x"])
             (mkWriter {[ "X-Trace" := ["1"] ]} "" defaultStatusCode)) !! "X-Trace"
  = Some ["1"].
Proof.
  rewrite (Write_keeps_other_headers [CallWrite "<p>"; CallWriteHeader 201; CallWrite "x"]
             (mkWriter {[ "X-Trace" := ["1"] ]} "" defaultStatusCode) "X-Trace").
  - reflexivity.
  - reflexivity.
  - discriminate.
Defined.

Lemma first_match_nonempty sigs data ws : sniff.first_match sigs data ws <> EmptyString.
Proof.
  induction sigs as [|sig sigs IH]; [discriminate|].
  cbn [sniff.first_match].
  destruct (String.eqb_spec (sniff.match_sig sig data ws) EmptyString); assumption.
Qed.

Lemma DetectContentType_nonempty p : sniff.DetectContentType p <> EmptyString.
Proof. apply first_match_nonempty. Qed.

Lemma Write_fixed_contentType p w v vs :
  headers w !! contentTypeHeaderKey = Some (v :: vs) ->
  v <> EmptyString ->
  headers (exec (Write p) w) !! contentTypeHeaderKey = Some (v :: vs).
Proof.
  intros H Hv. rewrite Write_headers, Get_contentType, H.
  destruct (String.eqb_spec v EmptyString); [contradiction|exact H].
Qed.

Lemma writes_fixed_contentType ps : forall w v vs,
  headers w !! contentTypeHeaderKey = Some (v :: vs) ->
  v <> EmptyString ->
  headers (exec (doCalls (map CallWrite ps)) w) !! contentTypeHeaderKey = Some (v :: vs).
Proof.
  induction ps as [|p ps IH]; intros w v vs H Hv; [exact H|].
  cbn [map]. rewrite doCalls_cons. apply IH; [|exact Hv].
  rewrite doCall_Write. apply Write_fixed_contentType; assumption.
Qed.

(** X5.  On a writer without a Content-Type, the header after a series of
    writes is the single type sniffed from the first chunk, which is never
    empty: what later chunks hold does not change it. *)
Theorem first_Write_decides_content_type (p : string) (ps : list string)
  (w : ProxyResponseWriter) :
  headers w !! contentTypeHeaderKey = None ->
  headers (exec (doCalls (map CallWrite (p :: ps))) w) !! contentTypeHeaderKey
  = Some [sniff.DetectContentType p]
  /\ sniff.DetectContentType p <> EmptyString.
Proof.
  intros H. split; [|apply DetectContentType_nonempty].
  cbn [map]. rewrite doCalls_cons.
  apply writes_fixed_contentType; [|apply DetectContentType_nonempty].
  rewrite doCall_Write, Write_headers, Get_contentType, H. cbn [String.eqb].
  rewrite Add_contentType, H. reflexivity.
Qed.

(** The theorem [first_Write_decides_content_type] at a sample input. *)
Lemma first_Write_decides_content_type_witness :
  headers (exec (doCalls (map CallWrite ["<ht"; "ml><body>"])) NewProxyResponseWriter)
    !! contentTypeHeaderKey
  = Some ["text/plain; charset=utf-8"].
Proof.
  destruct (first_Write_decides_content_type "<ht" ["ml><body>"] NewProxyResponseWriter)
    as [H _].
  - reflexivity.
  - rewrite H. reflexivity.
Defined.

(** ** The body of the outbound record *)

Lemma asciiOnly_cons c s :
  asciiOnly (String c s) = (byte_val c <? utf8.RuneSelf)%N && asciiOnly s.
Proof. reflexivity. Qed.

Lemma Valid_asciiOnly s : asciiOnly s = true -> utf8.Valid s = true.
Proof.
  induction s as [|c s IH]; intros H; [reflexivity|].
  rewrite asciiOnly_cons in H. apply andb_prop in H as [Hc Hs].
  cbn [utf8.Valid]. rewrite Hc. apply IH, Hs.
Qed.

Lemma encode_ascii s : (byte_val (base64.encode s) <? utf8.RuneSelf)%N = true.
Proof.
  destruct s as [[[[[b5 b4] b3] b2] b1] b0].
  destruct b5, b4, b3, b2, b1, b0; reflexivity.
Qed.

Lemma EncodeToString_asciiOnly src : asciiOnly (base64.EncodeToString src) = true.
Proof.
  induction src as [| [] | [] [] | [] [] [] rest IH] using string_ind3;
    cbn [base64.EncodeToString]; rewrite ?asciiOnly_cons, ?encode_ascii, ?IH; reflexivity.
Qed.

(** X6.  For a writer with a status, the body of the outbound record is
    always valid UTF-8 (and plain ASCII when the base64 flag is set); its
    multi-value headers are the writer's header map and its single-value
    headers are empty. *)
Theorem outbound_body_is_text (w : ProxyResponseWriter) :
  status w <> defaultStatusCode ->
  exists resp,
    eval GetProxyResponse w = (resp, None)
    /\ utf8.Valid (RespBody resp) = true
    /\ (RespIsBase64Encoded resp = true -> asciiOnly (RespBody resp) = true)
    /\ RespMultiValueHeaders resp = headers w
    /\ RespHeaders resp = ∅.
Proof.
  intros H. eexists. split; [apply GetProxyResponse_set, H|].
  cbn [RespBody RespIsBase64Encoded RespMultiValueHeaders RespHeaders].
  destruct (utf8.Valid (body w)) eqn:E; cbn [negb].
  - split; [exact E|]. split; [discriminate|]. split; reflexivity.
  - split; [apply Valid_asciiOnly, EncodeToString_asciiOnly|].
    split; [intros _; apply EncodeToString_asciiOnly|]. split; reflexivity.
Qed.

(** The theorem [outbound_body_is_text] at a sample input. *)
Lemma outbound_body_is_text_witness :
  exists resp,
    eval GetProxyResponse (mkWriter ∅ (String (ascii_of_nat 200) "") 200) = (resp, None)
    /\ utf8.Valid (RespBody resp) = true.
Proof.
  destruct (outbound_body_is_text (mkWriter ∅ (String (ascii_of_nat 200) "") 200))
    as (resp & H1 & H2 & _).
  - discriminate.
  - exists resp. split; assumption.
Defined.



(** ** [StripBasePath] and the stripping of the path *)

Lemma TrimLeft_spaces s : all_bytes (Ascii.eqb " ") s = true -> GoStrings.TrimLeft s " " = EmptyString.
Proof.
  induction s as [|c s IH]; intros H; [reflexivity|].
  rewrite all_bytes_cons in H. apply andb_prop in H as [Hc Hs].
  apply Ascii.eqb_eq in Hc. subst c. cbn. apply IH, Hs.
Qed.

Lemma TrimRight_slash s : GoStrings.TrimRight (String "/" s) " " <> EmptyString.
Proof. cbn. destruct (GoStrings.TrimRight s " "); discriminate. Qed.

Lemma Trim_slash s : GoStrings.Trim (String "/" s) " " <> EmptyString.
Proof. unfold GoStrings.Trim. cbn [GoStrings.TrimLeft byte_in Ascii.eqb]. apply TrimRight_slash. Qed.

Lemma take_all_but_last_slash s :
  s <> EmptyString ->
  GoStrings.take (String.length (String "/" s) - 1) (String "/" s)
  = String "/" (GoStrings.take (String.length s - 1) s).
Proof.
  intros H. destruct s as [|c s]; [contradiction|]. cbn [String.length].
  replace (S (S (String.length s)) - 1)%nat with (S (String.length s)) by lia.
  replace (S (String.length s) - 1)%nat with (String.length s) by lia.
  reflexivity.
Qed.

Lemma StripBasePath_slashed basePath r :
  GoStrings.Trim basePath " " <> EmptyString ->
  exists s,
    (if GoStrings.HasPrefix basePath "/" then basePath else "/" +:+ basePath) = String "/" s
    /\ StripBasePath basePath r =
       (let n := String "/" s in
        if GoStrings.HasSuffix n "/" then GoStrings.take (String.length n - 1) n else n,
        mkAccessor (let n := String "/" s in
                    if GoStrings.HasSuffix n "/"
                    then GoStrings.take (String.length n - 1) n else n)).
Proof.
  intros Ht. unfold StripBasePath.
  destruct (String.eqb_spec (GoStrings.Trim basePath " ") EmptyString); [contradiction|].
  destruct (GoStrings.HasPrefix basePath "/") eqn:Hp; cbn [negb].
  - destruct (prefix_slash_inv _ Hp) as [s ->]. exists s. split; [reflexivity|].
    cbv zeta. destruct (GoStrings.HasSuffix _ _); reflexivity.
  - exists basePath. split; [reflexivity|].
    change ("/" +:+ basePath) with (String "/" basePath).
    cbv zeta. destruct (GoStrings.HasSuffix _ _); reflexivity.
Qed.

Lemma StripBasePath_shape basePath r :
  exists ret,
    StripBasePath basePath r = (ret, mkAccessor ret)
    /\ (ret = EmptyString \/ GoStrings.HasPrefix ret "/" = true).
Proof.
  destruct (String.eqb_spec (GoStrings.Trim basePath " ") EmptyString) as [Ht|Ht].
  - exists EmptyString. unfold StripBasePath. rewrite Ht. split; [reflexivity|left; reflexivity].
  - destruct (StripBasePath_slashed basePath r Ht) as (s & _ & E). rewrite E. cbv zeta.
    eexists. split; [reflexivity|].
    destruct (GoStrings.HasSuffix (String "/" s) "/"); [|right; apply HasPrefix_slash].
    destruct s as [|c s]; [left; reflexivity|].
    rewrite take_all_but_last_slash by discriminate. right. apply HasPrefix_slash.
Qed.

(** X8.  [StripBasePath] returns the prefix it stores; the result does not
    depend on what the accessor held; the stored prefix is empty or begins
    with a slash; it is empty for an input of spaces, and exactly when the
    input trims to nothing or is a single slash. *)
Theorem StripBasePath_stored (basePath : string) (r r' : RequestAccessor) :
  snd (StripBasePath basePath r) = mkAccessor (fst (StripBasePath basePath r))
  /\ StripBasePath basePath r = StripBasePath basePath r'
  /\ (fst (StripBasePath basePath r) = EmptyString
      \/ GoStrings.HasPrefix (fst (StripBasePath basePath r)) "/" = true)
  /\ (all_bytes (Ascii.eqb " ") basePath = true ->
      fst (StripBasePath basePath r) = EmptyString)
  /\ (fst (StripBasePath basePath r) = EmptyString <->
      GoStrings.Trim basePath " " = EmptyString \/ basePath = "/").
Proof.
  destruct (String.eqb_spec (GoStrings.Trim basePath " ") EmptyString) as [Ht|Ht].
  - assert (E : forall a, StripBasePath basePath a = (EmptyString, mkAccessor EmptyString)).
    { intros a. unfold StripBasePath. rewrite Ht. reflexivity. }
    rewrite !E. cbn [fst snd]. repeat split; auto.
  - destruct (StripBasePath_slashed basePath r Ht) as (s & Hn & E).
    destruct (StripBasePath_slashed basePath r' Ht) as (s' & Hn' & E').
    rewrite Hn in Hn'. injection Hn' as <-.
    rewrite E, E'. cbn [fst snd]. cbv zeta.
    split; [reflexivity|]. split; [reflexivity|].
    assert (Hall : all_bytes (Ascii.eqb " ") basePath = true -> False).
    { intros Ha. apply Ht. unfold GoStrings.Trim. rewrite (TrimLeft_spaces _ Ha). reflexivity. }
    destruct (GoStrings.HasSuffix (String "/" s) "/") eqn:Hs.
    + destruct s as [|c s].
      * split; [left; reflexivity|]. split; [reflexivity|].
        split; [intros _; right|reflexivity].
        destruct (GoStrings.HasPrefix basePath "/"); [exact Hn|].
        apply (f_equal String.length) in Hn. rewrite length_append in Hn.
        destruct basePath; [destruct Ht; reflexivity|cbn in Hn; lia].
      * rewrite take_all_but_last_slash by discriminate.
        split; [right; apply HasPrefix_slash|].
        split; [intros Ha; destruct (Hall Ha)|].
        split; [discriminate|]. intros [H|H]; [contradiction|].
        subst basePath. vm_compute in Hn. discriminate Hn.
    + split; [right; apply HasPrefix_slash|].
      split; [intros Ha; destruct (Hall Ha)|].
      split; [discriminate|]. intros [H|H]; [contradiction|].
      subst basePath. vm_compute in Hn. injection Hn as <-. vm_compute in Hs. discriminate Hs.
Qed.

(** X9.  When the prefix that [StripBasePath] returns does not end with a
    slash, passing it to [StripBasePath] again gives the same prefix and the
    same accessor. *)
Theorem StripBasePath_idempotent (basePath : string) (r r' : RequestAccessor) :
  GoStrings.HasSuffix (fst (StripBasePath basePath r)) "/" = false ->
  StripBasePath (fst (StripBasePath basePath r)) r' = StripBasePath basePath r.
Proof.
  intros Hs.
  destruct (StripBasePath_shape basePath r) as (ret & E & Hform).
  rewrite E in Hs |- *. cbn [fst] in *.
  destruct Hform as [->|Hp]; [reflexivity|].
  destruct (prefix_slash_inv _ Hp) as [s ->].
  unfold StripBasePath.
  destruct (String.eqb_spec (GoStrings.Trim (String "/" s) " ") EmptyString) as [Ht|_];
    [destruct (Trim_slash _ Ht)|].
  cbv zeta. rewrite Hp. cbn [negb]. rewrite Hs. reflexivity.
Qed.

(** The theorem [StripBasePath_idempotent] at a sample input. *)
Lemma StripBasePath_idempotent_witness :
  StripBasePath (fst (StripBasePath "api/v1/" (mkAccessor ""))) (mkAccessor "/old")
  = ("/api/v1", mkAccessor "/api/v1").
Proof.
  rewrite (StripBasePath_idempotent "api/v1/" (mkAccessor "") (mkAccessor "/old")).
  - reflexivity.
  - reflexivity.
Defined.

Lemma prefix_app p rest : String.prefix p (p +:+ rest) = true.
Proof.
  induction p as [|c p IH]; [destruct rest; reflexivity|].
  rewrite append_cons. cbn [String.prefix].
  destruct (ascii_dec c c); [exact IH|congruence].
Qed.

(** X10.  With a stored prefix of more than one byte, a path that begins
    with it loses exactly that leading occurrence (even in the middle of a
    segment, and not a later occurrence) and then gets a leading slash if it
    has none; a path that does not begin with the prefix, and every path
    when the prefix has at most one byte, only gets the leading slash. *)
Theorem strip_prefix_of_path (r : RequestAccessor) (req : ALBTargetGroupRequest) :
  (forall rest,
     (1 < String.length (stripBasePath r))%nat ->
     Path req = stripBasePath r +:+ rest ->
     strippedPath r req = if GoStrings.HasPrefix rest "/" then rest else "/" +:+ rest)
  /\ (GoStrings.HasPrefix (Path req) (stripBasePath r) = false ->
      strippedPath r req
      = if GoStrings.HasPrefix (Path req) "/" then Path req else "/" +:+ Path req)
  /\ ((String.length (stripBasePath r) <= 1)%nat ->
      strippedPath r req
      = if GoStrings.HasPrefix (Path req) "/" then Path req else "/" +:+ Path req).
Proof.
  split; [|split].
  - intros rest Hlen Hpath. unfold strippedPath. rewrite Hpath.
    apply Nat.ltb_lt in Hlen. rewrite Hlen.
    destruct (String.eqb_spec (stripBasePath r) EmptyString) as [E|_].
    { rewrite E in Hlen. discriminate. }
    cbn [negb andb]. unfold GoStrings.HasPrefix. rewrite prefix_app.
    rewrite Replace1_prefix by apply prefix_app.
    rewrite append_nil, drop_app_length.
    destruct (String.prefix "/" rest); reflexivity.
  - intros Hp. unfold strippedPath. rewrite Hp.
    destruct (negb _ && _); destruct (GoStrings.HasPrefix (Path req) "/"); reflexivity.
  - intros Hlen. unfold strippedPath.
    replace (1 <? String.length (stripBasePath r))%nat with false
      by (symmetry; apply Nat.ltb_ge; exact Hlen).
    rewrite andb_false_r. destruct (GoStrings.HasPrefix (Path req) "/"); reflexivity.
Qed.

(** The theorem [strip_prefix_of_path] at a sample input. *)
Lemma strip_prefix_of_path_witness :
  strippedPath (mkAccessor "/api") (sampleEvent "GET" "/apiary/api/x" "" false [] [] [])
  = "/ary/api/x"
  /\ strippedPath (mkAccessor "/api") (sampleEvent "GET" "/v1/api" "" false [] [] [])
     = "/v1/api"
  /\ strippedPath (mkAccessor "a") (sampleEvent "GET" "a/b" "" false [] [] []) = "/a/b".
Proof.
  split; [|split].
  - rewrite (proj1 (strip_prefix_of_path (mkAccessor "/api")
                      (sampleEvent "GET" "/apiary/api/x" "" false [] [] [])) "ary/api/x").
    + reflexivity.
    + cbn. lia.
    + reflexivity.
  - rewrite (proj1 (proj2 (strip_prefix_of_path (mkAccessor "/api")
                      (sampleEvent "GET" "/v1/api" "" false [] [] [])))).
    + reflexivity.
    + reflexivity.
  - rewrite (proj2 (proj2 (strip_prefix_of_path (mkAccessor "a")
                      (sampleEvent "GET" "a/b" "" false [] [] [])))).
    + reflexivity.
    + cbn. lia.
Defined.

(** The theorem [StripBasePath_stored] at a sample input. *)
Lemma StripBasePath_stored_witness :
  fst (StripBasePath "   " (mkAccessor "/api")) = EmptyString
  /\ fst (StripBasePath "/" (mkAccessor "/api")) = EmptyString.
Proof.
  destruct (StripBasePath_stored "   " (mkAccessor "/api") (mkAccessor ""))
    as (_ & _ & _ & Hblank & _).
  destruct (StripBasePath_stored "/" (mkAccessor "/api") (mkAccessor ""))
    as (_ & _ & _ & _ & Hiff).
  split.
  - apply Hblank. reflexivity.
  - apply Hiff. right. reflexivity.
Defined.

(** ** The context of the request, and the dispatch entry point *)

(** [EventToRequest] returns a request or an error, never both or neither. *)
Lemma EventToRequest_shape r env req :
  (exists httpRequest, EventToRequest r env req = (Some httpRequest, None))
  \/ (exists err, EventToRequest r env req = (None, Some err)).
Proof.
  unfold EventToRequest. destruct (decodeBody req); [|eauto].
  rewrite NewRequest_spec. cbv zeta.
  destruct (http.validMethod _); [|eauto].
  destruct (url.Parse _); eauto.
Qed.

(** X11.  [EventToRequestWithContext] succeeds exactly when
    [EventToRequest] does, with the same request but for its context and
    with the same error; from the context of its request
    [GetALBContextFromContext] returns the request context of the record and
    [GetRuntimeContextFromContext] the Lambda context of the caller's
    context, both with the flag true; on a context without the value both
    return the zero value and false. *)
Theorem context_round_trip (r : RequestAccessor) (env : Environ) (c : Context)
  (req : ALBTargetGroupRequest) :
  (forall httpRequest,
     EventToRequest r env req = (Some httpRequest, None) ->
     exists withContext,
       EventToRequestWithContext r env c req = (Some withContext, None)
       /\ GetALBContextFromContext (http.ctx withContext) = (RequestContext req, true)
       /\ GetRuntimeContextFromContext (http.ctx withContext) = (lambdaValue c, true)
       /\ lambdaValue (http.ctx withContext) = lambdaValue c
       /\ http.WithContext withContext (http.ctx httpRequest) = httpRequest)
  /\ (forall err,
        snd (EventToRequest r env req) = Some err ->
        EventToRequestWithContext r env c req = (None, Some err))
  /\ (ctxKeyValue c = None ->
      GetALBContextFromContext c = ({| TargetGroupArn := EmptyString |}, false)
      /\ GetRuntimeContextFromContext c = (None, false)).
Proof.
  split; [|split].
  - intros rq H. unfold EventToRequestWithContext. rewrite H.
    eexists. split; [reflexivity|]. destruct rq. repeat split.
  - intros err H. unfold EventToRequestWithContext.
    destruct (EventToRequest r env req) as [[rq|] [err'|]]; cbn in H;
      try discriminate; injection H as ->; reflexivity.
  - intros H. unfold GetALBContextFromContext, GetRuntimeContextFromContext. rewrite H.
    split; reflexivity.
Qed.

(** The theorem [context_round_trip] at a sample input. *)
Lemma context_round_trip_witness :
  exists withContext,
    EventToRequestWithContext (mkAccessor "") ∅
      (mkContext (Some {| lambdacontext.AwsRequestID := "req-1";
                          lambdacontext.InvokedFunctionArn := "arn:fn" |}) None)
      plainEvent = (Some withContext, None)
    /\ GetALBContextFromContext (http.ctx withContext) = (RequestContext plainEvent, true)
    /\ fst (GetRuntimeContextFromContext (http.ctx withContext))
       = Some {| lambdacontext.AwsRequestID := "req-1";
                 lambdacontext.InvokedFunctionArn := "arn:fn" |}.
Proof.
  destruct (EventToRequest (mkAccessor "") ∅ plainEvent) as [[rq|] [err|]] eqn:E;
    try (vm_compute in E; discriminate).
  destruct (proj1 (context_round_trip (mkAccessor "") ∅
                     (mkContext (Some {| lambdacontext.AwsRequestID := "req-1";
                                         lambdacontext.InvokedFunctionArn := "arn:fn" |}) None)
                     plainEvent) rq E) as (rq' & H1 & H2 & H3 & _).
  exists rq'. split; [exact H1|]. split; [exact H2|]. rewrite H3. reflexivity.
Defined.

(** X12.  [ProxyWithContext] has two outcomes.  Either it returns
    [TimeoutResponse] with an error, which happens when the translation
    fails or the handler leaves the status unset; or it returns no error and
    the record of the writer the handler leaves: its status, the decimal
    description, its headers, and a body that decodes (as the flag says) to
    the bytes of the buffer. *)
Theorem ProxyWithContext_outcomes (e : EchoLambda) (env : Environ) (c : Context)
  (req : ALBTargetGroupRequest) :
  (exists err,
     ProxyWithContext e env c req = (TimeoutResponse, Some err)
     /\ (fst (EventToRequest (accessor e) env req) = None
         \/ exists httpRequest,
              EventToRequest (accessor e) env req = (Some httpRequest, None)
              /\ status (exec (Echo e (Some (addToContext c httpRequest req)))
                           NewProxyResponseWriter) = defaultStatusCode))
  \/ (exists resp httpRequest,
        ProxyWithContext e env c req = (resp, None)
        /\ EventToRequest (accessor e) env req = (Some httpRequest, None)
        /\ let w := exec (Echo e (Some (addToContext c httpRequest req)))
                      NewProxyResponseWriter in
           status w <> defaultStatusCode
           /\ StatusCode resp = status w
           /\ StatusDescription resp = strconv.Itoa (status w)
           /\ RespMultiValueHeaders resp = headers w
           /\ responsePayload resp = Some (body w)).
Proof.
  unfold ProxyWithContext, EventToRequestWithContext.
  destruct (EventToRequest (accessor e) env req) as [[rq|] [err|]] eqn:E.
  - left. eexists. split; [reflexivity|]. left.
    exfalso. destruct (EventToRequest_shape (accessor e) env req) as [[? E']|[? E']];
      rewrite E' in E; discriminate.
  - unfold proxyInternal.
    set (w := exec (Echo e (Some (addToContext c rq req))) NewProxyResponseWriter).
    destruct (Z.eq_dec (status w) defaultStatusCode) as [Hs|Hs].
    + left. rewrite (GetProxyResponse_unset w Hs). eexists. split; [reflexivity|].
      right. exists rq. split; [reflexivity|exact Hs].
    + right. rewrite (GetProxyResponse_set w Hs). eexists. exists rq.
      split; [reflexivity|]. split; [reflexivity|]. cbv zeta.
      split; [exact Hs|].
      cbn [StatusCode StatusDescription RespMultiValueHeaders].
      split; [reflexivity|]. split; [reflexivity|]. split; [reflexivity|].
      unfold responsePayload. cbn [RespIsBase64Encoded RespBody].
      destruct (utf8.Valid (body w)); cbn [negb];
        [reflexivity|apply base64_facts.DecodeString_EncodeToString].
  - left. eexists. split; [reflexivity|]. left. reflexivity.
  - exfalso. destruct (EventToRequest_shape (accessor e) env req) as [[? E']|[? E']];
      rewrite E' in E; discriminate.
Qed.

(** X13.  When the translation fails, what [ProxyWithContext] returns does
    not depend on the handler: it is not run. *)
Theorem handler_not_run_on_failure (r : RequestAccessor) (handler handler' : Handler)
  (env : Environ) (c : Context) (req : ALBTargetGroupRequest) :
  fst (EventToRequest r env req) = None ->
  ProxyWithContext (mkEchoLambda r handler) env c req
  = ProxyWithContext (mkEchoLambda r handler') env c req.
Proof.
  intros H. unfold ProxyWithContext, EventToRequestWithContext. cbn [accessor].
  destruct (EventToRequest r env req) as [[rq|] [err|]] eqn:E; cbn in H; try discriminate.
  - reflexivity.
  - exfalso. destruct (EventToRequest_shape r env req) as [[? E']|[? E']];
      rewrite E' in E; discriminate.
Qed.

(** The theorem [handler_not_run_on_failure] at a sample input. *)
Lemma handler_not_run_on_failure_witness :
  ProxyWithContext (mkEchoLambda (mkAccessor "") echoHandler) ∅ Background corruptBodyEvent
  = ProxyWithContext (mkEchoLambda (mkAccessor "") silentHandler) ∅ Background corruptBodyEvent.
Proof.
  apply (handler_not_run_on_failure (mkAccessor "") echoHandler silentHandler ∅ Background
           corruptBodyEvent).
  reflexivity.
Defined.

(** X14.  A record whose body is the standard base64 of bytes that are not
    valid UTF-8 gives the handler those bytes, and through the echo handler
    comes back with the same body text and the base64 flag set. *)
Theorem binary_round_trip (r : RequestAccessor) (env : Environ) (req : ALBTargetGroupRequest)
  (payload : string) (httpRequest : http.Request) :
  IsBase64Encoded req = true ->
  Body req = base64.EncodeToString payload ->
  utf8.Valid payload = false ->
  EventToRequest r env req = (Some httpRequest, None) ->
  http.ReqBody httpRequest = payload
  /\ exists out,
       roundTrip r env req = (out, None)
       /\ RespBody out = Body req
       /\ RespIsBase64Encoded out = true.
Proof.
  intros Hf Hb Hv H.
  destruct (EventToRequest_inv r env req httpRequest H) as [_ Hd].
  unfold decodeBody in Hd. rewrite Hf, Hb, base64_facts.DecodeString_EncodeToString in Hd.
  injection Hd as Hd. split; [symmetry; exact Hd|].
  unfold roundTrip. rewrite H, echoHandler_fresh.
  eexists. split; [apply GetProxyResponse_set; discriminate|].
  cbn [RespBody RespIsBase64Encoded body]. rewrite <- Hd, Hv, Hb. split; reflexivity.
Qed.

(** The theorem [binary_round_trip] at a sample input. *)
Lemma binary_round_trip_witness :
  exists out,
    roundTrip (mkAccessor "") ∅ (sampleEvent "POST" "/blob" "/wA=" true [] [] []) = (out, None)
    /\ RespBody out = "/wA=" /\ RespIsBase64Encoded out = true.
Proof.
  destruct (EventToRequest (mkAccessor "") ∅ (sampleEvent "POST" "/blob" "/wA=" true [] [] []))
    as [[rq|] [err|]] eqn:E; try (vm_compute in E; discriminate).
  destruct (binary_round_trip (mkAccessor "") ∅
              (sampleEvent "POST" "/blob" "/wA=" true [] [] [])
              (String (ascii_of_nat 255) (String (ascii_of_nat 0) "")) rq)
    as (_ & out & H1 & H2 & H3); try reflexivity.
  - exact E.
  - exists out. split; [exact H1|]. split; [exact H2|exact H3].
Defined.

(** ** The method of the request *)


Lemma upper_byte_token c :
  textproto.validHeaderFieldByte (GoStrings.upper_byte c) = textproto.validHeaderFieldByte c.
Proof. destruct c as [[] [] [] [] [] [] [] []]; reflexivity. Qed.

Lemma ToUpper_token s :
  all_bytes textproto.validHeaderFieldByte (GoStrings.ToUpper s)
  = all_bytes textproto.validHeaderFieldByte s.
Proof.
  induction s as [|c s IH]; [reflexivity|].
  cbn [GoStrings.ToUpper GoStrings.map_bytes]. rewrite !all_bytes_cons, upper_byte_token.
  f_equal. exact IH.
Qed.


Lemma ToUpper_empty s : String.eqb (GoStrings.ToUpper s) EmptyString = String.eqb s EmptyString.
Proof. destruct s; reflexivity. Qed.




Lemma any_bad_not_all_token s :
  any_byte badMethodByte s = true -> all_bytes textproto.validHeaderFieldByte s = false.
Proof.
  induction s as [|c s IH]; [discriminate|].
  change (any_byte badMethodByte (String c s))
    with (badMethodByte c || any_byte badMethodByte s).
  rewrite all_bytes_cons. intros H. apply orb_prop in H as [H|H].
  - unfold badMethodByte in H. apply andb_prop in H as [_ H].
    apply negb_true_iff in H. rewrite H. reflexivity.
  - rewrite (IH H), andb_false_r. reflexivity.
Qed.

(** X16.  A method that holds an ASCII byte that is not a token byte (a
    space, a slash, a control byte) makes [EventToRequest] return no request
    and an error, whatever the rest of the record. *)
Theorem method_rejected (r : RequestAccessor) (env : Environ) (req : ALBTargetGroupRequest) :
  any_byte badMethodByte (HTTPMethod req) = true ->
  exists err, EventToRequest r env req = (None, Some err).
Proof.
  intros H. unfold EventToRequest. destruct (decodeBody req); [|eauto].
  rewrite NewRequest_spec. cbv zeta. rewrite ToUpper_empty.
  destruct (String.eqb_spec (HTTPMethod req) EmptyString) as [E|_].
  { rewrite E in H. discriminate. }
  unfold http.validMethod. rewrite ToUpper_token, (any_bad_not_all_token _ H), andb_false_r.
  eauto.
Qed.

(** The theorem [method_rejected] at a sample input. *)
Lemma method_rejected_witness :
  exists err,
    EventToRequest (mkAccessor "") ∅ (sampleEvent "GET /x" "/" "" false [] [] [])
    = (None, Some err).
Proof.
  apply (method_rejected (mkAccessor "") ∅ (sampleEvent "GET /x" "/" "" false [] [] [])).
  reflexivity.
Defined.

(** ** The URL of a well-formed record, and paths that do not parse *)

Lemma all_bytes_drop p n : forall s,
  all_bytes p s = true -> all_bytes p (GoStrings.drop n s) = true.
Proof.
  induction n as [|n IH]; intros [|c s] H; cbn [GoStrings.drop]; try exact H.
  rewrite all_bytes_cons in H. apply andb_prop in H as [_ H]. apply IH, H.
Qed.

Lemma strippedPath_bytes p r req :
  p "/"%char = true ->
  all_bytes p (Path req) = true ->
  all_bytes p (strippedPath r req) = true.
Proof.
  intros Hslash H. destruct (strippedPath_spec r req) as (tail & Ht & ->).
  assert (Hc : all_bytes p tail = true).
  { destruct Ht as [->|[_ ->]]; [exact H|]. apply all_bytes_drop, H. }
  destruct (GoStrings.HasPrefix tail "/"); [exact Hc|].
  rewrite all_bytes_app, Hc, andb_true_r. cbn. rewrite Hslash. reflexivity.
Qed.

Lemma CTL_cons c s :
  url.stringContainsCTLByte (String c s)
  = ((byte_val c <? 32)%N || (byte_val c =? 127)%N) || url.stringContainsCTLByte s.
Proof. reflexivity. Qed.

Lemma CTL_app a b :
  url.stringContainsCTLByte (a +:+ b)
  = url.stringContainsCTLByte a || url.stringContainsCTLByte b.
Proof.
  induction a as [|c a IH]; [reflexivity|].
  rewrite append_cons, !CTL_cons, IH, orb_assoc. reflexivity.
Qed.

Lemma no_CTL p s :
  (forall c, p c = true -> (byte_val c <? 32)%N || (byte_val c =? 127)%N = false) ->
  all_bytes p s = true -> url.stringContainsCTLByte s = false.
Proof.
  intros Hp. induction s as [|c s IH]; intros H; [reflexivity|].
  rewrite all_bytes_cons in H. apply andb_prop in H as [Hc Hs].
  rewrite CTL_cons, (Hp c Hc), (IH Hs). reflexivity.
Qed.

Lemma queryByte_not_CTL c :
  queryByte c = true -> (byte_val c <? 32)%N || (byte_val c =? 127)%N = false.
Proof. destruct c as [[] [] [] [] [] [] [] []]; vm_compute; congruence. Qed.

Lemma safePathByte_not_CTL c :
  safePathByte c = true -> (byte_val c <? 32)%N || (byte_val c =? 127)%N = false.
Proof.
  unfold safePathByte. intros H. apply andb_prop in H as [H _].
  apply negb_true_iff in H. exact H.
Qed.

Lemma safePathByte_plain c sep :
  byte_in sep "%?#" = true -> safePathByte c = true -> Ascii.eqb c sep = false.
Proof.
  intros Hsep H. unfold safePathByte in H. apply andb_prop in H as [_ H].
  apply negb_true_iff in H.
  destruct (Ascii.eqb_spec c sep) as [->|]; [congruence|reflexivity].
Qed.

Lemma unescape_plain s :
  all_bytes (fun c => negb (Ascii.eqb c "%")) s = true ->
  url.unescape s url.encodePath = Some s.
Proof.
  induction s as [|c s IH]; intros H; [reflexivity|].
  rewrite all_bytes_cons in H. apply andb_prop in H as [Hc Hs].
  apply negb_true_iff in Hc. cbn [url.unescape url.is_query_mode url.is_host_mode andb].
  rewrite Hc, (IH Hs). destruct (Ascii.eqb_spec c "+") as [->|]; reflexivity.
Qed.

Lemma all_bytes_weaken (p q : ascii -> bool) s :
  (forall c, p c = true -> q c = true) -> all_bytes p s = true -> all_bytes q s = true.
Proof.
  intros Hpq. induction s as [|c s IH]; intros H; [reflexivity|].
  rewrite all_bytes_cons in H |- *. apply andb_prop in H as [Hc Hs].
  rewrite (Hpq c Hc), (IH Hs). reflexivity.
Qed.

Lemma queryPart_cases req :
  (queryPart req = EmptyString /\ url.splitQuery (queryPart req) = (EmptyString, EmptyString, false))
  \/ (exists pairs,
        queryPart req = "?" +:+ joinPairs pairs
        /\ url.splitQuery (queryPart req)
           = (EmptyString, joinPairs pairs, String.eqb (joinPairs pairs) EmptyString)).
Proof.
  destruct (queryPart_form req) as [E|[pairs E]]; rewrite E.
  - left. split; reflexivity.
  - right. exists pairs. split; [reflexivity|].
    apply splitQuery_query. apply (joinPairs_clean pairs).
Qed.

Lemma queryPart_bytes req : all_bytes (fun c => queryByte c || Ascii.eqb c "?") (queryPart req) = true.
Proof.
  destruct (queryPart_form req) as [E|[pairs E]]; rewrite E; [reflexivity|].
  rewrite all_bytes_app. cbn [all_bytes list_ascii_of_string forallb].
  apply (all_bytes_weaken queryByte); [|apply joinPairs_bytes].
  intros c Hc. rewrite Hc. reflexivity.
Qed.

Lemma queryPartByte_not_CTL c :
  queryByte c || Ascii.eqb c "?" = true ->
  (byte_val c <? 32)%N || (byte_val c =? 127)%N = false.
Proof. destruct c as [[] [] [] [] [] [] [] []]; vm_compute; congruence. Qed.

(** The URL of a record at the default address, when the path after the
    first slash is [tail] and holds only safe bytes. *)
Lemma Parse_safe_path tail req :
  all_bytes safePathByte tail = true ->
  url.Parse (DefaultServerAddress +:+ String "/" tail +:+ queryPart req)
  = Some (url.mkURL "https" EmptyString None defaultHost (String "/" tail)
            (String.eqb (queryPart req) "?") (GoStrings.drop 1 (queryPart req)) EmptyString).
Proof.
  intros Hsafe.
  assert (Hplain : forall sep, byte_in sep "%?#" = true -> GoStrings.Contains tail sep = false).
  { intros sep Hsep. apply (all_bytes_Contains safePathByte); [exact Hsafe|].
    unfold safePathByte. rewrite Hsep, andb_false_r. reflexivity. }
  assert (Hqf : GoStrings.Contains (queryPart req) "#" = false).
  { apply (all_bytes_Contains _ _ _ (queryPart_bytes req)). reflexivity. }
  rewrite Parse_no_fragment.
  2:{ rewrite Contains_app, append_cons, Contains_cons, Contains_app, (Hplain "#"%char eq_refl), Hqf.
      reflexivity. }
  rewrite append_cons. rewrite parse_default_address.
  replace (url.stringContainsCTLByte _) with false.
  2:{ symmetry. rewrite CTL_app, CTL_cons, CTL_app.
      rewrite (no_CTL safePathByte tail safePathByte_not_CTL Hsafe).
      rewrite (no_CTL _ (queryPart req) queryPartByte_not_CTL (queryPart_bytes req)).
      reflexivity. }
  rewrite (splitQuery_app tail (queryPart req) (Hplain "?"%char eq_refl)).
  assert (Hun : url.unescape tail url.encodePath = Some tail).
  { apply unescape_plain. apply (all_bytes_weaken safePathByte); [|exact Hsafe].
    intros c Hc. rewrite (safePathByte_plain c "%" eq_refl Hc). reflexivity. }
  destruct (queryPart_cases req) as [[E Hs]|(pairs & E & Hs)]; rewrite Hs, append_empty_r, Hun;
    rewrite E; cbn [mbind option_bind].
  - reflexivity.
  - change (GoStrings.drop 1 ("?" +:+ joinPairs pairs)) with (joinPairs pairs).
    replace (String.eqb ("?" +:+ joinPairs pairs) "?")
      with (String.eqb (joinPairs pairs) EmptyString)
      by (destruct (joinPairs pairs); reflexivity).
    reflexivity.
Qed.

(** The URL of a record with a safe path, with the host override unset. *)
Lemma Parse_wellformed r env req :
  LookupEnv env CustomHostVariable = None ->
  all_bytes safePathByte (Path req) = true ->
  url.Parse (requestURL r env req)
  = Some (url.mkURL "https" EmptyString None defaultHost (strippedPath r req)
            (String.eqb (queryPart req) "?") (GoStrings.drop 1 (queryPart req)) EmptyString).
Proof.
  intros Henv Hp. unfold requestURL, serverAddress. rewrite Henv.
  pose proof (strippedPath_bytes safePathByte r req eq_refl Hp) as Hs.
  destruct (strippedPath_slash r req) as [tail Ht]. rewrite Ht in Hs |- *.
  rewrite all_bytes_cons in Hs. apply andb_prop in Hs as [_ Hs].
  apply (Parse_safe_path tail req Hs).
Qed.

(** The method that [http.NewRequest] is given, for a method of token bytes. *)
Lemma validMethod_tokens method :
  all_bytes textproto.validHeaderFieldByte method = true ->
  http.validMethod (if String.eqb (GoStrings.ToUpper method) EmptyString then "GET"
                    else GoStrings.ToUpper method) = true.
Proof.
  intros Hm. rewrite ToUpper_empty.
  destruct (String.eqb_spec method EmptyString) as [E|E]; [reflexivity|].
  unfold http.validMethod. rewrite ToUpper_token, Hm, ToUpper_empty.
  destruct (String.eqb_spec method EmptyString); [contradiction|reflexivity].
Qed.

(** X17.  With the host override unset, a record whose body decodes, whose
    method holds only token bytes and whose path holds no control byte and
    no [%], [?] or [#] is always translated: the URL of the request has the
    scheme and host of the default address, the stripped path as its path,
    the query that the loops built and no fragment; the body is the decoded
    body and the context is the background one. *)
Theorem wellformed_record_translates (r : RequestAccessor) (env : Environ)
  (req : ALBTargetGroupRequest) (decoded : string) :
  decodeBody req = Some decoded ->
  all_bytes textproto.validHeaderFieldByte (HTTPMethod req) = true ->
  LookupEnv env CustomHostVariable = None ->
  all_bytes safePathByte (Path req) = true ->
  exists httpRequest,
    EventToRequest r env req = (Some httpRequest, None)
    /\ http.URL httpRequest
       = url.mkURL "https" EmptyString None defaultHost (strippedPath r req)
           (String.eqb (queryPart req) "?") (GoStrings.drop 1 (queryPart req)) EmptyString
    /\ http.ReqHost httpRequest = defaultHost
    /\ http.ReqBody httpRequest = decoded
    /\ http.ctx httpRequest = Background.
Proof.
  intros Hd Hm Henv Hp.
  unfold EventToRequest. rewrite Hd, NewRequest_spec. cbv zeta.
  rewrite (validMethod_tokens _ Hm), (Parse_wellformed r env req Henv Hp).
  eexists. split; [reflexivity|].
  cbn [http.WithHeader http.URL http.ReqHost http.ReqBody http.ctx
       url.Scheme url.Opaque url.User url.Host url.Path url.ForceQuery url.RawQuery url.Fragment].
  repeat split.
Qed.

(** The theorem [wellformed_record_translates] at a sample input. *)
Lemma wellformed_record_translates_witness :
  exists httpRequest,
    EventToRequest (mkAccessor "/api") ∅ usersEvent = (Some httpRequest, None)
    /\ http.URL httpRequest
       = url.mkURL "https" "" None defaultHost "/users" false "page=2" "".
Proof.
  assert (Hd : decodeBody usersEvent = Some "") by reflexivity.
  assert (Hm : all_bytes textproto.validHeaderFieldByte (HTTPMethod usersEvent) = true)
    by reflexivity.
  assert (He : LookupEnv ∅ CustomHostVariable = None) by (vm_compute; reflexivity).
  assert (Hp : all_bytes safePathByte (Path usersEvent) = true) by reflexivity.
  destruct (wellformed_record_translates (mkAccessor "/api") ∅ usersEvent "" Hd Hm He Hp)
    as (rq & H1 & H2 & _).
  exists rq. split; [exact H1|]. rewrite H2. vm_compute. reflexivity.
Defined.

Lemma EventToRequest_unparsable r env req :
  url.Parse (requestURL r env req) = None ->
  exists err, EventToRequest r env req = (None, Some err).
Proof.
  intros H. unfold EventToRequest. destruct (decodeBody req); [|eauto].
  rewrite NewRequest_spec. cbv zeta. rewrite H.
  destruct (http.validMethod _); eauto.
Qed.

Lemma prefix_split p : forall s,
  String.prefix p s = true -> s = p +:+ GoStrings.drop (String.length p) s.
Proof.
  induction p as [|c p IH]; intros s H; [destruct s; reflexivity|].
  destruct s as [|d s]; [discriminate|]. cbn [String.prefix] in H.
  destruct (ascii_dec c d) as [<-|]; [|discriminate].
  rewrite append_cons. cbn [String.length GoStrings.drop]. f_equal. apply IH, H.
Qed.

(** The path after stripping is the path of the record without a prefix
    that is empty or the configured one, behind a slash if need be. *)
Lemma strippedPath_suffix r req :
  exists pre tail,
    Path req = pre +:+ tail
    /\ (pre = EmptyString \/ pre = stripBasePath r)
    /\ (strippedPath r req = tail \/ strippedPath r req = String "/" tail).
Proof.
  destruct (strippedPath_spec r req) as (tail & Ht & E).
  destruct Ht as [->|[Hp ->]].
  - exists EmptyString, (Path req). split; [reflexivity|]. split; [left; reflexivity|].
    rewrite E. destruct (GoStrings.HasPrefix _ _); [left|right]; reflexivity.
  - exists (stripBasePath r), (GoStrings.drop (String.length (stripBasePath r)) (Path req)).
    split; [apply prefix_split, Hp|]. split; [right; reflexivity|].
    rewrite E. clear Hp E. destruct (GoStrings.HasPrefix _ "/"); [left|right]; reflexivity.
Qed.

(** X18.  With the host override unset, a control byte in the path (outside
    a stripped prefix, and with no [#] in the path) makes [EventToRequest]
    return no request and an error. *)
Theorem path_control_byte_fails (r : RequestAccessor) (env : Environ)
  (req : ALBTargetGroupRequest) :
  LookupEnv env CustomHostVariable = None ->
  GoStrings.Contains (Path req) "#" = false ->
  url.stringContainsCTLByte (Path req) = true ->
  url.stringContainsCTLByte (stripBasePath r) = false ->
  exists err, EventToRequest r env req = (None, Some err).
Proof.
  intros Henv Hf Hctl Hpre. apply EventToRequest_unparsable.
  assert (Hs : url.stringContainsCTLByte (strippedPath r req) = true).
  { destruct (strippedPath_suffix r req) as (pre & tail & Hp & Hpre' & Hst).
    assert (Ht : url.stringContainsCTLByte tail = true).
    { rewrite Hp, CTL_app in Hctl. destruct Hpre' as [->| ->].
      - exact Hctl.
      - rewrite Hpre in Hctl. exact Hctl. }
    destruct Hst as [-> | ->]; [exact Ht|]. rewrite CTL_cons, Ht, orb_true_r. reflexivity. }
  unfold requestURL, serverAddress. rewrite Henv.
  rewrite Parse_no_fragment.
  2:{ rewrite !Contains_app, (strippedPath_clean r req "#" eq_refl Hf).
      rewrite (all_bytes_Contains _ _ "#" (queryPart_bytes req) eq_refl). reflexivity. }
  destruct (strippedPath_slash r req) as [tail Ht]. rewrite Ht in Hs |- *.
  rewrite append_cons, parse_default_address.
  replace (url.stringContainsCTLByte _) with true; [reflexivity|].
  symmetry. rewrite CTL_app, <- append_cons, CTL_app, Hs, orb_true_r. reflexivity.
Qed.

(** The theorem [path_control_byte_fails] at a sample input. *)
Lemma path_control_byte_fails_witness :
  exists err,
    EventToRequest (mkAccessor "/api") ∅
      (sampleEvent "GET" (String.append "/api/a" (String (ascii_of_nat 10) "b")) "" false [] [] [])
    = (None, Some err).
Proof.
  apply (path_control_byte_fails (mkAccessor "/api") ∅
           (sampleEvent "GET" (String.append "/api/a" (String (ascii_of_nat 10) "b")) ""
              false [] [] [])).
  - vm_compute. reflexivity.
  - reflexivity.
  - reflexivity.
  - reflexivity.
Defined.





(** ** Reading the query back *)

Lemma hex_round_trip c :
  url.ishex (url.hexdigit (byte_val c / 16)) && url.ishex (url.hexdigit (byte_val c mod 16)) = true
  /\ ascii_of_N (url.unhex (url.hexdigit (byte_val c / 16)) * 16
                 + url.unhex (url.hexdigit (byte_val c mod 16))) = c.
Proof. destruct c as [[] [] [] [] [] [] [] []]; vm_compute; split; reflexivity. Qed.

(** What [url.QueryEscape] produces, [url.QueryUnescape] reads back. *)
Lemma QueryUnescape_QueryEscape (s : string) :
  urlquery.QueryUnescape (url.QueryEscape s) = Some s.
Proof.
  unfold urlquery.QueryUnescape, url.QueryEscape.
  induction s as [|c s IH]; [reflexivity|].
  cbn [url.escape url.is_query_mode]. rewrite andb_true_r.
  destruct (Ascii.eqb_spec c " ") as [->|Hsp].
  - cbn [url.unescape url.is_query_mode]. change (Ascii.eqb "+" "%") with false.
    change (Ascii.eqb "+" "+") with true. cbv iota. rewrite IH. reflexivity.
  - destruct (url.shouldEscape c url.encodeQueryComponent) eqn:E.
    + cbn [url.unescape]. change (Ascii.eqb "%" "%") with true. cbv iota zeta.
      destruct (hex_round_trip c) as [Hh Hv]. rewrite Hh, Hv. cbn [negb andb].
      rewrite IH. reflexivity.
    + assert (Hp : Ascii.eqb c "%" = false).
      { destruct (Ascii.eqb_spec c "%") as [->|]; [discriminate E|reflexivity]. }
      assert (Hplus : Ascii.eqb c "+" = false).
      { destruct (Ascii.eqb_spec c "+") as [->|]; [discriminate E|reflexivity]. }
      cbn [url.unescape url.is_host_mode andb]. rewrite Hp, Hplus, IH. reflexivity.
Qed.

Lemma hexdigit_escapedByte n : escapedByte (url.hexdigit n) = true.
Proof.
  unfold url.hexdigit. generalize (N.to_nat n) as k. intros k.
  do 16 (destruct k as [|k]; [reflexivity|]). reflexivity.
Qed.

Lemma unescaped_escapedByte c :
  url.shouldEscape c url.encodeQueryComponent = false -> escapedByte c = true.
Proof.
  unfold url.shouldEscape, escapedByte. destruct (is_alnum c); [reflexivity|].
  cbn [url.is_host_mode andb orb].
  destruct (byte_in c "-_.~") eqn:E.
  - intros _. cbn in E |- *.
    repeat (apply orb_prop in E as [E|E]; [rewrite E, ?orb_true_r; reflexivity|]).
    discriminate.
  - destruct (byte_in c "$&+,/:;=?@"); discriminate.
Qed.

Lemma QueryEscape_escapedBytes s : all_bytes escapedByte (url.QueryEscape s) = true.
Proof.
  unfold url.QueryEscape. induction s as [|c s IH]; [reflexivity|].
  cbn [url.escape url.is_query_mode]. rewrite andb_true_r.
  destruct (Ascii.eqb c " "); [rewrite all_bytes_cons, IH; reflexivity|].
  destruct (url.shouldEscape c url.encodeQueryComponent) eqn:E.
  - rewrite !all_bytes_cons, !hexdigit_escapedByte, IH. reflexivity.
  - rewrite all_bytes_cons, (unescaped_escapedByte c E), IH. reflexivity.
Qed.

Lemma QueryEscape_without s sep :
  escapedByte sep = false -> GoStrings.Contains (url.QueryEscape s) sep = false.
Proof. intros H. apply (all_bytes_Contains escapedByte); [apply QueryEscape_escapedBytes|exact H]. Qed.

Lemma encodePair_without kv sep :
  escapedByte sep = false -> Ascii.eqb sep "=" = false ->
  GoStrings.Contains (encodePair kv) sep = false.
Proof.
  intros H Hne. unfold encodePair.
  rewrite !Contains_app, !QueryEscape_without by exact H. cbn. rewrite Hne. reflexivity.
Qed.

Lemma parsePair_encodePair kv : urlquery.parsePair (encodePair kv) = Some kv.
Proof.
  unfold urlquery.parsePair, encodePair.
  rewrite (Cut_app _ _ "=" (QueryEscape_without (fst kv) "=" eq_refl)).
  change (GoStrings.Cut ("=" +:+ url.QueryEscape (snd kv)) "=")
    with (EmptyString, url.QueryEscape (snd kv), true).
  cbv beta iota. rewrite append_empty_r, !QueryUnescape_QueryEscape.
  destruct kv; reflexivity.
Qed.

Lemma encodePair_nonempty kv : String.eqb (encodePair kv) EmptyString = false.
Proof.
  destruct (String.eqb_spec (encodePair kv) EmptyString) as [E|]; [|reflexivity].
  apply (f_equal (fun s => GoStrings.Contains s "=")) in E.
  unfold encodePair in E. rewrite !Contains_app in E. cbn in E.
  rewrite orb_true_r in E. discriminate.
Qed.

Lemma splitOn_clean sep s :
  GoStrings.Contains s sep = false -> urlquery.splitOn sep s = [s].
Proof.
  induction s as [|c s IH]; intros H; [reflexivity|].
  rewrite Contains_cons in H. apply orb_false_elim in H as [Hc Hs].
  cbn [urlquery.splitOn]. rewrite Ascii.eqb_sym, Hc, (IH Hs). reflexivity.
Qed.

Lemma splitOn_app sep a rest :
  GoStrings.Contains a sep = false ->
  urlquery.splitOn sep (a +:+ String sep rest) = a :: urlquery.splitOn sep rest.
Proof.
  induction a as [|c a IH]; intros H.
  - rewrite append_nil. cbn [urlquery.splitOn]. rewrite Ascii.eqb_refl. reflexivity.
  - rewrite Contains_cons in H. apply orb_false_elim in H as [Hc Ha].
    rewrite append_cons. cbn [urlquery.splitOn]. rewrite Ascii.eqb_sym, Hc, (IH Ha).
    reflexivity.
Qed.

Lemma parsePieces_cons kv rest pairs :
  urlquery.parsePieces rest = (pairs, false) ->
  urlquery.parsePieces (encodePair kv :: rest) = (kv :: pairs, false).
Proof.
  intros H. cbn [urlquery.parsePieces]. rewrite H.
  rewrite (encodePair_without kv ";" eq_refl eq_refl), encodePair_nonempty,
    parsePair_encodePair. reflexivity.
Qed.

Lemma parsePieces_joinPairs pairs :
  urlquery.parsePieces (urlquery.splitOn "&" (joinPairs pairs)) = (pairs, false).
Proof.
  unfold joinPairs. induction pairs as [|kv pairs IH]; [reflexivity|].
  destruct pairs as [|kv' pairs].
  - cbn [map String.concat].
    rewrite (splitOn_clean "&" _ (encodePair_without kv "&" eq_refl eq_refl)).
    apply parsePieces_cons. reflexivity.
  - change (map encodePair (kv :: kv' :: pairs))
      with (encodePair kv :: encodePair kv' :: map encodePair pairs).
    rewrite concat_cons2.
    change ("&" +:+ String.concat "&" (encodePair kv' :: map encodePair pairs))
      with (String "&" (String.concat "&" (map encodePair (kv' :: pairs)))).
    rewrite (splitOn_app "&" _ _ (encodePair_without kv "&" eq_refl eq_refl)).
    apply parsePieces_cons, IH.
Qed.

Lemma values_addValue (m : HeaderMap) kv key :
  default [] (urlquery.addValue m kv !! key)
  = if decide (fst kv = key) then default [] (m !! key) ++ [snd kv] else default [] (m !! key).
Proof.
  unfold urlquery.addValue. rewrite lookup_insert.
  destruct (decide _) as [->|]; reflexivity.
Qed.

Lemma values_fold_addValue pairs : forall (m : HeaderMap) key,
  default [] (fold_left urlquery.addValue pairs m !! key)
  = default [] (m !! key) ++ map snd (filter (fun kv => fst kv = key) pairs).
Proof.
  induction pairs as [|kv pairs IH]; intros m key.
  - cbn. rewrite app_nil_r. reflexivity.
  - cbn [fold_left]. rewrite IH, values_addValue, filter_cons.
    destruct (decide _); [|reflexivity]. rewrite <- app_assoc. reflexivity.
Qed.

Lemma fold_addValue_nonempty pairs : forall (m : HeaderMap),
  (forall key, m !! key <> Some []) ->
  forall key, fold_left urlquery.addValue pairs m !! key <> Some [].
Proof.
  induction pairs as [|kv pairs IH]; intros m Hm key; [apply Hm|].
  cbn [fold_left]. apply IH. intros key'. unfold urlquery.addValue.
  rewrite lookup_insert. destruct (decide _); [|apply Hm].
  intros Heq. injection Heq as Heq. destruct (default [] _); discriminate.
Qed.

Lemma filter_pairs_same q (l : list string) :
  map snd (filter (fun kv : string * string => fst kv = q) (map (pair q) l)) = l.
Proof.
  induction l as [|v l IH]; [reflexivity|].
  cbn [map]. rewrite filter_cons. cbn [fst].
  destruct (decide (q = q)); [|congruence]. cbn [map snd]. rewrite IH. reflexivity.
Qed.

Lemma filter_pairs_other q key (l : list string) :
  q <> key ->
  filter (fun kv : string * string => fst kv = key) (map (pair q) l) = [].
Proof.
  intros H. induction l as [|v l IH]; [reflexivity|].
  cbn [map]. rewrite filter_cons. cbn [fst].
  destruct (decide (q = key)); [congruence|exact IH].
Qed.

Lemma filter_multiPairs_other (m : gomap (list string)) key :
  key ∉ map fst m ->
  filter (fun kv : string * string => fst kv = key) (multiPairs m) = [].
Proof.
  induction m as [|[q l] m IH]; intros H; [reflexivity|].
  cbn [map fst] in H. apply not_elem_of_cons in H as [Hq Hm].
  cbn [multiPairs flat_map]. fold (multiPairs m). rewrite filter_app, (IH Hm), app_nil_r.
  apply filter_pairs_other. congruence.
Qed.

Lemma values_multiPairs (m : gomap (list string)) key l :
  gomap_ok m -> (key, l) ∈ m ->
  map snd (filter (fun kv : string * string => fst kv = key) (multiPairs m)) = l.
Proof.
  unfold gomap_ok. induction m as [|[q l'] m IH]; intros Hok Hin.
  - apply elem_of_nil in Hin. destruct Hin.
  - cbn [map fst] in Hok. apply NoDup_cons in Hok as [Hq Hok].
    cbn [multiPairs flat_map]. fold (multiPairs m). rewrite filter_app, map_app.
    apply elem_of_cons in Hin as [Hin|Hin].
    + injection Hin as <- <-.
      rewrite filter_pairs_same, (filter_multiPairs_other m key Hq), app_nil_r. reflexivity.
    + assert (Hne : q <> key).
      { intros <-. apply Hq. apply (list_elem_of_fmap_2 fst _ (q, l)). exact Hin. }
      rewrite (filter_pairs_other q key l' Hne). apply (IH Hok Hin).
Qed.

(** The raw query of the request, for a record with a multi-value map whose
    path and address hold neither [?] nor [#]. *)
Lemma RawQuery_multi r env req httpRequest :
  noQueryOrFragment (serverAddress env) = true ->
  noQueryOrFragment (Path req) = true ->
  MultiValueQueryStringParameters req <> [] ->
  EventToRequest r env req = (Some httpRequest, None) ->
  url.RawQuery (http.URL httpRequest)
  = joinPairs (multiPairs (MultiValueQueryStringParameters req))
  /\ url.ForceQuery (http.URL httpRequest)
     = String.eqb (joinPairs (multiPairs (MultiValueQueryStringParameters req))) EmptyString.
Proof.
  intros Hs Hp Hne H.
  destruct (EventToRequest_inv r env req httpRequest H) as [Hc Hd].
  destruct (EventToRequest_decoded r env req _ Hd) as [Hokk _].
  destruct (Hokk Hc) as (rq & E & _ & _ & u & Hu & _ & _ & Hrq & Hfq & _).
  rewrite E in H. injection H as <-. rewrite Hrq, Hfq.
  assert (Hsp : GoStrings.Contains (serverAddress env +:+ strippedPath r req) "/" = true).
  { destruct (strippedPath_slash r req) as [p ->].
    rewrite Contains_app. cbn. rewrite orb_true_r. reflexivity. }
  assert (Hclean : noQueryOrFragment (serverAddress env +:+ strippedPath r req) = true).
  { unfold noQueryOrFragment in *. apply andb_prop in Hs as [Hs1 Hs2].
    apply andb_prop in Hp as [Hp1 Hp2]. apply negb_true_iff in Hs1, Hs2, Hp1, Hp2.
    rewrite !Contains_app, Hs1, Hs2, !strippedPath_clean by (assumption || reflexivity).
    reflexivity. }
  rewrite requestURL_spec in Hu.
  destruct (MultiValueQueryStringParameters req) as [|m ms]; [contradiction|].
  destruct (Parse_query_of _ (multiPairs (m :: ms)) true u Hsp Hclean Hu) as [-> ->].
  split; reflexivity.
Qed.

(** X20.  For a record with a multi-value map (with a path and an address
    that hold neither [?] nor [#]), parsing the raw query of the request URL
    as [url.ParseQuery] does gives no error and, under every key of the map,
    exactly its values in their order; no other key is bound. *)
Theorem query_round_trip (r : RequestAccessor) (env : Environ) (req : ALBTargetGroupRequest)
  (httpRequest : http.Request) :
  noQueryOrFragment (serverAddress env) = true ->
  noQueryOrFragment (Path req) = true ->
  MultiValueQueryStringParameters req <> [] ->
  gomap_ok (MultiValueQueryStringParameters req) ->
  EventToRequest r env req = (Some httpRequest, None) ->
  snd (urlquery.ParseQuery (url.RawQuery (http.URL httpRequest))) = false
  /\ (forall key values,
        (key, values) ∈ MultiValueQueryStringParameters req ->
        default [] (fst (urlquery.ParseQuery (url.RawQuery (http.URL httpRequest))) !! key)
        = values)
  /\ (forall key,
        key ∉ map fst (MultiValueQueryStringParameters req) ->
        fst (urlquery.ParseQuery (url.RawQuery (http.URL httpRequest))) !! key = None).
Proof.
  intros Hs Hp Hne Hok H.
  destruct (RawQuery_multi r env req httpRequest Hs Hp Hne H) as [Hq _].
  rewrite Hq. unfold urlquery.ParseQuery. rewrite parsePieces_joinPairs. cbn [fst snd].
  split; [reflexivity|]. split.
  - intros key values Hin. rewrite values_fold_addValue, lookup_empty. cbn [default app].
    apply values_multiPairs; assumption.
  - intros key Hkey.
    pose proof (values_fold_addValue (multiPairs (MultiValueQueryStringParameters req)) ∅ key)
      as Hv.
    rewrite lookup_empty, (filter_multiPairs_other _ key Hkey) in Hv. cbn in Hv.
    destruct (fold_left _ _ _ !! key) as [vs|] eqn:E; [|reflexivity].
    exfalso. cbn in Hv. subst vs. revert E. apply fold_addValue_nonempty.
    intros k. rewrite lookup_empty. discriminate.
Qed.

(** The theorem [query_round_trip] at a sample input. *)
Lemma query_round_trip_witness :
  exists httpRequest,
    EventToRequest (mkAccessor "") ∅
      (sampleEvent "GET" "/find" "" false [] [("q", ["a b"; "c&d"]); ("lang", ["en"])] [])
    = (Some httpRequest, None)
    /\ default [] (fst (urlquery.ParseQuery (url.RawQuery (http.URL httpRequest))) !! "q")
       = ["a b"; "c&d"].
Proof.
  set (ev := sampleEvent "GET" "/find" "" false [] [("q", ["a b"; "c&d"]); ("lang", ["en"])] []).
  destruct (EventToRequest (mkAccessor "") ∅ ev) as [[rq|] [err|]] eqn:E;
    try (vm_compute in E; discriminate).
  exists rq. split; [reflexivity|].
  assert (Hs : noQueryOrFragment (serverAddress ∅) = true) by (vm_compute; reflexivity).
  assert (Hp : noQueryOrFragment (Path ev) = true) by reflexivity.
  assert (Hne : MultiValueQueryStringParameters ev <> []) by discriminate.
  assert (Hok : gomap_ok (MultiValueQueryStringParameters ev))
    by (apply (bool_decide_unpack _); vm_compute; exact I).
  destruct (query_round_trip (mkAccessor "") ∅ ev rq Hs Hp Hne Hok E) as (_ & Hv & _).
  apply Hv. left.
Defined.

(** ** Edge of the query, and a whole invocation *)




(** X22.  On a new adapter and a well-formed record (as in X17), with a
    handler that writes at least once and never calls [WriteHeader],
    [ProxyWithContext] returns no error and a record with status 200 whose
    body decodes to the bytes the handler wrote, in order; the handler is
    given the request with the decoded body and the path of the record. *)
Theorem invocation_of_wellformed_record (calls : option http.Request -> list call)
  (env : Environ) (c : Context) (req : ALBTargetGroupRequest) (decoded : string) :
  decodeBody req = Some decoded ->
  all_bytes textproto.validHeaderFieldByte (HTTPMethod req) = true ->
  LookupEnv env CustomHostVariable = None ->
  all_bytes safePathByte (Path req) = true ->
  (forall httpRequest,
     existsb isWrite (calls httpRequest) = true
     /\ existsb isWriteHeader (calls httpRequest) = false) ->
  exists resp httpRequest,
    ProxyWithContext (New (handlerOf calls)) env c req = (resp, None)
    /\ EventToRequestWithContext (mkAccessor EmptyString) env c req = (Some httpRequest, None)
    /\ http.ReqBody httpRequest = decoded
    /\ url.Path (http.URL httpRequest)
       = (if GoStrings.HasPrefix (Path req) "/" then Path req else "/" +:+ Path req)
    /\ StatusCode resp = 200%Z
    /\ StatusDescription resp = "200"
    /\ responsePayload resp = Some (writtenBytes (calls (Some httpRequest))).
Proof.
  intros Hd Hm Henv Hp Hcalls.
  assert (Hc : constructible (mkAccessor EmptyString) env req = true).
  { unfold constructible. rewrite (validMethod_tokens _ Hm), (Parse_wellformed _ _ _ Henv Hp).
    apply andb_true_intro. split; [reflexivity|]. apply bool_decide_eq_true. eauto. }
  destruct (proj1 (EventToRequest_decoded (mkAccessor EmptyString) env req decoded Hd) Hc)
    as (rq & E & Hbody & _ & u & Hu & _ & Hurl & _).
  rewrite (Parse_wellformed _ _ _ Henv Hp) in Hu. injection Hu as <-. cbn [url.Path] in Hurl.
  set (rq' := addToContext c rq req).
  destruct (Hcalls (Some rq')) as [Hw Hh].
  set (w := exec (doCalls (calls (Some rq'))) NewProxyResponseWriter).
  assert (Hst : status w = http.StatusOK).
  { apply doCalls_written; [exact Hh|]. right. split; [reflexivity|exact Hw]. }
  assert (Hb : body w = writtenBytes (calls (Some rq'))).
  { unfold w. generalize (calls (Some rq')) as cs. intros cs.
    change (writtenBytes cs) with (body NewProxyResponseWriter +:+ writtenBytes cs).
    generalize NewProxyResponseWriter as w0. induction cs as [|call cs IH]; intros w0.
    - cbn. rewrite append_empty_r. reflexivity.
    - rewrite doCalls_cons, IH, doCall_body, append_assoc.
      destruct call; cbn [writtenBytes]; rewrite ?append_empty_r, ?append_nil; reflexivity. }
  eexists. exists rq'.
  unfold ProxyWithContext, EventToRequestWithContext, New. cbn [accessor Echo].
  rewrite E. unfold proxyInternal, handlerOf. cbn [Echo]. cbv beta zeta. fold rq'. fold w.
  rewrite (GetProxyResponse_set w) by (rewrite Hst; discriminate).
  split; [reflexivity|]. split; [reflexivity|].
  split; [exact Hbody|].
  split; [unfold rq'; cbn [addToContext http.WithContext http.URL]; rewrite Hurl;
          apply strippedPath_unset|].
  cbn [StatusCode StatusDescription]. rewrite Hst.
  split; [reflexivity|]. split; [reflexivity|].
  unfold responsePayload. cbn [RespIsBase64Encoded RespBody]. rewrite Hb.
  destruct (utf8.Valid _); cbn [negb];
    [reflexivity|apply base64_facts.DecodeString_EncodeToString].
Qed.

(** The theorem [invocation_of_wellformed_record] at a sample input. *)
Lemma invocation_of_wellformed_record_witness :
  exists resp httpRequest,
    ProxyWithContext
      (New (handlerOf (fun _ => [CallHeaderSet "X-Served-By" "echo"; CallWrite "hel";
                                 CallWrite "lo"])))
      ∅ Background plainEvent = (resp, None)
    /\ EventToRequestWithContext (mkAccessor EmptyString) ∅ Background plainEvent
       = (Some httpRequest, None)
    /\ StatusCode resp = 200%Z
    /\ responsePayload resp = Some "hello".
Proof.
  assert (Hd : decodeBody plainEvent = Some "hi") by reflexivity.
  assert (Hm : all_bytes textproto.validHeaderFieldByte (HTTPMethod plainEvent) = true)
    by reflexivity.
  assert (He : LookupEnv ∅ CustomHostVariable = None) by (vm_compute; reflexivity).
  assert (Hp : all_bytes safePathByte (Path plainEvent) = true) by reflexivity.
  destruct (invocation_of_wellformed_record
              (fun _ => [CallHeaderSet "X-Served-By" "echo"; CallWrite "hel"; CallWrite "lo"])
              ∅ Background plainEvent "hi" Hd Hm He Hp)
    as (resp & rq & H1 & H2 & _ & _ & H3 & _ & H4).
  - intros rq. split; reflexivity.
  - exists resp, rq. split; [exact H1|]. split; [exact H2|]. split; [exact H3|exact H4].
Defined.
